(** * backbone.bootstrap-modal: a shallow embedding of the Modal view

    The development follows [src/backbone.bootstrap-modal.js].  The Modal
    is a Backbone view that drives collaborators which are not part of the
    repository: the template engine, jQuery's one-shot DOM handlers, and
    the Bootstrap dialog widget behind [$el.modal(...)].

    The code of the view ([initialize], [render], [open], [close],
    [preventClose], the [events] table and the handlers [open] and [close]
    register) is translated function by function, as state passing over a
    [Modal] instance and a [World] the instances share.  Every call the
    view makes to a collaborator, and every event it emits, is appended to
    a trace in the order it happens.

    The collaborators are represented by the state the view can observe:
    the backdrops in the document and their z-index texts, the one-shot
    handlers waiting on the element, the backdrops and the document, and,
    for the widget, whether it is showing and which completion signal it
    still owes.  What the view cannot control is a parameter: whether the
    widget fires 'shown'/'hidden' inside the command or after the caller
    has returned ([Timing]), the stylesheet's z-index of a backdrop, and
    what a caller-supplied [animate] function does with its continuation
    ([Reply]). *)

From Stdlib Require Import ZArith List String Ascii Bool Lia DecimalString.
Import ListNotations.
Open Scope string_scope.
Open Scope Z_scope.
Set Warnings "-register-all".

(** ** JavaScript values that reach the view *)

Module Js.

(** The primitive values an option can hold.  Numbers are the integers
    ([PNum], for an integer a double holds exactly) and [NaN]; fractions
    and the infinities are outside the model. *)
Inductive prim :=
| PUndefined
| PNull
| PBool (b : bool)
| PNum (n : Z)
| PNaN
| PStr (s : string).

(** [if (p)] *)
Definition truthy (p : prim) : bool :=
  match p with
  | PUndefined | PNull | PNaN => false
  | PBool b => b
  | PNum n => negb (n =? 0)
  | PStr s => negb (String.eqb s "")
  end.

(** [p === false] *)
Definition is_false (p : prim) : bool :=
  match p with PBool false => true | _ => false end.

(** [p === true] *)
Definition is_true (p : prim) : bool :=
  match p with PBool true => true | _ => false end.

(** [p === undefined] *)
Definition is_undefined (p : prim) : bool :=
  match p with PUndefined => true | _ => false end.

(** Decimal text of an integer, as [String(n)] prints it. *)
Definition dec (n : Z) : string := NilZero.string_of_int (Z.to_int n).

(** The integer a decimal text denotes, if it is one. *)
Definition undec (s : string) : option Z :=
  option_map Z.of_int (NilZero.int_of_string s).

(** [String(p)] *)
Definition to_text (p : prim) : string :=
  match p with
  | PUndefined => "undefined"
  | PNull => "null"
  | PBool true => "true"
  | PBool false => "false"
  | PNum n => dec n
  | PNaN => "NaN"
  | PStr s => s
  end.

(** *** [Number]

    What [Number(p)] is: an integer, [NaN], or a number the model does not
    carry (a fraction or an infinity). *)
Inductive Num :=
| Whole (n : Z)
| NotANumber
| Beyond.

(** The bytes of a text (texts are read as UTF-8). *)
Definition codes (s : string) : list Z :=
  map (fun c => Z.of_N (N_of_ascii c)) (list_ascii_of_string s).

(** White space and line terminators of the language: TAB, LF, VT, FF, CR
    and SP; U+00A0; U+1680, U+2000 to U+200A, U+2028, U+2029, U+202F,
    U+205F, U+3000 and U+FEFF. *)
Definition space1 (c : Z) : bool := (9 <=? c) && (c <=? 13) || (c =? 32).

Definition space2 (c1 c2 : Z) : bool := (c1 =? 194) && (c2 =? 160).

Definition space3 (c1 c2 c3 : Z) : bool :=
  (c1 =? 225) && (c2 =? 154) && (c3 =? 128)
  || (c1 =? 226) && (c2 =? 128)
     && ((128 <=? c3) && (c3 <=? 138) || (c3 =? 168) || (c3 =? 169)
         || (c3 =? 175))
  || (c1 =? 226) && (c2 =? 129) && (c3 =? 159)
  || (c1 =? 227) && (c2 =? 128) && (c3 =? 128)
  || (c1 =? 239) && (c2 =? 187) && (c3 =? 191).

(** One such character taken from the front (resp. from the front of the
    reversed text). *)
Definition skip_space (l : list Z) : option (list Z) :=
  match l with
  | c1 :: r1 =>
      if space1 c1 then Some r1
      else match r1 with
           | c2 :: r2 =>
               if space2 c1 c2 then Some r2
               else match r2 with
                    | c3 :: r3 => if space3 c1 c2 c3 then Some r3 else None
                    | [] => None
                    end
           | [] => None
           end
  | [] => None
  end.

Definition skip_space_back (l : list Z) : option (list Z) :=
  match l with
  | c1 :: r1 =>
      if space1 c1 then Some r1
      else match r1 with
           | c2 :: r2 =>
               if space2 c2 c1 then Some r2
               else match r2 with
                    | c3 :: r3 => if space3 c3 c2 c1 then Some r3 else None
                    | [] => None
                    end
           | [] => None
           end
  | [] => None
  end.

Fixpoint strip (skip : list Z -> option (list Z)) (fuel : nat) (l : list Z)
    : list Z :=
  match fuel with
  | O => l
  | S k => match skip l with
           | Some r => strip skip k r
           | None => l
           end
  end.

Definition trim (l : list Z) : list Z :=
  let l := strip skip_space (List.length l) l in
  rev (strip skip_space_back (List.length l) (rev l)).

(** The value of a digit in a radix up to 16, if it is one. *)
Definition digit (radix c : Z) : option Z :=
  let v := if (48 <=? c) && (c <=? 57) then c - 48
           else if (97 <=? c) && (c <=? 102) then c - 87
           else if (65 <=? c) && (c <=? 70) then c - 55
           else radix in
  if v <? radix then Some v else None.

(** The longest run of digits at the front: its value on top of [acc], its
    length on top of [len], and the rest. *)
Fixpoint scan (radix : Z) (l : list Z) (acc len : Z) : Z * Z * list Z :=
  match l with
  | c :: r =>
      match digit radix c with
      | Some v => scan radix r (acc * radix + v) (len + 1)
      | None => (acc, len, l)
      end
  | [] => (acc, len, [])
  end.

(** The double nearest to [num / den] (both positive), ties to even: 53
    significant bits, least exponent -1074, infinite from 2^1024 on. *)
Definition round_ratio (num den : Z) : Num :=
  let a := Z.log2 num - Z.log2 den in
  let e := if (if 0 <=? a then den * 2 ^ a <=? num else den <=? num * 2 ^ (- a))
           then a else a - 1 in
  let u := Z.max (e - 52) (-1074) in
  let n := if 0 <=? u then num else num * 2 ^ (- u) in
  let d := if 0 <=? u then den * 2 ^ u else den in
  let q := n / d in
  let r := n mod d in
  let q := if (d <? 2 * r) || ((d =? 2 * r) && Z.odd q) then q + 1 else q in
  if 0 <=? u
  then if 2 ^ 1024 <=? q * 2 ^ u then Beyond else Whole (q * 2 ^ u)
  else if q mod 2 ^ (- u) =? 0 then Whole (q / 2 ^ (- u)) else Beyond.

(** [mant * 10 ^ e10] as a double, for a mantissa of [len] digits.  A
    value of 10^311 or more is infinite and one below 10^-324 is zero;
    these are decided before any power is computed. *)
Definition scaled (mant len e10 : Z) : Num :=
  if mant =? 0 then Whole 0
  else if 310 <? e10 then Beyond
  else if len + e10 <? -324 then Whole 0
  else if 0 <=? e10 then round_ratio (mant * 10 ^ e10) 1
  else round_ratio mant (10 ^ (- e10)).

(** An exponent part, [e] or [E] with an optional sign and digits up to
    the end of the text, or nothing at all. *)
Definition exponent (l : list Z) : option Z :=
  match l with
  | [] => Some 0
  | c :: r =>
      if (c =? 101) || (c =? 69)
      then
        let '(neg, r) := match r with
                         | 43 :: r' => (false, r')
                         | 45 :: r' => (true, r')
                         | _ => (false, r)
                         end in
        match scan 10 r 0 0 with
        | (x, len, []) => if 0 <? len then Some (if neg then - x else x)
                          else None
        | _ => None
        end
      else None
  end.

(** An unsigned decimal literal: digits, a point and digits (one of the
    two runs may be empty), and an exponent part. *)
Definition decimal (l : list Z) : Num :=
  let '(i, ilen, r) := scan 10 l 0 0 in
  let '(f, flen, r) := match r with
                       | 46 :: r' => scan 10 r' i 0
                       | _ => (i, 0, r)
                       end in
  if ilen + flen =? 0 then NotANumber
  else match exponent r with
       | Some x => scaled f (ilen + flen) (x - flen)
       | None => NotANumber
       end.

Definition unsigned (l : list Z) : Num :=
  if list_eq_dec Z.eq_dec l (codes "Infinity") then Beyond else decimal l.

Definition negated (n : Num) : Num :=
  match n with Whole z => Whole (- z) | _ => n end.

(** The digits after [0x], [0o] or [0b]. *)
Definition radix_literal (radix : Z) (l : list Z) : Num :=
  match scan radix l 0 0 with
  | (v, len, []) => if 0 <? len
                    then if v =? 0 then Whole 0 else round_ratio v 1
                    else NotANumber
  | _ => NotANumber
  end.

(** [Number(s)] for a text: white space is trimmed; the empty text is 0;
    then a hexadecimal, octal or binary integer, or a signed decimal
    literal or [Infinity]; anything else is [NaN]. *)
Definition numeric (s : string) : Num :=
  match trim (codes s) with
  | [] => Whole 0
  | 43 :: r => unsigned r
  | 45 :: r => negated (unsigned r)
  | 48 :: x :: r =>
      if (x =? 120) || (x =? 88) then radix_literal 16 r
      else if (x =? 111) || (x =? 79) then radix_literal 8 r
      else if (x =? 98) || (x =? 66) then radix_literal 2 r
      else unsigned (48 :: x :: r)
  | l => unsigned l
  end.

(** [Number(p)] *)
Definition number (p : prim) : Num :=
  match p with
  | PUndefined | PNaN => NotANumber
  | PNull => Whole 0
  | PBool b => Whole (if b then 1 else 0)
  | PNum n => Whole n
  | PStr s => numeric s
  end.

(** [Number(p)] as a value of the model.  A text whose number is beyond
    the model's stands for that number itself. *)
Definition to_number (p : prim) : prim :=
  match number p with
  | Whole n => PNum n
  | NotANumber => PNaN
  | Beyond => p
  end.

(** [p + n] for a number [n]: a text on the left makes [+] a
    concatenation, anything else is converted to a number first. *)
Definition add (p : prim) (n : Z) : prim :=
  match p with
  | PStr s => PStr (s ++ dec n)
  | PUndefined | PNaN => PNaN
  | PNull => PNum n
  | PBool b => PNum ((if b then 1 else 0) + n)
  | PNum k => PNum (k + n)
  end.

End Js.
Import Js.

(** ** Markup *)

(** The element tree the view puts under [$el].  Interpolated values are
    kept as [Text] leaves (the template does not escape them, and the
    model does not parse them).  [Mount] is the content view's own
    element, put in place by [.html(content.$el)]. *)
Inductive Html :=
| Text (s : string)
| El (tag : string) (classes : list string) (kids : list Html)
| Mount.

(** [$(...).find(sel)] for a selector made of class names, such as
    [.close] or [.btn.ok]: is there an element carrying all of them? *)
Fixpoint carries (sel : list string) (h : Html) : bool :=
  match h with
  | Text _ | Mount => false
  | El _ cls kids =>
      forallb (fun c => existsb (String.eqb c) cls) sel
      || existsb (carries sel) kids
  end.

Definition find (sel : list string) (hs : list Html) : bool :=
  existsb (carries sel) hs.

(** [$(...).find(sel).html(new)]: every matching element gets [new] as
    its only content. *)
Fixpoint fill (sel : list string) (new : list Html) (h : Html) : Html :=
  match h with
  | Text _ | Mount => h
  | El tag cls kids =>
      if forallb (fun c => existsb (String.eqb c) cls) sel
      then El tag cls new
      else El tag cls (map (fill sel new) kids)
  end.

(** The tree shows every element of the real document only when it is
    [plain]: a [Text] that holds a [<] may open elements of its own when
    the browser parses it, and what a mounted view has in its element is
    not known here. *)
Fixpoint has_tag (s : string) : bool :=
  match s with
  | EmptyString => false
  | String c r => Ascii.eqb c "<"%char || has_tag r
  end.

Fixpoint plain (h : Html) : bool :=
  match h with
  | Text s => negb (has_tag s)
  | Mount => false
  | El _ _ kids => forallb plain kids
  end.

(** ** Options *)

(** A content view, seen through the capabilities the Modal probes:
    [content.$el] and [content.trigger]. *)
Record View := { view_el : bool; view_trigger : bool }.

Inductive CVal :=
| CPrim (p : prim)
| CView (v : View).

(** What a caller-supplied [animate] function does with the continuation
    it receives in the close phase. *)
Inductive Reply := ReplyNow | ReplyLater | ReplyNever.

Record Hook := { on_close : Reply }.

Inductive Animate :=
| AnimPrim (p : prim)
| AnimHook (h : Hook).

(** A custom template is represented by the markup it returns. *)
Inductive Template :=
| DefaultTemplate
| CustomTemplate (out : list Html).

(** [this.options].  [content] has no default, so the key may be absent
    ([None]); [width] and [backdrop] are only ever read as values, where an
    absent key reads as [undefined]. *)
Record Options := {
  title : prim;
  okText : prim;
  focusOk : prim;
  okCloses : prim;
  cancelText : prim;
  allowCancel : prim;
  escape : prim;
  animate : Animate;
  template : Template;
  width : prim;
  backdrop : prim;
  content : option CVal
}.

(** The object handed to the constructor: each key is given or not. *)
Record Supplied := {
  given_title : option prim;
  given_okText : option prim;
  given_focusOk : option prim;
  given_okCloses : option prim;
  given_cancelText : option prim;
  given_allowCancel : option prim;
  given_escape : option prim;
  given_animate : option Animate;
  given_template : option Template;
  given_width : option prim;
  given_backdrop : option prim;
  given_content : option CVal
}.

Definition nothing_given : Supplied :=
  {| given_title := None; given_okText := None; given_focusOk := None;
     given_okCloses := None; given_cancelText := None;
     given_allowCancel := None; given_escape := None;
     given_animate := None; given_template := None; given_width := None;
     given_backdrop := None; given_content := None |}.

Definition or_default {A} (given : option A) (d : A) : A :=
  match given with Some a => a | None => d end.

(** [_.extend({ ...defaults... }, options)] *)
Definition extend_defaults (g : Supplied) : Options :=
  {| title := or_default (given_title g) PNull;
     okText := or_default (given_okText g) (PStr "OK");
     focusOk := or_default (given_focusOk g) (PBool true);
     okCloses := or_default (given_okCloses g) (PBool true);
     cancelText := or_default (given_cancelText g) (PStr "Cancel");
     allowCancel := or_default (given_allowCancel g) (PBool true);
     escape := or_default (given_escape g) (PBool true);
     animate := or_default (given_animate g) (AnimPrim (PBool false));
     template := or_default (given_template g) DefaultTemplate;
     width := or_default (given_width g) PUndefined;
     backdrop := or_default (given_backdrop g) PUndefined;
     content := given_content g |}.

Definition set_width (v : prim) (o : Options) : Options :=
  {| title := title o; okText := okText o; focusOk := focusOk o;
     okCloses := okCloses o; cancelText := cancelText o;
     allowCancel := allowCancel o; escape := escape o;
     animate := animate o; template := template o; width := v;
     backdrop := backdrop o; content := content o |}.

Definition set_escape (v : prim) (o : Options) : Options :=
  {| title := title o; okText := okText o; focusOk := focusOk o;
     okCloses := okCloses o; cancelText := cancelText o;
     allowCancel := allowCancel o; escape := v;
     animate := animate o; template := template o; width := width o;
     backdrop := backdrop o; content := content o |}.

(** ** The default template *)

(** [{{ expr }}]: the engine prints [null] and [undefined] as nothing and
    anything else through [String]. *)
Definition interpolate (p : prim) : string :=
  match p with
  | PUndefined | PNull => ""
  | _ => to_text p
  end.

Definition interpolate_content (c : CVal) : string :=
  match c with
  | CPrim p => interpolate p
  | CView _ => "[object Object]"
  end.

Definition header (o : Options) : list Html :=
  if truthy (title o)
  then [El "div" ["modal-header"]
          ((if truthy (allowCancel o)
            then [El "a" ["close"] [Text "×"]] else [])
           ++ [El "h3" [] [Text (interpolate (title o))]])]
  else [].

Definition footer (o : Options) : list Html :=
  if negb (is_false (okText o)) || negb (is_false (cancelText o))
  then [El "div" ["modal-footer"]
          ((if truthy (allowCancel o)
            then if truthy (cancelText o)
                 then [El "a" ["btn"; "cancel"]
                         [Text (interpolate (cancelText o))]]
                 else []
            else [])
           ++ [El "a" ["btn"; "ok"; "btn-primary"]
                 [Text (interpolate (okText o))]])]
  else [].

(** The compiled default template.  It names [content] inside the engine's
    [with (options)] block, so an options object without that key makes
    the name unresolved: no markup ([None]) but a ReferenceError. *)
Definition default_template (o : Options) : option (list Html) :=
  match content o with
  | None => None
  | Some c =>
      Some (header o
            ++ [El "div" ["modal-body"] [Text (interpolate_content c)]]
            ++ footer o)%list
  end.

(** [options.template(options)] *)
Definition run_template (o : Options) : option (list Html) :=
  match template o with
  | DefaultTemplate => default_template o
  | CustomTemplate out => Some out
  end.

(** ** State *)

(** The four events of the view. *)
Inductive Event := Shown | Hidden | Cancel | Ok.

Inductive Phase := PhaseOpen | PhaseClose.

(** What a listener registered with [modal.on(...)] does.  The model
    covers the one call the view offers to listeners, [preventClose()],
    and listeners that leave the view alone (they leave a [Note]). *)
Inductive UserAct :=
| ActPreventClose
| ActNote (tag : string).

(** A listener on "cancel" is a caller's, or the function [open]
    registers, whose body is [self.close()]. *)
Inductive CancelListener :=
| WireClose
| UserCancel (a : UserAct).

Record Listeners := {
  on_shown : list UserAct;
  on_hidden : list UserAct;
  on_ok : list UserAct;
  on_cancel : list CancelListener
}.

(** The view's element [$el]: its content, its inline style, whether it is
    attached to the document, and how many one-shot handlers
    ([$el.one('shown', ...)], [$el.one('hidden', ...)]) wait on it. *)
Record Element := {
  markup : list Html;
  classes : list string;
  css_width : option prim;
  css_zindex : option string;
  in_document : bool;
  one_shown : nat;
  one_hidden : nat
}.

(** The dialog widget's state for one element: whether it is showing, and
    which completion signals it still owes. *)
Record Dialog := {
  isShown : bool;
  shown_due : bool;
  hidden_due : bool
}.

(** A Modal instance.  [held] counts the hide continuations a [ReplyLater]
    [animate] function keeps for later. *)
Record Modal := {
  mid : nat;
  options : Options;
  isRendered : bool;
  _preventClose : bool;
  el : Element;
  dialog : Dialog;
  listeners : Listeners;
  held : nat
}.

(** Everything the view tells its collaborators, in the order it happens. *)
Inductive Effect :=
| Emit (m : nat) (e : Event)                  (* modal.trigger(e) *)
| Forward (m : nat) (e : Event)               (* content.trigger(e, modal) *)
| ContentRender (m : nat)                     (* content.render() *)
| FocusOk (m : nat)                           (* $el.find('.btn.ok').focus() *)
| HookCall (m : nat) (p : Phase)              (* options.animate.apply(...) *)
| WidgetShow (m : nat) (keyboard bd : prim)   (* $el.modal({...}) *)
| WidgetHide (m : nat)                        (* $el.modal('hide') *)
| SignalShown (m : nat)                       (* the widget's 'shown' *)
| SignalHidden (m : nat)                      (* the widget's 'hidden' *)
| Removed (m : nat)                           (* self.remove() *)
| Note (m : nat) (tag : string).

(** A [.modal-backdrop] element: the modal whose widget put it there, its
    current z-index as [css('z-index')] reports it, and the modals whose
    one-shot click handler waits on it. *)
Record Backdrop := {
  bd_owner : nat;
  bd_zindex : string;
  bd_click : list nat
}.

(** When the dialog widget fires its completion signal: inside the
    [show]/[hide] command, or after the caller has returned. *)
Inductive Timing := Immediate | Deferred.

Record Widget := {
  timing : Timing;
  backdrop_zindex : string   (* the stylesheet's z-index of a backdrop *)
}.

(** What all Modal instances share: the static [Modal.count], the
    backdrops in document order, the modals whose one-shot
    [keyup.dismiss.modal] handler waits on the document, the trace, and the
    widget in use. *)
Record World := {
  count : Z;
  backdrops : list Backdrop;
  keyup : list nat;
  log : list Effect;
  widget : Widget
}.

Definition State : Type := Modal * World.

(** *** Field updates *)

Definition with_el (f : Element -> Element) (m : Modal) : Modal :=
  {| mid := mid m; options := options m; isRendered := isRendered m;
     _preventClose := _preventClose m; el := f (el m); dialog := dialog m;
     listeners := listeners m; held := held m |}.

Definition with_dialog (d : Dialog) (m : Modal) : Modal :=
  {| mid := mid m; options := options m; isRendered := isRendered m;
     _preventClose := _preventClose m; el := el m; dialog := d;
     listeners := listeners m; held := held m |}.

Definition with_listeners (l : Listeners) (m : Modal) : Modal :=
  {| mid := mid m; options := options m; isRendered := isRendered m;
     _preventClose := _preventClose m; el := el m; dialog := dialog m;
     listeners := l; held := held m |}.

Definition with_options (o : Options) (m : Modal) : Modal :=
  {| mid := mid m; options := o; isRendered := isRendered m;
     _preventClose := _preventClose m; el := el m; dialog := dialog m;
     listeners := listeners m; held := held m |}.

Definition with_rendered (b : bool) (m : Modal) : Modal :=
  {| mid := mid m; options := options m; isRendered := b;
     _preventClose := _preventClose m; el := el m; dialog := dialog m;
     listeners := listeners m; held := held m |}.

Definition with_prevent (b : bool) (m : Modal) : Modal :=
  {| mid := mid m; options := options m; isRendered := isRendered m;
     _preventClose := b; el := el m; dialog := dialog m;
     listeners := listeners m; held := held m |}.

Definition with_held (n : nat) (m : Modal) : Modal :=
  {| mid := mid m; options := options m; isRendered := isRendered m;
     _preventClose := _preventClose m; el := el m; dialog := dialog m;
     listeners := listeners m; held := n |}.

Definition set_markup (h : list Html) (e : Element) : Element :=
  {| markup := h; classes := classes e; css_width := css_width e;
     css_zindex := css_zindex e; in_document := in_document e;
     one_shown := one_shown e; one_hidden := one_hidden e |}.

Definition add_class (c : string) (e : Element) : Element :=
  {| markup := markup e; classes := (classes e ++ [c])%list;
     css_width := css_width e; css_zindex := css_zindex e;
     in_document := in_document e; one_shown := one_shown e;
     one_hidden := one_hidden e |}.

(** [.css({width: v, ...})]: jQuery writes a number and writes nothing when
    it is handed [NaN]. *)
Definition set_css_width (v : prim) (e : Element) : Element :=
  {| markup := markup e; classes := classes e;
     css_width := match v with PNaN => css_width e | _ => Some v end;
     css_zindex := css_zindex e; in_document := in_document e;
     one_shown := one_shown e; one_hidden := one_hidden e |}.

Definition set_css_zindex (v : option string) (e : Element) : Element :=
  {| markup := markup e; classes := classes e; css_width := css_width e;
     css_zindex := v; in_document := in_document e;
     one_shown := one_shown e; one_hidden := one_hidden e |}.

Definition set_in_document (b : bool) (e : Element) : Element :=
  {| markup := markup e; classes := classes e; css_width := css_width e;
     css_zindex := css_zindex e; in_document := b;
     one_shown := one_shown e; one_hidden := one_hidden e |}.

Definition set_one_shown (n : nat) (e : Element) : Element :=
  {| markup := markup e; classes := classes e; css_width := css_width e;
     css_zindex := css_zindex e; in_document := in_document e;
     one_shown := n; one_hidden := one_hidden e |}.

Definition set_one_hidden (n : nat) (e : Element) : Element :=
  {| markup := markup e; classes := classes e; css_width := css_width e;
     css_zindex := css_zindex e; in_document := in_document e;
     one_shown := one_shown e; one_hidden := n |}.

Definition set_count (c : Z) (w : World) : World :=
  {| count := c; backdrops := backdrops w; keyup := keyup w;
     log := log w; widget := widget w |}.

Definition set_backdrops (b : list Backdrop) (w : World) : World :=
  {| count := count w; backdrops := b; keyup := keyup w;
     log := log w; widget := widget w |}.

Definition set_keyup (k : list nat) (w : World) : World :=
  {| count := count w; backdrops := backdrops w; keyup := k;
     log := log w; widget := widget w |}.

(** Append one entry to the trace. *)
Definition say (e : Effect) (w : World) : World :=
  {| count := count w; backdrops := backdrops w; keyup := keyup w;
     log := (log w ++ [e])%list; widget := widget w |}.

(** ** Construction *)

(** A Backbone view starts with a detached, empty element of class
    [modal], no listeners, and a widget that has not been created. *)
Definition blank_element : Element :=
  {| markup := []; classes := ["modal"]; css_width := None;
     css_zindex := None; in_document := false; one_shown := 0%nat;
     one_hidden := 0%nat |}.

Definition no_listeners : Listeners :=
  {| on_shown := []; on_hidden := []; on_ok := []; on_cancel := [] |}.

Definition idle : Dialog :=
  {| isShown := false; shown_due := false; hidden_due := false |}.

(** [new Modal(options)]: the constructor runs [initialize], which merges
    the supplied options over the defaults and does nothing else. *)
Definition initialize (id : nat) (given : Supplied) : Modal :=
  {| mid := id; options := extend_defaults given; isRendered := false;
     _preventClose := false; el := blank_element; dialog := idle;
     listeners := no_listeners; held := 0%nat |}.

(** [modal.on(name, listener)] for a caller's listener. *)
Definition on (e : Event) (a : UserAct) (m : Modal) : Modal :=
  let l := listeners m in
  with_listeners
    match e with
    | Shown => {| on_shown := (on_shown l ++ [a])%list; on_hidden := on_hidden l;
                  on_ok := on_ok l; on_cancel := on_cancel l |}
    | Hidden => {| on_shown := on_shown l; on_hidden := (on_hidden l ++ [a])%list;
                   on_ok := on_ok l; on_cancel := on_cancel l |}
    | Ok => {| on_shown := on_shown l; on_hidden := on_hidden l;
               on_ok := (on_ok l ++ [a])%list; on_cancel := on_cancel l |}
    | Cancel => {| on_shown := on_shown l; on_hidden := on_hidden l;
                   on_ok := on_ok l;
                   on_cancel := (on_cancel l ++ [UserCancel a])%list |}
    end m.

(** The first world: nothing open, nothing in the document. *)
Definition start (wd : Widget) : World :=
  {| count := 0; backdrops := []; keyup := []; log := []; widget := wd |}.

(** ** Results of calls that can throw *)

Inductive Error := ReferenceError | TypeError.

(** A call returns, or throws and leaves the state as it was at the throw. *)
Inductive Outcome (A : Type) :=
| Done (a : A)
| Thrown (e : Error) (a : A).
Arguments Done {A} a.
Arguments Thrown {A} e a.

Definition state_of {A} (r : Outcome A) : A :=
  match r with Done a | Thrown _ a => a end.

Definition returned {A} (r : Outcome A) : bool :=
  match r with Done _ => true | Thrown _ _ => false end.

(** Run [k] after a call that returned; a throw ends the sequence. *)
Definition and_then {A} (r : Outcome A) (k : A -> Outcome A) : Outcome A :=
  match r with
  | Done a => k a
  | Thrown e a => Thrown e a
  end.

(** ** The view's code *)

(** [preventClose] *)
Definition preventClose (m : Modal) : Modal := with_prevent true m.

(** [self.options.content && self.options.content.trigger] *)
Definition can_trigger (o : Options) : bool :=
  match content o with
  | Some (CView v) => view_trigger v
  | _ => false
  end.

(** [if (content && content.trigger) content.trigger(e, self)] *)
Definition forward (e : Event) (s : State) : State :=
  let '(m, w) := s in
  if can_trigger (options m) then (m, say (Forward (mid m) e) w) else s.

Definition run_user (s : State) (a : UserAct) : State :=
  let '(m, w) := s in
  match a with
  | ActPreventClose => (preventClose m, w)
  | ActNote tag => (m, say (Note (mid m) tag) w)
  end.

Definition user_listeners (e : Event) (l : Listeners) : list UserAct :=
  match e with
  | Shown => on_shown l
  | Hidden => on_hidden l
  | Ok => on_ok l
  | Cancel => []
  end.

(** [self.trigger(e)] for "shown", "hidden" and "ok", whose listeners are
    all the caller's. *)
Definition trigger_plain (e : Event) (s : State) : State :=
  let '(m, w) := s in
  fold_left run_user (user_listeners e (listeners m))
            (m, say (Emit (mid m) e) w).

(** [self.remove()]: jQuery's [remove] detaches the element and drops the
    handlers bound to it. *)
Definition remove (s : State) : State :=
  let '(m, w) := s in
  (with_el (fun e => set_one_shown 0 (set_one_hidden 0
                       (set_in_document false e))) m,
   say (Removed (mid m)) w).

(** The function [close] hands to [$el.one('hidden', ...)]. *)
Definition hidden_handler (s : State) : State :=
  trigger_plain Hidden (forward Hidden (remove s)).

(** The function [open] hands to [$el.one('shown', ...)]. *)
Definition shown_handler (s : State) : State :=
  let '(m, w) := s in
  let s := if truthy (focusOk (options m))
           then (m, say (FocusOk (mid m)) w) else s in
  trigger_plain Shown (forward Shown s).

(** The element receives 'hidden' (resp. 'shown'): every one-shot handler
    waiting for it runs once and is gone. *)
Definition fire_hidden (s : State) : State :=
  let '(m, w) := s in
  Nat.iter (one_hidden (el m)) hidden_handler
           (with_el (set_one_hidden 0) m, w).

Definition fire_shown (s : State) : State :=
  let '(m, w) := s in
  Nat.iter (one_shown (el m)) shown_handler
           (with_el (set_one_shown 0) m, w).

(** *** The dialog widget, as far as the view relies on it *)

Definition new_backdrop (id : nat) (wd : Widget) : Backdrop :=
  {| bd_owner := id; bd_zindex := backdrop_zindex wd; bd_click := [] |}.

Definition drop_backdrops (id : nat) (w : World) : World :=
  set_backdrops
    (filter (fun b => negb (Nat.eqb (bd_owner b) id)) (backdrops w)) w.

(** The widget has finished showing: it signals 'shown' on the element. *)
Definition finish_show (s : State) : State :=
  let '(m, w) := s in
  fire_shown (m, say (SignalShown (mid m)) w).

(** The widget has finished hiding: it signals 'hidden' on the element and
    takes its backdrop away. *)
Definition finish_hide (s : State) : State :=
  let '(m, w) := s in
  let '(m, w) := fire_hidden (m, say (SignalHidden (mid m)) w) in
  (m, drop_backdrops (mid m) w).

(** [$el.modal({keyboard: k, backdrop: b})]: unless already showing, the
    widget attaches the element, inserts a backdrop if [b] is truthy, and
    owes a 'shown' signal. *)
Definition widget_show (k b : prim) (s : State) : State :=
  let '(m, w) := s in
  let w := say (WidgetShow (mid m) k b) w in
  if isShown (dialog m) then (m, w)
  else
    let m := with_el (set_in_document true) m in
    let w := if truthy b
             then set_backdrops
                    (backdrops w ++ [new_backdrop (mid m) (widget w)])%list w
             else w in
    match timing (widget w) with
    | Immediate =>
        finish_show
          (with_dialog {| isShown := true; shown_due := false;
                          hidden_due := hidden_due (dialog m) |} m, w)
    | Deferred =>
        (with_dialog {| isShown := true; shown_due := true;
                        hidden_due := hidden_due (dialog m) |} m, w)
    end.

(** [$el.modal('hide')]: if showing, the widget hides and owes a 'hidden'
    signal. *)
Definition widget_hide (s : State) : State :=
  let '(m, w) := s in
  let w := say (WidgetHide (mid m)) w in
  if isShown (dialog m)
  then
    match timing (widget w) with
    | Immediate =>
        finish_hide
          (with_dialog {| isShown := false; shown_due := shown_due (dialog m);
                          hidden_due := false |} m, w)
    | Deferred =>
        (with_dialog {| isShown := false; shown_due := shown_due (dialog m);
                        hidden_due := true |} m, w)
    end
  else (m, w).

(** *** close *)

(** [options.animate.apply($el, ["close", function () { $el.modal('hide') }])] *)
Definition hook_close (h : Hook) (s : State) : State :=
  let '(m, w) := s in
  let s := (m, say (HookCall (mid m) PhaseClose) w) in
  match on_close h with
  | ReplyNow => widget_hide s
  | ReplyLater => (with_held (S (held m)) m, snd s)
  | ReplyNever => s
  end.

Definition close (s : State) : State :=
  let '(m, w) := s in
  if _preventClose m
  then (with_prevent false m, w)
  else
    let '(m, w) :=
      match animate (options m) with
      | AnimHook h => hook_close h (m, w)
      | AnimPrim _ => widget_hide (m, w)
      end in
    let m := with_el (fun e => set_one_hidden (S (one_hidden e)) e) m in
    (m, set_count (count w - 1) w).

(** *** trigger *)

Definition run_cancel (s : State) (l : CancelListener) : State :=
  match l with
  | WireClose => close s
  | UserCancel a => run_user s a
  end.

(** [self.trigger(e)]: the event is emitted and its listeners run in
    the order they were registered. *)
Definition trigger (e : Event) (s : State) : State :=
  match e with
  | Cancel =>
      let '(m, w) := s in
      fold_left run_cancel (on_cancel (listeners m))
                (m, say (Emit (mid m) Cancel) w)
  | _ => trigger_plain e s
  end.

(** *** events *)

Inductive Target := DotClose | DotCancel | DotOk.

Definition selector (t : Target) : list string :=
  match t with
  | DotClose => ["close"]
  | DotCancel => ["cancel"]
  | DotOk => ["ok"]
  end.

(** The [events] table: the handler of a click on [.close], [.cancel] and
    [.ok]. *)
Definition events (t : Target) (s : State) : State :=
  match t with
  | DotClose => forward Cancel (trigger Cancel s)
  | DotCancel => forward Cancel (trigger Cancel s)
  | DotOk =>
      let s := forward Ok (trigger Ok s) in
      if truthy (okCloses (options (fst s))) then close s else s
  end.

(** A click on such an element.  The handlers are delegated from [$el]:
    if the tree shows a matching element, the handler runs; if it shows
    none and is [plain], there is nothing to click and nothing happens;
    otherwise the tree cannot tell whether there is one ([None]). *)
Definition click (t : Target) (s : State) : option State :=
  if find (selector t) (markup (el (fst s))) then Some (events t s)
  else if forallb plain (markup (el (fst s))) then Some s
  else None.

(** *** render *)

(** The last part of [render]: [content.$el] is read whatever [content]
    is, which throws on [undefined] and [null]. *)
Definition insert_content (s : State) : Outcome State :=
  let '(m, w) := s in
  match content (options m) with
  | None | Some (CPrim PUndefined) | Some (CPrim PNull) => Thrown TypeError s
  | Some (CPrim _) => Done (with_rendered true m, w)
  | Some (CView v) =>
      if view_el v
      then Done (with_rendered true
                   (with_el (fun e => set_markup
                                        (map (fill ["modal-body"] [Mount])
                                             (markup e)) e) m),
                 say (ContentRender (mid m)) w)
      else Done (with_rendered true m, w)
  end.

Definition render (s : State) : Outcome State :=
  let '(m, w) := s in
  match run_template (options m) with
  | None => Thrown ReferenceError s
  | Some html =>
      let m := with_el (set_markup html) m in
      let m :=
        if truthy (width (options m))
        then
          let n := to_number (width (options m)) in
          with_el (set_css_width n) (with_options (set_width n (options m)) m)
        else m in
      let s :=
        match animate (options m) with
        | AnimPrim p =>
            if is_true p then (with_el (add_class "fade") m, w) else (m, w)
        | AnimHook _ => (m, say (HookCall (mid m) PhaseOpen) w)
        end in
      insert_content s
  end.

(** *** open *)

(** The [backdrop] option handed to the widget. *)
Definition backdrop_option (o : Options) : prim :=
  if truthy (backdrop o) || is_undefined (backdrop o)
  then if truthy (allowCancel o) then PBool true else PStr "static"
  else backdrop o.

(** [$('.modal-backdrop:eq(' + n + ')')]: the position selected among
    [len] backdrops; a negative [n] counts from the end. *)
Definition eq_index (n : Z) (len : nat) : option nat :=
  let i := if n <? 0 then n + Z.of_nat len else n in
  if (0 <=? i) && (i <? Z.of_nat len) then Some (Z.to_nat i) else None.

Definition selected (sel : option nat) (bs : list Backdrop) : option Backdrop :=
  match sel with
  | Some i => nth_error bs i
  | None => None
  end.

(** [$backdrop.css('z-index')]: a text, or [undefined] when nothing is
    selected. *)
Definition css_get (sel : option nat) (bs : list Backdrop) : prim :=
  match selected sel bs with
  | Some b => PStr (bd_zindex b)
  | None => PUndefined
  end.

(** The text [.css(name, v)] writes; [NaN], [null] and [undefined] write
    nothing. *)
Definition css_value (v : prim) : option string :=
  match v with
  | PStr s => Some s
  | PNum n => Some (dec n)
  | _ => None
  end.

Fixpoint update_nth {A} (i : nat) (f : A -> A) (l : list A) {struct l}
    : list A :=
  match l, i with
  | [], _ => []
  | x :: r, O => f x :: r
  | x :: r, S j => x :: update_nth j f r
  end.

Definition on_selected (sel : option nat) (f : Backdrop -> Backdrop)
    (w : World) : World :=
  match sel with
  | Some i => set_backdrops (update_nth i f (backdrops w)) w
  | None => w
  end.

Definition restyle (v : prim) (b : Backdrop) : Backdrop :=
  match css_value v with
  | Some z => {| bd_owner := bd_owner b; bd_zindex := z;
                 bd_click := bd_click b |}
  | None => b
  end.

Definition await_click (id : nat) (b : Backdrop) : Backdrop :=
  {| bd_owner := bd_owner b; bd_zindex := bd_zindex b;
     bd_click := (bd_click b ++ [id])%list |}.

Definition wire_close (m : Modal) : Modal :=
  let l := listeners m in
  with_listeners
    {| on_shown := on_shown l; on_hidden := on_hidden l; on_ok := on_ok l;
       on_cancel := (on_cancel l ++ [WireClose])%list |} m.

(** [open] after the rendering step. *)
Definition show (cb : option UserAct) (s : State) : State :=
  let o := options (fst s) in
  let '(m, w) := widget_show (allowCancel o) (backdrop_option o) s in
  let m := with_el (fun e => set_one_shown (S (one_shown e)) e) m in
  let numModals := count w in
  let sel := eq_index numModals (List.length (backdrops w)) in
  let backdropIndex := css_get sel (backdrops w) in
  let elIndex := css_get sel (backdrops w) in
  let w := on_selected sel (restyle (add backdropIndex numModals)) w in
  let m :=
    match css_value (add elIndex numModals) with
    | Some z => with_el (set_css_zindex (Some z)) m
    | None => m
    end in
  let w :=
    if truthy (allowCancel o)
    then set_keyup (keyup w ++ [mid m])%list
                   (on_selected sel (await_click (mid m)) w)
    else w in
  let m := wire_close m in
  let w := set_count (count w + 1) w in
  let m := match cb with Some a => on Ok a m | None => m end in
  (m, w).

Definition open (cb : option UserAct) (s : State) : Outcome State :=
  match (if isRendered (fst s) then Done s else render s) with
  | Thrown e s => Thrown e s
  | Done s => Done (show cb s)
  end.

(** The function [open] hands to [$backdrop.one('click', ...)]. *)
Definition backdrop_handler (s : State) : State :=
  trigger Cancel (forward Cancel s).

(** The function [open] hands to
    [$(document).one('keyup.dismiss.modal', ...)]; [which] is [e.which]. *)
Definition keyup_handler (which : Z) (s : State) : State :=
  let s := if which =? 27 then trigger Cancel s else s in
  if can_trigger (options (fst s))
  then if which =? 27
       then (fst s, say (Forward (mid (fst s)) Shown) (snd s))
       else s
  else s.

(** ** What happens around the view *)

(** A key goes up in the document: this modal's one-shot handlers run and
    are gone. *)
Definition press (which : Z) (s : State) : State :=
  let '(m, w) := s in
  let mine := count_occ Nat.eq_dec (keyup w) (mid m) in
  Nat.iter mine (keyup_handler which)
           (m, set_keyup (List.remove Nat.eq_dec (mid m) (keyup w)) w).

Definition forget_click (id : nat) (b : Backdrop) : Backdrop :=
  {| bd_owner := bd_owner b; bd_zindex := bd_zindex b;
     bd_click := List.remove Nat.eq_dec id (bd_click b) |}.

(** The [i]-th backdrop is clicked: this modal's one-shot handlers on it
    run and are gone. *)
Definition click_backdrop (i : nat) (s : State) : State :=
  let '(m, w) := s in
  match nth_error (backdrops w) i with
  | Some b =>
      Nat.iter (count_occ Nat.eq_dec (bd_click b) (mid m)) backdrop_handler
               (m, set_backdrops
                     (update_nth i (forget_click (mid m)) (backdrops w)) w)
  | None => s
  end.

(** With a [Deferred] widget, the 'shown' signal it owes arrives. *)
Definition signal_shown (s : State) : State :=
  let '(m, w) := s in
  if shown_due (dialog m)
  then finish_show
         (with_dialog {| isShown := isShown (dialog m); shown_due := false;
                         hidden_due := hidden_due (dialog m) |} m, w)
  else s.

(** With a [Deferred] widget, the 'hidden' signal it owes arrives. *)
Definition signal_hidden (s : State) : State :=
  let '(m, w) := s in
  if hidden_due (dialog m)
  then finish_hide
         (with_dialog {| isShown := isShown (dialog m);
                         shown_due := shown_due (dialog m);
                         hidden_due := false |} m, w)
  else s.

(** A [ReplyLater] animate function calls the continuations it kept. *)
Definition hook_resume (s : State) : State :=
  let '(m, w) := s in
  Nat.iter (held m) widget_hide (with_held 0 m, w).

(** Everything that is still owed arrives: the kept continuations run,
    then the widget's signals. *)
Definition settle (s : State) : State :=
  signal_hidden (signal_shown (hook_resume s)).

(** [open()] and then [close()], as one sequence of calls. *)
Definition open_then_close (cb : option UserAct) (s : State) : Outcome State :=
  and_then (open cb s) (fun s => Done (close s)).

(** Opening one modal after the other in a shared world. *)
Fixpoint open_each (ms : list Modal) (w : World) : option (list Modal * World) :=
  match ms with
  | [] => Some ([], w)
  | m :: rest =>
      match open None (m, w) with
      | Done (m', w') =>
          match open_each rest w' with
          | Some (ms', w'') => Some (m' :: ms', w'')
          | None => None
          end
      | Thrown _ _ => None
      end
  end.

(** ** Reading the trace *)

Definition Effect_eq_dec (a b : Effect) : {a = b} + {a <> b}.
Proof.
  repeat decide equality.
Defined.

(** Does an [a] occur in the trace with a [b] somewhere after it? *)
Fixpoint before (a b : Effect) (l : list Effect) : bool :=
  match l with
  | [] => false
  | x :: r =>
      if Effect_eq_dec x a
      then (if in_dec Effect_eq_dec b r then true else before a b r)
      else before a b r
  end.

(** The notes the caller's listeners leave. *)
Definition notes (id : nat) (acts : list UserAct) : list Effect :=
  flat_map (fun a => match a with
                     | ActNote tag => [Note id tag]
                     | ActPreventClose => []
                     end) acts.

(** The flag after the caller's listeners have run. *)
Definition vetoed (acts : list UserAct) (flag : bool) : bool :=
  existsb (fun a => match a with ActPreventClose => true | _ => false end) acts
  || flag.

Definition say_all (l : list Effect) (w : World) : World :=
  {| count := count w; backdrops := backdrops w; keyup := keyup w;
     log := (log w ++ l)%list; widget := widget w |}.

(** What [content.trigger(e, self)] adds to the trace, if anything. *)
Definition forwarded (e : Event) (m : Modal) : list Effect :=
  if can_trigger (options m) then [Forward (mid m) e] else [].

(** ** Vocabulary of the properties *)

(** The part of [close] that asks for the hide. *)
Definition ask_hide (s : State) : State :=
  match animate (options (fst s)) with
  | AnimHook h => hook_close h s
  | AnimPrim _ => widget_hide s
  end.

(** Two option records that agree on every key but [width] (the one key
    [render] writes). *)
Definition same_but_width (o o' : Options) : Prop :=
  set_width PUndefined o' = set_width PUndefined o.

(** [Steady s s']: from [s] to [s'] the instance kept its identity, its
    options (but for [width]) and its listeners, the shared counter and
    the document's key handlers are unchanged, and the trace has only
    grown. *)
Record Steady (s s' : State) : Prop := {
  steady_mid : mid (fst s') = mid (fst s);
  steady_options : same_but_width (options (fst s)) (options (fst s'));
  steady_listeners : listeners (fst s') = listeners (fst s);
  steady_count : count (snd s') = count (snd s);
  steady_keyup : keyup (snd s') = keyup (snd s);
  steady_widget : widget (snd s') = widget (snd s);
  steady_log : exists l, log (snd s') = (log (snd s) ++ l)%list
}.

(** [Kept s s']: the widget's state for the element, the element's place
    in the document, its z-index and pending 'hidden' handlers, the kept
    continuations and the backdrops are unchanged. *)
Record Kept (s s' : State) : Prop := {
  kept_dialog : dialog (fst s') = dialog (fst s);
  kept_in_document : in_document (el (fst s')) = in_document (el (fst s));
  kept_zindex : css_zindex (el (fst s')) = css_zindex (el (fst s));
  kept_one_hidden : one_hidden (el (fst s')) = one_hidden (el (fst s));
  kept_held : held (fst s') = held (fst s);
  kept_backdrops : backdrops (snd s') = backdrops (snd s)
}.

(** Does the [animate] option, if it is a function, call the continuation
    [close] hands it (now or later)? *)
Definition replies (o : Options) : bool :=
  match animate o with
  | AnimHook h => match on_close h with ReplyNever => false | _ => true end
  | AnimPrim _ => true
  end.

(** Can [render] get to the end with this [content]? *)
Definition has_content (o : Options) : bool :=
  match content o with
  | None | Some (CPrim PUndefined) | Some (CPrim PNull) => false
  | Some _ => true
  end.

(** What [close] adds to the trace before it returns, with a widget that
    signals later. *)
Definition hide_request (m : Modal) : list Effect :=
  match animate (options m) with
  | AnimHook _ => [HookCall (mid m) PhaseClose; WidgetHide (mid m)]
  | AnimPrim _ => [WidgetHide (mid m)]
  end.

(** The order the specification asks of a trace: "hidden" is emitted
    after the widget's 'hidden' signal and before the element is
    removed. *)
Definition hidden_between (id : nat) (l : list Effect) : Prop :=
  before (SignalHidden id) (Emit id Hidden) l = true
  /\ before (Emit id Hidden) (Removed id) l = true.

(** Does [close] call [$el.modal('hide')] before it returns?  It does
    unless [animate] is a function that keeps the continuation for
    later, or drops it. *)
Definition hides_at_once (o : Options) : bool :=
  match animate o with
  | AnimHook h => match on_close h with ReplyNow => true | _ => false end
  | AnimPrim _ => true
  end.

(** The same instance with other listeners on "cancel". *)
Definition with_on_cancel (c : list CancelListener) (m : Modal) : Modal :=
  with_listeners
    {| on_shown := on_shown (listeners m); on_hidden := on_hidden (listeners m);
       on_ok := on_ok (listeners m); on_cancel := c |} m.

(** A modal that [open] can show with a backdrop of its own. *)
Definition ready (m : Modal) : Prop :=
  isShown (dialog m) = false
  /\ has_content (options m) = true
  /\ truthy (backdrop_option (options m)) = true.

(** The z-index written on each element, read as a number. *)
Definition zindexes (ms : list Modal) : list (option Z) :=
  map (fun m => match css_zindex (el m) with
                | Some z => undec z
                | None => None
                end) ms.

(** Modals built from the same options, numbered from [n]. *)
Fixpoint numbered (n : nat) (gs : list Supplied) : list Modal :=
  match gs with
  | [] => []
  | g :: rest => initialize n g :: numbered (S n) rest
  end.

(** The same state, with another value under the [escape] key. *)
Definition escaping (v : prim) (s : State) : State :=
  (with_options (set_escape v (options (fst s))) (fst s), snd s).

Definition outcome_map {A B} (f : A -> B) (r : Outcome A) : Outcome B :=
  match r with
  | Done a => Done (f a)
  | Thrown e a => Thrown e (f a)
  end.

(** ** Sample inputs *)

(** A widget that signals after the command has returned and whose
    stylesheet puts backdrops at z-index 1040. *)
Definition later_widget : Widget :=
  {| timing := Deferred; backdrop_zindex := "1040" |}.

(** The same, but signalling inside the command. *)
Definition prompt_widget : Widget :=
  {| timing := Immediate; backdrop_zindex := "1040" |}.

Definition give_content (c : CVal) (g : Supplied) : Supplied :=
  {| given_title := given_title g; given_okText := given_okText g;
     given_focusOk := given_focusOk g; given_okCloses := given_okCloses g;
     given_cancelText := given_cancelText g;
     given_allowCancel := given_allowCancel g;
     given_escape := given_escape g; given_animate := given_animate g;
     given_template := given_template g; given_width := given_width g;
     given_backdrop := given_backdrop g; given_content := Some c |}.

Definition give_animate (a : Animate) (g : Supplied) : Supplied :=
  {| given_title := given_title g; given_okText := given_okText g;
     given_focusOk := given_focusOk g; given_okCloses := given_okCloses g;
     given_cancelText := given_cancelText g;
     given_allowCancel := given_allowCancel g;
     given_escape := given_escape g; given_animate := Some a;
     given_template := given_template g; given_width := given_width g;
     given_backdrop := given_backdrop g; given_content := given_content g |}.

Definition give_allowCancel (p : prim) (g : Supplied) : Supplied :=
  {| given_title := given_title g; given_okText := given_okText g;
     given_focusOk := given_focusOk g; given_okCloses := given_okCloses g;
     given_cancelText := given_cancelText g;
     given_allowCancel := Some p;
     given_escape := given_escape g; given_animate := given_animate g;
     given_template := given_template g; given_width := given_width g;
     given_backdrop := given_backdrop g; given_content := given_content g |}.

(** [{title: "Confirm", content: "Are you sure?", okText: "Yes",
      cancelText: "No"}] *)
Definition confirm : Supplied :=
  {| given_title := Some (PStr "Confirm"); given_okText := Some (PStr "Yes");
     given_focusOk := None; given_okCloses := None;
     given_cancelText := Some (PStr "No"); given_allowCancel := None;
     given_escape := None; given_animate := None; given_template := None;
     given_width := None; given_backdrop := None;
     given_content := Some (CPrim (PStr "Are you sure?")) |}.

(** A content view with an element and a [trigger]. *)
Definition a_view : CVal := CView {| view_el := true; view_trigger := true |}.

(** An [animate] function that never calls the continuation it is given
    in the close phase, such as
    [function (phase) { if (phase === "open") this.addClass("in"); }]. *)
Definition deaf_hook : Animate := AnimHook {| on_close := ReplyNever |}.

(** The state a sample modal is in right after a successful [open()]. *)
Definition opened (wd : Widget) (g : Supplied) : State :=
  state_of (open None (initialize 0 g, start wd)).

(** ** Vocabulary of the further properties *)

(** What the 'shown' handler asks of the OK button. *)
Definition focus_request (m : Modal) : list Effect :=
  if truthy (focusOk (options m)) then [FocusOk (mid m)] else [].

(** What one run of the 'hidden' handler adds to the trace. *)
Definition hidden_round (m : Modal) : list Effect :=
  (Removed (mid m) :: forwarded Hidden m
   ++ Emit (mid m) Hidden :: notes (mid m) (on_hidden (listeners m)))%list.

(** What [render] tells its collaborators. *)
Definition render_effects (m : Modal) : list Effect :=
  (match animate (options m) with
   | AnimHook _ => [HookCall (mid m) PhaseOpen]
   | AnimPrim _ => []
   end
   ++ match content (options m) with
      | Some (CView v) => if view_el v then [ContentRender (mid m)] else []
      | _ => []
      end)%list.

(** Is the content a view with an element of its own? *)
Definition mounts (o : Options) : bool :=
  match content o with
  | Some (CView v) => view_el v
  | _ => false
  end.

(** Closing one modal after the other in a shared world. *)
Fixpoint close_each (ms : list Modal) (w : World) : list Modal * World :=
  match ms with
  | [] => ([], w)
  | m :: rest =>
      let '(m', w') := close (m, w) in
      let '(rest', w'') := close_each rest w' in
      (m' :: rest', w'')
  end.

Definition give_okCloses (p : prim) (g : Supplied) : Supplied :=
  {| given_title := given_title g; given_okText := given_okText g;
     given_focusOk := given_focusOk g; given_okCloses := Some p;
     given_cancelText := given_cancelText g;
     given_allowCancel := given_allowCancel g;
     given_escape := given_escape g; given_animate := given_animate g;
     given_template := given_template g; given_width := given_width g;
     given_backdrop := given_backdrop g; given_content := given_content g |}.

Definition give_okText (p : prim) (g : Supplied) : Supplied :=
  {| given_title := given_title g; given_okText := Some p;
     given_focusOk := given_focusOk g; given_okCloses := given_okCloses g;
     given_cancelText := given_cancelText g;
     given_allowCancel := given_allowCancel g;
     given_escape := given_escape g; given_animate := given_animate g;
     given_template := given_template g; given_width := given_width g;
     given_backdrop := given_backdrop g; given_content := given_content g |}.

Definition give_backdrop (p : prim) (g : Supplied) : Supplied :=
  {| given_title := given_title g; given_okText := given_okText g;
     given_focusOk := given_focusOk g; given_okCloses := given_okCloses g;
     given_cancelText := given_cancelText g;
     given_allowCancel := given_allowCancel g;
     given_escape := given_escape g; given_animate := given_animate g;
     given_template := given_template g; given_width := given_width g;
     given_backdrop := Some p; given_content := given_content g |}.

Definition give_template (t : Template) (g : Supplied) : Supplied :=
  {| given_title := given_title g; given_okText := given_okText g;
     given_focusOk := given_focusOk g; given_okCloses := given_okCloses g;
     given_cancelText := given_cancelText g;
     given_allowCancel := given_allowCancel g;
     given_escape := given_escape g; given_animate := given_animate g;
     given_template := Some t; given_width := given_width g;
     given_backdrop := given_backdrop g; given_content := given_content g |}.


(** A sample modal opened with a callback that calls [preventClose()]. *)
Definition opened_with (cb : UserAct) (wd : Widget) (g : Supplied) : State :=
  state_of (open (Some cb) (initialize 0 g, start wd)).

(** A sample modal right after [render()]. *)
Definition rendered (wd : Widget) (g : Supplied) : State :=
  state_of (render (initialize 0 g, start wd)).

(** A template whose markup has no [.modal-body]. *)
Definition bare_template : Template :=
  CustomTemplate [El "div" ["box"] [Text "hello"]].


(** ** Proof steps *)

(** A step that touches none of the fields [Steady] (resp. [Kept]) speaks
    of. *)
Ltac steady_step :=
  constructor; try reflexivity; exists []; simpl; now rewrite app_nil_r.

Ltac kept_step := constructor; reflexivity.

(** * Properties *)

(** ** Bookkeeping lemmas *)

Lemma say_all_nil (w : World) : say_all [] w = w.
Proof. destruct w; unfold say_all; simpl; now rewrite app_nil_r. Qed.

Lemma say_all_say_all (l1 l2 : list Effect) (w : World) :
  say_all l2 (say_all l1 w) = say_all (l1 ++ l2) w.
Proof. unfold say_all; simpl; now rewrite app_assoc. Qed.

Lemma say_is_say_all (e : Effect) (w : World) : say e w = say_all [e] w.
Proof. reflexivity. Qed.

Lemma with_prevent_same (m : Modal) : with_prevent (_preventClose m) m = m.
Proof. now destruct m. Qed.

(** The caller's listeners change the veto flag and the trace, and nothing
    else. *)
Lemma run_users (acts : list UserAct) (m : Modal) (w : World) :
  fold_left run_user acts (m, w)
  = (with_prevent (vetoed acts (_preventClose m)) m,
     say_all (notes (mid m) acts) w).
Proof.
  revert m w; induction acts as [|a acts IH]; intros m w.
  - cbn [fold_left vetoed existsb orb notes flat_map].
    now rewrite with_prevent_same, say_all_nil.
  - destruct a; cbn [fold_left run_user]; rewrite IH; unfold vetoed; simpl.
    + rewrite orb_true_r. reflexivity.
    + rewrite say_is_say_all, say_all_say_all. reflexivity.
Qed.

Lemma trigger_plain_eq (e : Event) (m : Modal) (w : World) :
  trigger_plain e (m, w)
  = (with_prevent (vetoed (user_listeners e (listeners m)) (_preventClose m)) m,
     say_all (Emit (mid m) e :: notes (mid m) (user_listeners e (listeners m))) w).
Proof.
  unfold trigger_plain. rewrite run_users, say_is_say_all, say_all_say_all.
  reflexivity.
Qed.

Lemma forward_eq (e : Event) (m : Modal) (w : World) :
  forward e (m, w) = (m, say_all (forwarded e m) w).
Proof.
  unfold forward, forwarded. destruct (can_trigger (options m)).
  - reflexivity.
  - now rewrite say_all_nil.
Qed.

(** *** What the widget's signals and commands leave alone *)

Lemma Steady_refl (s : State) : Steady s s.
Proof. steady_step. Qed.

Lemma Steady_trans (s1 s2 s3 : State) :
  Steady s1 s2 -> Steady s2 s3 -> Steady s1 s3.
Proof.
  intros [a1 a2 a3 a5 a6 a7 [l1 a8]] [b1 b2 b3 b5 b6 b7 [l2 b8]].
  unfold same_but_width in *.
  constructor; unfold same_but_width; try congruence.
  exists (l1 ++ l2)%list. rewrite b8, a8. now rewrite app_assoc.
Qed.

Lemma Steady_iter (f : State -> State) (n : nat) (s : State) :
  (forall x, Steady x (f x)) -> Steady s (Nat.iter n f s).
Proof.
  intros H; induction n as [|n IH]; simpl.
  - apply Steady_refl.
  - eapply Steady_trans; [exact IH | apply H].
Qed.

Lemma Steady_say_all (l : list Effect) (m : Modal) (w : World) :
  Steady (m, w) (m, say_all l w).
Proof. constructor; try reflexivity. now exists l. Qed.

Lemma Steady_say (e : Effect) (m : Modal) (w : World) :
  Steady (m, w) (m, say e w).
Proof. apply (Steady_say_all [e]). Qed.

Lemma Steady_with_el (f : Element -> Element) (m : Modal) (w : World) :
  Steady (m, w) (with_el f m, w).
Proof. steady_step. Qed.

Lemma Steady_with_dialog (d : Dialog) (m : Modal) (w : World) :
  Steady (m, w) (with_dialog d m, w).
Proof. steady_step. Qed.

Lemma Steady_with_prevent (b : bool) (m : Modal) (w : World) :
  Steady (m, w) (with_prevent b m, w).
Proof. steady_step. Qed.

Lemma Steady_with_held (n : nat) (m : Modal) (w : World) :
  Steady (m, w) (with_held n m, w).
Proof. steady_step. Qed.

Lemma Steady_set_backdrops (b : list Backdrop) (m : Modal) (w : World) :
  Steady (m, w) (m, set_backdrops b w).
Proof. steady_step. Qed.

Lemma Steady_trigger_plain (e : Event) (s : State) :
  Steady s (trigger_plain e s).
Proof.
  destruct s as [m w]. rewrite trigger_plain_eq.
  eapply Steady_trans; [apply Steady_with_prevent | apply Steady_say_all].
Qed.

Lemma Steady_forward (e : Event) (s : State) : Steady s (forward e s).
Proof. destruct s as [m w]. rewrite forward_eq. apply Steady_say_all. Qed.

Lemma Steady_remove (s : State) : Steady s (remove s).
Proof.
  destruct s as [m w]. unfold remove.
  eapply Steady_trans; [apply Steady_with_el | apply Steady_say].
Qed.

Lemma Steady_hidden_handler (s : State) : Steady s (hidden_handler s).
Proof.
  unfold hidden_handler.
  eapply Steady_trans; [apply Steady_remove|].
  eapply Steady_trans; [apply Steady_forward | apply Steady_trigger_plain].
Qed.

Lemma Steady_shown_handler (s : State) : Steady s (shown_handler s).
Proof.
  destruct s as [m w]. unfold shown_handler.
  destruct (truthy (focusOk (options m))).
  - eapply Steady_trans; [apply Steady_say|].
    eapply Steady_trans; [apply Steady_forward | apply Steady_trigger_plain].
  - eapply Steady_trans; [apply Steady_forward | apply Steady_trigger_plain].
Qed.

Lemma Steady_fire_hidden (s : State) : Steady s (fire_hidden s).
Proof.
  destruct s as [m w]. unfold fire_hidden.
  eapply Steady_trans; [apply Steady_with_el|].
  apply Steady_iter, Steady_hidden_handler.
Qed.

Lemma Steady_fire_shown (s : State) : Steady s (fire_shown s).
Proof.
  destruct s as [m w]. unfold fire_shown.
  eapply Steady_trans; [apply Steady_with_el|].
  apply Steady_iter, Steady_shown_handler.
Qed.

Lemma Steady_finish_show (s : State) : Steady s (finish_show s).
Proof.
  destruct s as [m w]. unfold finish_show.
  eapply Steady_trans; [apply Steady_say | apply Steady_fire_shown].
Qed.

Lemma Steady_finish_hide (s : State) : Steady s (finish_hide s).
Proof.
  destruct s as [m w]. unfold finish_hide.
  pose proof (Steady_fire_hidden (m, say (SignalHidden (mid m)) w)) as H.
  destruct (fire_hidden (m, say (SignalHidden (mid m)) w)) as [m1 w1].
  eapply Steady_trans; [apply Steady_say|].
  eapply Steady_trans; [exact H | apply Steady_set_backdrops].
Qed.

Lemma Steady_widget_hide (s : State) : Steady s (widget_hide s).
Proof.
  destruct s as [m w]. unfold widget_hide.
  eapply Steady_trans; [apply Steady_say|].
  destruct (isShown (dialog m)); [|apply Steady_refl].
  destruct (timing (widget (say (WidgetHide (mid m)) w))).
  - eapply Steady_trans; [apply Steady_with_dialog | apply Steady_finish_hide].
  - apply Steady_with_dialog.
Qed.

Lemma Steady_widget_show (k b : prim) (s : State) :
  Steady s (widget_show k b s).
Proof.
  destruct s as [m w]. unfold widget_show.
  eapply Steady_trans; [apply Steady_say|].
  destruct (isShown (dialog m)); [apply Steady_refl|].
  eapply Steady_trans; [apply Steady_with_el|].
  set (w1 := if truthy b then _ else _).
  assert (H1 : Steady (with_el (set_in_document true) m, say (WidgetShow (mid m) k b) w)
                      (with_el (set_in_document true) m, w1)).
  { subst w1. destruct (truthy b);
      [apply Steady_set_backdrops | apply Steady_refl]. }
  eapply Steady_trans; [exact H1|].
  destruct (timing (widget w1)).
  - eapply Steady_trans; [apply Steady_with_dialog | apply Steady_finish_show].
  - apply Steady_with_dialog.
Qed.

Lemma Steady_hook_close (h : Hook) (s : State) : Steady s (hook_close h s).
Proof.
  destruct s as [m w]. unfold hook_close.
  destruct (on_close h).
  - eapply Steady_trans; [apply Steady_say | apply Steady_widget_hide].
  - eapply Steady_trans; [apply Steady_say | apply Steady_with_held].
  - apply Steady_say.
Qed.

Lemma Steady_ask_hide (s : State) : Steady s (ask_hide s).
Proof.
  unfold ask_hide. destruct (animate (options (fst s))).
  - apply Steady_widget_hide.
  - apply Steady_hook_close.
Qed.

Lemma close_eq (m : Modal) (w : World) :
  close (m, w)
  = if _preventClose m then (with_prevent false m, w)
    else (with_el (fun e => set_one_hidden (S (one_hidden e)) e)
                  (fst (ask_hide (m, w))),
          set_count (count (snd (ask_hide (m, w))) - 1)
                    (snd (ask_hide (m, w)))).
Proof.
  unfold close, ask_hide. cbn [fst].
  destruct (_preventClose m); [reflexivity|].
  destruct (animate (options m)) as [p|h].
  - destruct (widget_hide (m, w)) as [m1 w1]. reflexivity.
  - destruct (hook_close h (m, w)) as [m1 w1]. reflexivity.
Qed.

(** The first entry [close] adds to the trace when it is not vetoed. *)
Lemma ask_hide_log (s : State) :
  exists l,
    log (snd (ask_hide s))
    = (log (snd s)
       ++ match animate (options (fst s)) with
          | AnimHook _ => HookCall (mid (fst s)) PhaseClose
          | AnimPrim _ => WidgetHide (mid (fst s))
          end :: l)%list.
Proof.
  destruct s as [m w]. unfold ask_hide. cbn [fst snd].
  destruct (animate (options m)) as [p|h].
  - unfold widget_hide.
    destruct (isShown (dialog m)); [|now exists []].
    destruct (timing (widget (say (WidgetHide (mid m)) w))).
    + match goal with |- context [finish_hide ?x] =>
        destruct (steady_log _ _ (Steady_finish_hide x)) as [l Hl] end.
      exists l. rewrite Hl. cbn [snd log say]. now rewrite <- app_assoc.
    + now exists [].
  - unfold hook_close. destruct (on_close h).
    + match goal with |- context [widget_hide ?x] =>
        destruct (steady_log _ _ (Steady_widget_hide x)) as [l Hl] end.
      exists l. rewrite Hl. cbn [snd log say]. now rewrite <- app_assoc.
    + now exists [].
    + now exists [].
Qed.

Lemma Kept_refl (s : State) : Kept s s.
Proof. kept_step. Qed.

Lemma Kept_trans (s1 s2 s3 : State) : Kept s1 s2 -> Kept s2 s3 -> Kept s1 s3.
Proof. intros [] []; constructor; congruence. Qed.

Lemma Kept_iter (f : State -> State) (n : nat) (s : State) :
  (forall x, Kept x (f x)) -> Kept s (Nat.iter n f s).
Proof.
  intros H; induction n as [|n IH]; simpl.
  - apply Kept_refl.
  - eapply Kept_trans; [exact IH | apply H].
Qed.

Lemma Kept_trigger_plain (e : Event) (s : State) : Kept s (trigger_plain e s).
Proof. destruct s as [m w]. rewrite trigger_plain_eq. kept_step. Qed.

Lemma Kept_forward (e : Event) (s : State) : Kept s (forward e s).
Proof. destruct s as [m w]. rewrite forward_eq. kept_step. Qed.

Lemma Kept_shown_handler (s : State) : Kept s (shown_handler s).
Proof.
  destruct s as [m w]. unfold shown_handler.
  destruct (truthy (focusOk (options m)));
    (eapply Kept_trans; [|apply Kept_trigger_plain]);
    (eapply Kept_trans; [|apply Kept_forward]); kept_step.
Qed.

Lemma Kept_fire_shown (s : State) : Kept s (fire_shown s).
Proof.
  destruct s as [m w]. unfold fire_shown.
  eapply Kept_trans; [|apply Kept_iter, Kept_shown_handler]. kept_step.
Qed.

Lemma Kept_finish_show (s : State) : Kept s (finish_show s).
Proof.
  destruct s as [m w]. unfold finish_show.
  eapply Kept_trans; [|apply Kept_fire_shown]. kept_step.
Qed.

(** [render], returning or throwing, writes the markup, the classes, the
    width and the rendered flag, and nothing else. *)
Lemma render_keeps (s : State) :
  Steady s (state_of (render s)) /\ Kept s (state_of (render s))
  /\ _preventClose (fst (state_of (render s))) = _preventClose (fst s)
  /\ one_shown (el (fst (state_of (render s)))) = one_shown (el (fst s)).
Proof.
  destruct s as [m w]. unfold render.
  destruct (run_template (options m)) as [html|].
  2:{ cbn [state_of]. repeat split; try reflexivity.
      exists []. now rewrite app_nil_r. }
  cbn [options with_el with_options].
  destruct (truthy (width (options m)));
    cbn [options with_el with_options set_width animate];
    destruct (animate (options m)) as [p|h];
    try destruct (is_true p);
    unfold insert_content; cbn [options with_el with_options set_width content];
    destruct (content (options m)) as [[[]|[[] ?]]|];
    cbn [state_of];
    (split; [|split; [|split]]);
    try reflexivity;
    try (constructor; try reflexivity; cbn;
         first [ exists []; now rewrite app_nil_r | eexists; reflexivity
               | rewrite <- app_assoc; eexists; reflexivity ]).
Qed.

Lemma render_returns (s : State) :
  returned (render s) = has_content (options (fst s))
                        && match run_template (options (fst s)) with
                           | Some _ => true | None => false end.
Proof.
  destruct s as [m w]. unfold render, has_content. cbn [fst].
  destruct (run_template (options m)) as [html|].
  2:{ now rewrite andb_false_r. }
  cbn [options with_el with_options].
  destruct (truthy (width (options m)));
    cbn [options with_el with_options set_width animate];
    destruct (animate (options m)) as [p|h];
    try destruct (is_true p);
    unfold insert_content; cbn [options with_el with_options set_width content];
    destruct (content (options m)) as [[[]|[[] ?]]|]; reflexivity.
Qed.

Lemma template_with_content (o : Options) :
  has_content o = true ->
  match run_template o with Some _ => true | None => false end = true.
Proof.
  unfold has_content, run_template, default_template.
  destruct (template o); [|reflexivity].
  destruct (content o); [reflexivity | discriminate].
Qed.

Lemma same_animate (o o' : Options) :
  same_but_width o o' -> animate o' = animate o.
Proof. intros H. exact (f_equal animate H). Qed.

Lemma same_allowCancel (o o' : Options) :
  same_but_width o o' -> allowCancel o' = allowCancel o.
Proof. intros H. exact (f_equal allowCancel H). Qed.

Lemma same_backdrop (o o' : Options) :
  same_but_width o o' -> backdrop o' = backdrop o.
Proof. intros H. exact (f_equal backdrop H). Qed.

Lemma same_content (o o' : Options) :
  same_but_width o o' -> content o' = content o.
Proof. intros H. exact (f_equal content H). Qed.

Lemma same_focusOk (o o' : Options) :
  same_but_width o o' -> focusOk o' = focusOk o.
Proof. intros H. exact (f_equal focusOk H). Qed.

Lemma same_okCloses (o o' : Options) :
  same_but_width o o' -> okCloses o' = okCloses o.
Proof. intros H. exact (f_equal okCloses H). Qed.

(** *** The widget's commands *)

Lemma widget_show_fresh (k b : prim) (m : Modal) (w : World) :
  isShown (dialog m) = false ->
  let s' := widget_show k b (m, w) in
  Steady (m, w) s'
  /\ in_document (el (fst s')) = true
  /\ isShown (dialog (fst s')) = true
  /\ hidden_due (dialog (fst s')) = hidden_due (dialog m)
  /\ shown_due (dialog (fst s'))
     = match timing (widget w) with Deferred => true | Immediate => false end
  /\ one_hidden (el (fst s')) = one_hidden (el m)
  /\ css_zindex (el (fst s')) = css_zindex (el m)
  /\ held (fst s') = held m
  /\ backdrops (snd s')
     = (backdrops w
        ++ if truthy b then [new_backdrop (mid m) (widget w)] else [])%list
  /\ (timing (widget w) = Deferred ->
      _preventClose (fst s') = _preventClose m
      /\ one_shown (el (fst s')) = one_shown (el m)).
Proof.
  intros Hs s'. split; [apply Steady_widget_show|]. subst s'.
  unfold widget_show. rewrite Hs.
  assert (Hw : forall x, widget (if truthy b
                 then set_backdrops x (say (WidgetShow (mid m) k b) w)
                 else say (WidgetShow (mid m) k b) w) = widget w)
    by (intros; now destruct (truthy b)).
  rewrite Hw.
  destruct (timing (widget w)).
  - match goal with |- context [finish_show ?x] =>
      pose proof (Kept_finish_show x) as [K1 K2 K3 K4 K5 K6] end.
    rewrite K1, K2, K3, K4, K5, K6. cbn.
    repeat split; try reflexivity.
    + destruct (truthy b); cbn; [reflexivity | now rewrite app_nil_r].
    + discriminate.
    + discriminate.
  - cbn. repeat split; try reflexivity.
    destruct (truthy b); cbn; [reflexivity | now rewrite app_nil_r].
Qed.

Lemma widget_hide_deferred (m : Modal) (w : World) :
  timing (widget w) = Deferred -> isShown (dialog m) = true ->
  widget_hide (m, w)
  = (with_dialog {| isShown := false; shown_due := shown_due (dialog m);
                    hidden_due := true |} m,
     say (WidgetHide (mid m)) w).
Proof.
  intros Ht Hs. unfold widget_hide. rewrite Hs. cbn [widget say].
  now rewrite Ht.
Qed.

(** *** Order in a trace *)

Lemma before_without_later (a b : Effect) (l : list Effect) :
  ~ In b l -> before a b l = false.
Proof.
  induction l as [|x r IH]; intros H; [reflexivity|].
  simpl in *. destruct (Effect_eq_dec x a).
  - destruct (in_dec Effect_eq_dec b r); [tauto | apply IH; tauto].
  - apply IH; tauto.
Qed.

Lemma before_skips (a b : Effect) (p r : list Effect) :
  ~ In a p -> before a b (p ++ r) = before a b r.
Proof.
  induction p as [|x p IH]; intros H; [reflexivity|].
  simpl in *. destruct (Effect_eq_dec x a); [tauto | apply IH; tauto].
Qed.

Lemma before_found (a b : Effect) (r : list Effect) :
  In b r -> before a b (a :: r) = true.
Proof.
  intros H. simpl. destruct (Effect_eq_dec a a); [|congruence].
  destruct (in_dec Effect_eq_dec b r); [reflexivity | contradiction].
Qed.

Lemma notes_are_notes (id : nat) (acts : list UserAct) (e : Effect) :
  In e (notes id acts) -> exists tag, e = Note id tag.
Proof.
  unfold notes. rewrite in_flat_map. intros ([|tag] & _ & H); simpl in H.
  - contradiction.
  - destruct H as [<-|[]]. now exists tag.
Qed.

(** *** Closing with a widget that signals later *)

Lemma close_deferred (m : Modal) (w : World) :
  _preventClose m = false ->
  timing (widget w) = Deferred ->
  isShown (dialog m) = true ->
  held m = 0%nat ->
  replies (options m) = true ->
  let s' := hook_resume (close (m, w)) in
  count (snd s') = count w - 1
  /\ dialog (fst s') = {| isShown := false; shown_due := shown_due (dialog m);
                          hidden_due := true |}
  /\ el (fst s') = set_one_hidden (S (one_hidden (el m))) (el m)
  /\ held (fst s') = 0%nat
  /\ mid (fst s') = mid m
  /\ options (fst s') = options m
  /\ listeners (fst s') = listeners m
  /\ _preventClose (fst s') = false
  /\ backdrops (snd s') = backdrops w
  /\ keyup (snd s') = keyup w
  /\ widget (snd s') = widget w
  /\ log (snd s') = (log w ++ hide_request m)%list.
Proof.
  intros Hp Ht Hs Hh Hr s'. subst s'.
  unfold close, hide_request, replies in *. rewrite Hp.
  destruct (animate (options m)) as [p|h].
  - rewrite widget_hide_deferred by (first [assumption | exact Ht]).
    unfold hook_resume. cbn [held with_el with_dialog]. rewrite Hh.
    cbn. repeat split; assumption.
  - unfold hook_close. cbv zeta. destruct (on_close h); try discriminate.
    + rewrite (widget_hide_deferred m (say (HookCall (mid m) PhaseClose) w) Ht Hs).
      unfold hook_resume. cbn [held with_el with_dialog]. rewrite Hh.
      cbn. rewrite <- app_assoc. repeat split; assumption.
    + unfold hook_resume. cbn [held with_el with_held snd Nat.iter].
      rewrite Hh. cbn [Nat.iter].
      rewrite widget_hide_deferred; [|exact Ht|exact Hs].
      cbn. rewrite <- app_assoc. repeat split; assumption.
Qed.

Lemma finish_hide_once (m : Modal) (w : World) :
  one_hidden (el m) = 1%nat ->
  let s' := finish_hide (m, w) in
  log (snd s')
  = (log w ++ [SignalHidden (mid m); Removed (mid m)]
     ++ forwarded Hidden m
     ++ [Emit (mid m) Hidden]
     ++ notes (mid m) (on_hidden (listeners m)))%list
  /\ in_document (el (fst s')) = false
  /\ count (snd s') = count w
  /\ dialog (fst s') = dialog m
  /\ mid (fst s') = mid m.
Proof.
  intros H s'. subst s'.
  unfold finish_hide, fire_hidden. rewrite H.
  change (Nat.iter 1 hidden_handler ?x) with (hidden_handler x).
  unfold hidden_handler, remove. cbv beta iota zeta.
  rewrite forward_eq, trigger_plain_eq.
  cbn. unfold forwarded. cbn [options with_el mid].
  rewrite <- !app_assoc. cbn. repeat split; reflexivity.
Qed.

Lemma hidden_handler_removes (s : State) :
  in_document (el (fst (hidden_handler s))) = false.
Proof.
  destruct s as [m w]. unfold hidden_handler, remove. cbv beta iota zeta.
  rewrite forward_eq, trigger_plain_eq. reflexivity.
Qed.

Lemma finish_hide_removes (m : Modal) (w : World) :
  one_hidden (el m) <> 0%nat ->
  in_document (el (fst (finish_hide (m, w)))) = false
  /\ count (snd (finish_hide (m, w))) = count w.
Proof.
  intros H. split.
  - unfold finish_hide, fire_hidden. cbn [el one_hidden].
    destruct (one_hidden (el m)) as [|n]; [congruence|].
    rewrite Nat.iter_succ.
    match goal with |- context [hidden_handler ?x] =>
      pose proof (hidden_handler_removes x) as R;
      destruct (hidden_handler x) as [m1 w1] end.
    exact R.
  - exact (steady_count _ _ (Steady_finish_hide (m, w))).
Qed.

Lemma signal_shown_keeps (s : State) :
  let s' := signal_shown s in
  Steady s s'
  /\ isShown (dialog (fst s')) = isShown (dialog (fst s))
  /\ hidden_due (dialog (fst s')) = hidden_due (dialog (fst s))
  /\ in_document (el (fst s')) = in_document (el (fst s))
  /\ one_hidden (el (fst s')) = one_hidden (el (fst s))
  /\ held (fst s') = held (fst s)
  /\ backdrops (snd s') = backdrops (snd s).
Proof.
  destruct s as [m w]. unfold signal_shown. cbn zeta.
  destruct (shown_due (dialog m)).
  - match goal with |- context [finish_show ?x] =>
      pose proof (Kept_finish_show x) as [K1 K2 K3 K4 K5 K6];
      pose proof (Steady_finish_show x) as S end.
    split; [eapply Steady_trans; [|exact S]; steady_step|].
    rewrite K1, K2, K4, K5, K6. repeat split; reflexivity.
  - split; [apply Steady_refl | repeat split; reflexivity].
Qed.

(** *** open, after rendering *)

Lemma on_selected_count sel f w : count (on_selected sel f w) = count w.
Proof. unfold on_selected. now destruct sel. Qed.

Lemma on_selected_widget sel f w : widget (on_selected sel f w) = widget w.
Proof. unfold on_selected. now destruct sel. Qed.

Lemma on_selected_keyup sel f w : keyup (on_selected sel f w) = keyup w.
Proof. unfold on_selected. now destruct sel. Qed.

Lemma on_selected_log sel f w : log (on_selected sel f w) = log w.
Proof. unfold on_selected. now destruct sel. Qed.

Lemma show_fresh (cb : option UserAct) (m : Modal) (w : World) :
  isShown (dialog m) = false ->
  let s' := show cb (m, w) in
  mid (fst s') = mid m
  /\ same_but_width (options m) (options (fst s'))
  /\ count (snd s') = count w + 1
  /\ widget (snd s') = widget w
  /\ in_document (el (fst s')) = true
  /\ isShown (dialog (fst s')) = true
  /\ hidden_due (dialog (fst s')) = hidden_due (dialog m)
  /\ shown_due (dialog (fst s'))
     = match timing (widget w) with Deferred => true | Immediate => false end
  /\ one_hidden (el (fst s')) = one_hidden (el m)
  /\ held (fst s') = held m
  /\ keyup (snd s')
     = (keyup w ++ if truthy (allowCancel (options m)) then [mid m] else [])%list
  /\ on_cancel (listeners (fst s'))
     = (on_cancel (listeners m) ++ [WireClose])%list
  /\ (timing (widget w) = Deferred -> _preventClose (fst s') = _preventClose m)
  /\ exists l,
       log (snd s')
       = (log w ++ WidgetShow (mid m) (allowCancel (options m))
                              (backdrop_option (options m)) :: l)%list.
Proof.
  intros Hs s'. subst s'. unfold show. cbn [fst].
  destruct (widget_show_fresh (allowCancel (options m))
              (backdrop_option (options m)) m w Hs)
    as ([S1 S2 S3 S4 S5 S6 [l S7]] & W1 & W2 & W3 & W4 & W5 & W6 & W7 & W8 & W9).
  assert (L : exists l', log (snd (widget_show (allowCancel (options m))
                                     (backdrop_option (options m)) (m, w)))
                         = (log w ++ WidgetShow (mid m) (allowCancel (options m))
                              (backdrop_option (options m)) :: l')%list).
  { unfold widget_show. rewrite Hs.
    match goal with |- context [if truthy ?b then ?x else ?y] =>
      assert (Hl : log (if truthy b then x else y)
                   = (log w ++ [WidgetShow (mid m) (allowCancel (options m))
                                  (backdrop_option (options m))])%list)
        by (destruct (truthy b); reflexivity);
      assert (Hw : widget (if truthy b then x else y) = widget w)
        by (destruct (truthy b); reflexivity);
      set (w1 := if truthy b then x else y) in * end.
    rewrite Hw. destruct (timing (widget w)).
    - match goal with |- context [finish_show ?x] =>
        destruct (steady_log _ _ (Steady_finish_show x)) as [l' Hl'] end.
      exists l'. rewrite Hl'. cbn [snd]. rewrite Hl. now rewrite <- app_assoc.
    - exists []. cbn [snd]. exact Hl. }
  destruct L as [l' L].
  destruct (widget_show (allowCancel (options m)) (backdrop_option (options m))
              (m, w)) as [m1 w1].
  cbn [fst snd] in *.
  set (sel := eq_index (count w1) (List.length (backdrops w1))).
  set (z := css_value (add (css_get sel (backdrops w1)) (count w1))).
  destruct z; destruct cb; destruct (truthy (allowCancel (options m))); cbn;
    rewrite ?on_selected_count, ?on_selected_widget, ?on_selected_keyup,
      ?on_selected_log;
    rewrite ?S1, ?S4, ?S5, ?S6, ?S3, ?app_nil_r;
    repeat split; try assumption; try reflexivity; try lia;
    try (intros Hd; apply W9 in Hd; tauto);
    try (eexists; exact L).
Qed.

Lemma close_count (m : Modal) (w : World) :
  _preventClose m = false -> count (snd (close (m, w))) = count w - 1.
Proof.
  intros H. rewrite close_eq, H. cbn [snd count set_count].
  now rewrite (steady_count _ _ (Steady_ask_hide _)).
Qed.

(** *** What is still owed, and a widget that signals at once *)

Lemma Steady_settle (s : State) : Steady s (settle s).
Proof.
  unfold settle.
  apply Steady_trans with (hook_resume s).
  { destruct s as [m w]. unfold hook_resume.
    eapply Steady_trans; [apply Steady_with_held|].
    apply Steady_iter, Steady_widget_hide. }
  apply Steady_trans with (signal_shown (hook_resume s)).
  { apply signal_shown_keeps. }
  destruct (signal_shown (hook_resume s)) as [m w]. unfold signal_hidden.
  destruct (hidden_due (dialog m)); [|apply Steady_refl].
  eapply Steady_trans; [apply Steady_with_dialog | apply Steady_finish_hide].
Qed.

(** Nothing kept, nothing owed: settling changes nothing. *)
Lemma settle_idle (s : State) :
  held (fst s) = 0%nat ->
  shown_due (dialog (fst s)) = false ->
  hidden_due (dialog (fst s)) = false ->
  settle s = (with_held 0 (fst s), snd s).
Proof.
  destruct s as [m w]. cbn [fst snd]. intros Hh Hs Hd.
  unfold settle, hook_resume. rewrite Hh.
  change (Nat.iter 0 widget_hide ?x) with x.
  unfold signal_shown. cbn [dialog with_held]. rewrite Hs.
  unfold signal_hidden. cbn [dialog with_held]. now rewrite Hd.
Qed.

(** On an element with no 'shown' handler waiting, [open] leaves the veto
    flag alone, whenever the widget signals. *)
Lemma show_keeps_flag (cb : option UserAct) (m : Modal) (w : World) :
  isShown (dialog m) = false ->
  one_shown (el m) = 0%nat ->
  _preventClose (fst (show cb (m, w))) = _preventClose m.
Proof.
  intros Hs Ho. destruct (timing (widget w)) eqn:Ht.
  2:{ destruct (show_fresh cb m w Hs)
        as (_ & _ & _ & _ & _ & _ & _ & _ & _ & _ & _ & _ & A13 & _).
      exact (A13 Ht). }
  unfold show, widget_show. cbn [fst]. rewrite Hs.
  assert (Hw : forall x,
             widget (if truthy (backdrop_option (options m))
                     then set_backdrops x
                            (say (WidgetShow (mid m) (allowCancel (options m))
                                    (backdrop_option (options m))) w)
                     else say (WidgetShow (mid m) (allowCancel (options m))
                                 (backdrop_option (options m))) w)
             = widget w)
    by (intros; now destruct (truthy (backdrop_option (options m)))).
  rewrite Hw, Ht.
  unfold finish_show, fire_shown.
  cbn [el with_dialog with_el set_in_document one_shown].
  rewrite Ho. change (Nat.iter 0 shown_handler ?x) with x.
  destruct (truthy (backdrop_option (options m)));
    cbn [fst snd count say set_backdrops backdrops];
    match goal with |- context [css_value ?v] => destruct (css_value v) end;
    destruct cb; destruct (truthy (allowCancel (options m))); reflexivity.
Qed.

(** [close] on a showing modal, with a widget that signals 'hidden'
    inside [$el.modal('hide')] and no handler waiting for it yet. *)
Lemma close_prompt (m : Modal) (w : World) :
  _preventClose m = false ->
  timing (widget w) = Immediate ->
  isShown (dialog m) = true ->
  one_hidden (el m) = 0%nat ->
  hides_at_once (options m) = true ->
  in_document (el (fst (close (m, w)))) = in_document (el m)
  /\ one_hidden (el (fst (close (m, w)))) = 1%nat
  /\ dialog (fst (close (m, w)))
     = {| isShown := false; shown_due := shown_due (dialog m);
          hidden_due := false |}
  /\ held (fst (close (m, w))) = held m.
Proof.
  intros Hp Ht Hs Ho Hi. unfold close. rewrite Hp.
  unfold hides_at_once in Hi.
  destruct (animate (options m)) as [p|h].
  - unfold widget_hide. rewrite Hs. cbn [widget say]. rewrite Ht.
    unfold finish_hide, fire_hidden. cbn [el with_dialog]. rewrite Ho.
    change (Nat.iter 0 hidden_handler ?x) with x.
    cbn. repeat split; reflexivity.
  - unfold hook_close. cbv zeta.
    destruct (on_close h); try discriminate Hi.
    unfold widget_hide. rewrite Hs. cbn [widget say]. rewrite Ht.
    unfold finish_hide, fire_hidden. cbn [el with_dialog]. rewrite Ho.
    change (Nat.iter 0 hidden_handler ?x) with x.
    cbn. repeat split; reflexivity.
Qed.

(** *** Handlers that are not there *)

Lemma update_nth_map {A B} (g : A -> B) (f : A -> A) (i : nat) (l : list A) :
  (forall x, g (f x) = g x) -> map g (update_nth i f l) = map g l.
Proof.
  intros H. revert i; induction l as [|x r IH]; intros i; [reflexivity|].
  destruct i; simpl; [now rewrite H | now rewrite IH].
Qed.

Lemma update_nth_same {A} (P : A -> Prop) (f : A -> A) (i : nat) (l : list A) :
  (forall x, P x -> f x = x) -> Forall P l -> update_nth i f l = l.
Proof.
  intros H F. revert i; induction F as [|x r Hx F IH]; intros i; [reflexivity|].
  destruct i; simpl; [now rewrite H | now rewrite IH].
Qed.

Lemma forget_click_absent (id : nat) (b : Backdrop) :
  ~ In id (bd_click b) -> forget_click id b = b.
Proof.
  intros H. unfold forget_click. rewrite notin_remove by exact H.
  now destruct b.
Qed.

Lemma restyle_click (v : prim) (b : Backdrop) :
  bd_click (restyle v b) = bd_click b.
Proof. unfold restyle. now destruct (css_value v). Qed.

(** Without a truthy [allowCancel], [open] leaves the click handlers of the
    backdrops as they were; a backdrop the widget inserts has none. *)
Lemma show_clicks (cb : option UserAct) (m : Modal) (w : World) :
  truthy (allowCancel (options m)) = false ->
  isShown (dialog m) = false ->
  map bd_click (backdrops (snd (show cb (m, w))))
  = (map bd_click (backdrops w)
     ++ if truthy (backdrop_option (options m)) then [[]] else [])%list.
Proof.
  intros Ha Hs. unfold show. cbn [fst]. rewrite Ha.
  destruct (widget_show_fresh (allowCancel (options m))
              (backdrop_option (options m)) m w Hs)
    as (_ & _ & _ & _ & _ & _ & _ & _ & W8 & _).
  destruct (widget_show (allowCancel (options m)) (backdrop_option (options m))
              (m, w)) as [m1 w1].
  cbn [fst snd] in *.
  match goal with |- context [on_selected ?sel ?f w1] =>
    assert (E : map bd_click (backdrops (on_selected sel f w1))
                = map bd_click (backdrops w1))
      by (unfold on_selected; destruct sel; [|reflexivity];
          cbn [backdrops set_backdrops];
          apply update_nth_map; intros x; apply restyle_click)
  end.
  cbn [snd backdrops set_count]. rewrite E, W8, map_app.
  now destruct (truthy (backdrop_option (options m))).
Qed.

Lemma press_without_handler (which : Z) (m : Modal) (w : World) :
  ~ In (mid m) (keyup w) -> press which (m, w) = (m, w).
Proof.
  intros H. unfold press.
  rewrite (proj1 (count_occ_not_In Nat.eq_dec _ _) H).
  rewrite notin_remove by exact H. now destruct w.
Qed.

Lemma click_backdrop_without_handler (i : nat) (m : Modal) (w : World) :
  Forall (fun b => ~ In (mid m) (bd_click b)) (backdrops w) ->
  click_backdrop i (m, w) = (m, w).
Proof.
  intros F. unfold click_backdrop.
  destruct (nth_error (backdrops w) i) as [b|] eqn:E; [|reflexivity].
  assert (Hb : ~ In (mid m) (bd_click b)).
  { rewrite Forall_forall in F. apply F. eapply nth_error_In; eassumption. }
  rewrite (proj1 (count_occ_not_In Nat.eq_dec _ _) Hb).
  rewrite (update_nth_same _ _ _ _ (forget_click_absent (mid m)) F).
  now destruct w.
Qed.

(** *** Listeners on "cancel" *)

Lemma run_cancels_users (acts : list UserAct) (s : State) :
  fold_left run_cancel (map UserCancel acts) s = fold_left run_user acts s.
Proof.
  revert s; induction acts as [|a acts IH]; intros s; [reflexivity|].
  simpl. apply IH.
Qed.

Lemma trigger_cancel_unwired (acts : list UserAct) (m : Modal) (w : World) :
  on_cancel (listeners m) = map UserCancel acts ->
  trigger Cancel (m, w)
  = (with_prevent (vetoed acts (_preventClose m)) m,
     say_all (Emit (mid m) Cancel :: notes (mid m) acts) w).
Proof.
  intros H. unfold trigger. rewrite H, run_cancels_users, run_users.
  now rewrite say_is_say_all, say_all_say_all.
Qed.

Lemma trigger_cancel_wired (acts : list UserAct) (m : Modal) (w : World) :
  on_cancel (listeners m) = (map UserCancel acts ++ [WireClose])%list ->
  trigger Cancel (m, w)
  = close (with_prevent (vetoed acts (_preventClose m)) m,
           say_all (Emit (mid m) Cancel :: notes (mid m) acts) w).
Proof.
  intros H. unfold trigger. rewrite H, fold_left_app.
  rewrite run_cancels_users, run_users.
  now rewrite say_is_say_all, say_all_say_all.
Qed.

Lemma show_wires (cb : option UserAct) (s : State) :
  on_cancel (listeners (fst (show cb s)))
  = (on_cancel (listeners (fst s)) ++ [WireClose])%list.
Proof.
  unfold show.
  pose proof (steady_listeners _ _
                (Steady_widget_show (allowCancel (options (fst s)))
                   (backdrop_option (options (fst s))) s)) as L.
  destruct (widget_show _ _ s) as [m1 w1]. cbn [fst] in L.
  match goal with |- context [css_value ?v] => destruct (css_value v) end;
    destruct cb; cbn; now rewrite L.
Qed.

(** *** Stacking *)

Lemma eq_index_last (n : nat) : eq_index (Z.of_nat n) (S n) = Some n.
Proof.
  unfold eq_index.
  destruct (Z.ltb_spec (Z.of_nat n) 0) as [H|H]; [lia|].
  destruct (Z.leb_spec 0 (Z.of_nat n)) as [H1|H1]; [|lia].
  destruct (Z.ltb_spec (Z.of_nat n) (Z.of_nat (S n))) as [H2|H2]; [|lia].
  cbn. now rewrite Nat2Z.id.
Qed.

Lemma update_nth_last {A} (f : A -> A) (l : list A) (x : A) :
  update_nth (List.length l) f (l ++ [x]) = (l ++ [f x])%list.
Proof. induction l as [|y r IH]; simpl; [reflexivity | now rewrite IH]. Qed.

Lemma nth_error_last {A} (l : list A) (x : A) :
  nth_error (l ++ [x]) (List.length l) = Some x.
Proof. induction l as [|y r IH]; simpl; [reflexivity | exact IH]. Qed.

(** With as many backdrops in the document as [Modal.count] says, [open]
    selects the backdrop the widget has just inserted, and writes on it and
    on the element the text of its z-index followed by the digits of the
    count. *)
Lemma show_stacks (cb : option UserAct) (m : Modal) (w : World) :
  isShown (dialog m) = false ->
  truthy (backdrop_option (options m)) = true ->
  count w = Z.of_nat (List.length (backdrops w)) ->
  let z := backdrop_zindex (widget w) ++ dec (count w) in
  css_zindex (el (fst (show cb (m, w)))) = Some z
  /\ exists b,
       backdrops (snd (show cb (m, w))) = (backdrops w ++ [b])%list
       /\ bd_zindex b = z.
Proof.
  intros Hs Hb Hc z. unfold show. cbn [fst].
  destruct (widget_show_fresh (allowCancel (options m))
              (backdrop_option (options m)) m w Hs)
    as ([S1 S2 S3 S4 S5 S6 S7] & _ & _ & _ & _ & _ & W6 & _ & W8 & _).
  rewrite Hb in W8.
  destruct (widget_show (allowCancel (options m)) (backdrop_option (options m))
              (m, w)) as [m1 w1].
  cbn [fst snd] in *.
  rewrite W8, S4, Hc, length_app, Nat.add_comm. cbn [List.length Nat.add].
  rewrite eq_index_last.
  unfold css_get, selected. rewrite nth_error_last.
  cbn [new_backdrop bd_zindex add css_value].
  unfold on_selected. cbn [backdrops set_backdrops].
  rewrite W8, update_nth_last.
  split.
  - unfold z. rewrite Hc. destruct cb; reflexivity.
  - unfold z. rewrite Hc.
    destruct (truthy (allowCancel (options m)));
      cbn [backdrops set_backdrops set_keyup set_count snd];
      rewrite ?update_nth_last; eexists; (split; [reflexivity|]);
      reflexivity.
Qed.

Lemma open_ready (cb : option UserAct) (m : Modal) (w : World) :
  ready m ->
  exists m1 w1,
    open cb (m, w) = Done (show cb (m1, w1))
    /\ Steady (m, w) (m1, w1) /\ Kept (m, w) (m1, w1).
Proof.
  intros (Hs & Hc & Hb). unfold open. cbn [fst].
  destruct (isRendered m).
  - exists m, w. split; [reflexivity|].
    split; [apply Steady_refl | apply Kept_refl].
  - destruct (render_keeps (m, w)) as (S & K & _).
    pose proof (render_returns (m, w)) as R. cbn [fst] in R.
    rewrite Hc, (template_with_content _ Hc) in R.
    destruct (render (m, w)) as [[m1 w1]|e s']; [|discriminate].
    exists m1, w1. split; [reflexivity|]. split; assumption.
Qed.

(** Opening ready modals one after the other: the count goes up by their
    number, and the [k]-th gets, on its element and on its backdrop, the
    stylesheet's z-index text followed by the digits of the count it was
    opened at. *)
Lemma open_each_stacks (ms : list Modal) :
  Forall ready ms ->
  forall w,
    count w = Z.of_nat (List.length (backdrops w)) ->
    exists ms' w' bs,
      open_each ms w = Some (ms', w')
      /\ count w' = count w + Z.of_nat (List.length ms)
      /\ widget w' = widget w
      /\ backdrops w' = (backdrops w ++ bs)%list
      /\ forall k, (k < List.length ms)%nat ->
           let z := backdrop_zindex (widget w)
                    ++ dec (count w + Z.of_nat k) in
           option_map (fun m => css_zindex (el m)) (nth_error ms' k)
           = Some (Some z)
           /\ option_map bd_zindex (nth_error bs k) = Some z.
Proof.
  induction 1 as [|m rest Hm Hrest IH]; intros w Hc.
  - exists [], w, []. cbn. rewrite app_nil_r.
    repeat split; lia.
  - destruct (open_ready None m w Hm)
      as (m1 & w1 & E & [S1 S2 S3 S4 S5 S6 S7] & [K1 K2 K3 K4 K5 K6]).
    cbn [fst snd] in *.
    destruct Hm as (Hs & Hco & Hb).
    assert (Hs1 : isShown (dialog m1) = false) by now rewrite K1.
    assert (Hb1 : truthy (backdrop_option (options m1)) = true).
    { unfold backdrop_option in *.
      now rewrite (same_allowCancel _ _ S2), (same_backdrop _ _ S2). }
    assert (Hc1 : count w1 = Z.of_nat (List.length (backdrops w1)))
      by now rewrite S4, K6.
    destruct (show_stacks None m1 w1 Hs1 Hb1 Hc1) as (Z1 & b & Z2 & Z3).
    destruct (show_fresh None m1 w1 Hs1) as (_ & _ & A3 & A4 & _).
    cbn [open_each]. rewrite E.
    destruct (show None (m1, w1)) as [m2 w2]. cbn [fst snd] in *.
    assert (Hc2 : count w2 = Z.of_nat (List.length (backdrops w2))).
    { rewrite A3, Z2, length_app, Hc1. cbn [List.length]. lia. }
    destruct (IH w2 Hc2) as (ms' & w' & bs & I1 & I2 & I3 & I4 & I5).
    rewrite I1. exists (m2 :: ms'), w', (b :: bs).
    split; [reflexivity|].
    split; [rewrite I2, A3, S4; cbn [List.length]; lia|].
    split; [now rewrite I3, A4, S6|].
    split; [rewrite I4, Z2, K6, <- app_assoc; reflexivity|].
    intros [|k] Hk.
    + cbn. rewrite Z1, Z3, S6, S4, Z.add_0_r. split; reflexivity.
    + cbn [nth_error]. cbn [List.length] in Hk.
      destruct (I5 k ltac:(lia)) as [J1 J2].
      rewrite A4, S6, A3, S4 in J1, J2.
      replace (count w + Z.of_nat (S k)) with (count w + 1 + Z.of_nat k) by lia.
      split; assumption.
Qed.

(** *** The [escape] key is carried along, never looked at *)

Lemma iter_commutes {A} (f g : A -> A) (n : nat) (x : A) :
  (forall y, f (g y) = g (f y)) -> Nat.iter n f (g x) = g (Nat.iter n f x).
Proof.
  intros H. induction n as [|n IH]; [reflexivity|].
  rewrite !Nat.iter_succ, IH. apply H.
Qed.

Lemma trigger_plain_escaping (e : Event) (v : prim) (s : State) :
  trigger_plain e (escaping v s) = escaping v (trigger_plain e s).
Proof.
  destruct s as [m w]. unfold escaping. cbn [fst snd].
  rewrite !trigger_plain_eq. reflexivity.
Qed.

Lemma forward_escaping (e : Event) (v : prim) (s : State) :
  forward e (escaping v s) = escaping v (forward e s).
Proof.
  destruct s as [m w]. unfold escaping. cbn [fst snd].
  rewrite !forward_eq. reflexivity.
Qed.

Lemma remove_escaping (v : prim) (s : State) :
  remove (escaping v s) = escaping v (remove s).
Proof. now destruct s. Qed.

Lemma hidden_handler_escaping (v : prim) (s : State) :
  hidden_handler (escaping v s) = escaping v (hidden_handler s).
Proof.
  unfold hidden_handler.
  now rewrite remove_escaping, forward_escaping, trigger_plain_escaping.
Qed.

Lemma shown_handler_escaping (v : prim) (s : State) :
  shown_handler (escaping v s) = escaping v (shown_handler s).
Proof.
  destruct s as [m w]. unfold shown_handler, escaping at 1.
  cbn [fst snd options with_options focusOk set_escape].
  destruct (truthy (focusOk (options m)));
    rewrite <- trigger_plain_escaping, <- forward_escaping; reflexivity.
Qed.

Lemma fire_hidden_escaping (v : prim) (s : State) :
  fire_hidden (escaping v s) = escaping v (fire_hidden s).
Proof.
  destruct s as [m w]. unfold fire_hidden, escaping at 1.
  cbn [fst snd el with_options].
  rewrite <- (iter_commutes _ (escaping v)) by apply hidden_handler_escaping.
  reflexivity.
Qed.

Lemma fire_shown_escaping (v : prim) (s : State) :
  fire_shown (escaping v s) = escaping v (fire_shown s).
Proof.
  destruct s as [m w]. unfold fire_shown, escaping at 1.
  cbn [fst snd el with_options].
  rewrite <- (iter_commutes _ (escaping v)) by apply shown_handler_escaping.
  reflexivity.
Qed.

Lemma finish_show_escaping (v : prim) (s : State) :
  finish_show (escaping v s) = escaping v (finish_show s).
Proof.
  destruct s as [m w]. unfold finish_show, escaping at 1.
  cbn [fst snd mid with_options].
  rewrite <- fire_shown_escaping. reflexivity.
Qed.

Lemma finish_hide_escaping (v : prim) (s : State) :
  finish_hide (escaping v s) = escaping v (finish_hide s).
Proof.
  destruct s as [m w]. unfold finish_hide, escaping at 1.
  cbn [fst snd mid with_options].
  change (with_options (set_escape v (options m)) m, say (SignalHidden (mid m)) w)
    with (escaping v (m, say (SignalHidden (mid m)) w)).
  rewrite fire_hidden_escaping.
  now destruct (fire_hidden (m, say (SignalHidden (mid m)) w)).
Qed.

Lemma widget_hide_escaping (v : prim) (s : State) :
  widget_hide (escaping v s) = escaping v (widget_hide s).
Proof.
  destruct s as [m w]. unfold widget_hide, escaping at 1.
  cbn [fst snd mid dialog with_options].
  destruct (isShown (dialog m)); [|reflexivity].
  destruct (timing (widget (say (WidgetHide (mid m)) w))); [|reflexivity].
  rewrite <- finish_hide_escaping. reflexivity.
Qed.

Lemma widget_show_escaping (k b : prim) (v : prim) (s : State) :
  widget_show k b (escaping v s) = escaping v (widget_show k b s).
Proof.
  destruct s as [m w]. unfold widget_show, escaping at 1.
  cbn [fst snd mid dialog with_options].
  destruct (isShown (dialog m)); [reflexivity|].
  destruct (truthy b); cbn [widget set_backdrops say];
    (destruct (timing (widget w)); [|reflexivity]);
    rewrite <- finish_show_escaping; reflexivity.
Qed.

Lemma hook_close_escaping (h : Hook) (v : prim) (s : State) :
  hook_close h (escaping v s) = escaping v (hook_close h s).
Proof.
  destruct s as [m w]. unfold hook_close, escaping at 1.
  cbn [fst snd mid held with_options].
  destruct (on_close h); try reflexivity.
  rewrite <- widget_hide_escaping. reflexivity.
Qed.

Lemma close_escaping (v : prim) (s : State) :
  close (escaping v s) = escaping v (close s).
Proof.
  destruct s as [m w]. unfold close, escaping at 1.
  cbn [fst snd _preventClose options with_options animate set_escape].
  destruct (_preventClose m); [reflexivity|].
  change (with_options (set_escape v (options m)) m, w)
    with (escaping v (m, w)).
  destruct (animate (options m)) as [p|h].
  - rewrite widget_hide_escaping. now destruct (widget_hide (m, w)).
  - rewrite hook_close_escaping. now destruct (hook_close h (m, w)).
Qed.

Lemma render_escaping (v : prim) (s : State) :
  render (escaping v s) = outcome_map (escaping v) (render s).
Proof.
  destruct s as [m w]. unfold render, escaping at 1.
  cbn [fst snd options with_options].
  change (run_template (set_escape v (options m)))
    with (run_template (options m)).
  destruct (run_template (options m)) as [html|]; [|reflexivity].
  cbn [options with_el with_options width set_escape].
  destruct (truthy (width (options m)));
    cbn [options with_el with_options set_width animate set_escape];
    destruct (animate (options m)) as [p|h];
    try destruct (is_true p);
    unfold insert_content;
    cbn [options with_el with_options set_width content set_escape];
    destruct (content (options m)) as [[[]|[[] ?]]|]; reflexivity.
Qed.

Lemma show_escaping (cb : option UserAct) (v : prim) (s : State) :
  show cb (escaping v s) = escaping v (show cb s).
Proof.
  unfold show.
  change (options (fst (escaping v s)))
    with (set_escape v (options (fst s))).
  change (allowCancel (set_escape v (options (fst s))))
    with (allowCancel (options (fst s))).
  change (backdrop_option (set_escape v (options (fst s))))
    with (backdrop_option (options (fst s))).
  rewrite widget_show_escaping.
  destruct (widget_show (allowCancel (options (fst s)))
              (backdrop_option (options (fst s))) s) as [m1 w1].
  unfold escaping at 1. cbn [fst snd].
  match goal with |- context [css_value ?x] => destruct (css_value x) end;
    destruct cb; destruct (truthy (allowCancel (options (fst s))));
    reflexivity.
Qed.

Lemma open_escaping (cb : option UserAct) (v : prim) (s : State) :
  open cb (escaping v s) = outcome_map (escaping v) (open cb s).
Proof.
  unfold open.
  change (isRendered (fst (escaping v s))) with (isRendered (fst s)).
  destruct (isRendered (fst s)).
  - cbn [outcome_map]. now rewrite show_escaping.
  - rewrite render_escaping.
    destruct (render s) as [s1|e s1]; cbn [outcome_map]; [|reflexivity].
    now rewrite show_escaping.
Qed.

(** The options object [open] hands to the widget. *)
Lemma show_log (cb : option UserAct) (m : Modal) (w : World) :
  exists l,
    log (snd (show cb (m, w)))
    = (log w ++ WidgetShow (mid m) (allowCancel (options m))
                           (backdrop_option (options m)) :: l)%list.
Proof.
  destruct (isShown (dialog m)) eqn:Hs.
  - unfold show, widget_show. cbn [fst]. rewrite Hs.
    exists []. destruct cb;
      match goal with |- context [css_value ?x] => destruct (css_value x) end;
      destruct (truthy (allowCancel (options m))); cbn;
      rewrite ?on_selected_log; reflexivity.
  - destruct (show_fresh cb m w Hs)
      as (_ & _ & _ & _ & _ & _ & _ & _ & _ & _ & _ & _ & _ & L).
    exact L.
Qed.

(** *** What a "cancel" leaves alone *)

Lemma close_keeps (s : State) :
  mid (fst (close s)) = mid (fst s)
  /\ same_but_width (options (fst s)) (options (fst (close s)))
  /\ listeners (fst (close s)) = listeners (fst s).
Proof.
  destruct s as [m w]. rewrite close_eq.
  destruct (_preventClose m); [repeat split|].
  destruct (Steady_ask_hide (m, w)) as [S1 S2 S3 _ _ _ _].
  repeat split; assumption.
Qed.

Lemma run_user_keeps (s : State) (a : UserAct) :
  mid (fst (run_user s a)) = mid (fst s)
  /\ same_but_width (options (fst s)) (options (fst (run_user s a)))
  /\ listeners (fst (run_user s a)) = listeners (fst s).
Proof. destruct s as [m w]. destruct a; repeat split. Qed.

Lemma trigger_cancel_keeps (s : State) :
  mid (fst (trigger Cancel s)) = mid (fst s)
  /\ same_but_width (options (fst s)) (options (fst (trigger Cancel s))).
Proof.
  destruct s as [m w]. unfold trigger.
  assert (H : forall ls s0,
             mid (fst (fold_left run_cancel ls s0)) = mid (fst s0)
             /\ same_but_width (options (fst s0))
                               (options (fst (fold_left run_cancel ls s0)))).
  { induction ls as [|x ls IH]; intros s0; [repeat split|].
    cbn [fold_left]. destruct (IH (run_cancel s0 x)) as [I1 I2].
    assert (K : mid (fst (run_cancel s0 x)) = mid (fst s0)
                /\ same_but_width (options (fst s0))
                                  (options (fst (run_cancel s0 x)))).
    { destruct x; cbn [run_cancel].
      - destruct (close_keeps s0) as (A & B & _). now split.
      - destruct (run_user_keeps s0 a) as (A & B & _). now split. }
    destruct K as [K1 K2]. unfold same_but_width in *. split; congruence. }
  exact (H _ (m, say (Emit (mid m) Cancel) w)).
Qed.

(** Whatever the modal, an Escape key handled by the function [open]
    attached to the document ends with "shown" sent to a trigger-capable
    content view. *)
Lemma keyup_handler_escape (s : State) :
  can_trigger (options (fst s)) = true ->
  keyup_handler 27 s
  = (fst (trigger Cancel s),
     say (Forward (mid (fst s)) Shown) (snd (trigger Cancel s))).
Proof.
  intros H. unfold keyup_handler. cbn [Z.eqb Pos.eqb].
  destruct (trigger_cancel_keeps s) as [K1 K2].
  unfold can_trigger in *. rewrite (same_content _ _ K2), H, K1.
  reflexivity.
Qed.

(** A listener on "ok" that calls [preventClose()] keeps the modal open:
    the [close()] the OK button runs only clears the flag. *)
Lemma ok_listener_vetoes (m : Modal) (w : World) :
  truthy (okCloses (options m)) = true ->
  In ActPreventClose (on_ok (listeners m)) ->
  events DotOk (m, w)
  = (with_prevent false m,
     say_all (Emit (mid m) Ok :: notes (mid m) (on_ok (listeners m))
              ++ forwarded Ok m) w).
Proof.
  intros Hk Hin. unfold events, trigger.
  rewrite trigger_plain_eq, forward_eq, say_all_say_all.
  cbn [fst options with_prevent user_listeners]. rewrite Hk.
  assert (V : vetoed (on_ok (listeners m)) (_preventClose m) = true).
  { unfold vetoed. apply orb_true_iff. left. apply existsb_exists.
    exists ActPreventClose. split; [exact Hin | reflexivity]. }
  rewrite V. reflexivity.
Qed.

(** ** The claims *)

(** C2. After [preventClose()], the next [close()] only clears the flag:
    nothing is added to the trace (so the widget's hide is not invoked),
    the element stays where it is and [Modal.count] is unchanged.  The veto
    is spent by that one call: the [close()] after it asks for the hide
    (through the widget, or through the [animate] function when there is
    one) and decrements [Modal.count]. *)
Theorem veto_holds_for_one_close (m : Modal) (w : World) :
  let stopped := close (preventClose m, w) in
  stopped = (with_prevent false m, w)
  /\ _preventClose (fst stopped) = false
  /\ log (snd stopped) = log w
  /\ in_document (el (fst stopped)) = in_document (el m)
  /\ count (snd stopped) = count w
  /\ count (snd (close stopped)) = count w - 1
  /\ exists l,
       log (snd (close stopped))
       = (log w
          ++ match animate (options m) with
             | AnimHook _ => HookCall (mid m) PhaseClose
             | AnimPrim _ => WidgetHide (mid m)
             end :: l)%list.
Proof.
  cbv zeta.
  assert (E : close (preventClose m, w) = (with_prevent false m, w))
    by reflexivity.
  rewrite E. repeat split.
  - rewrite close_eq. cbn [_preventClose with_prevent snd count set_count].
    rewrite (steady_count _ _ (Steady_ask_hide _)). reflexivity.
  - rewrite close_eq. cbn [_preventClose with_prevent snd log set_count].
    exact (ask_hide_log (with_prevent false m, w)).
Qed.

(** C8. In the markup of the default template: the header is there exactly
    when [title] is truthy (so only if a title is set), and it holds the
    close icon exactly when [allowCancel] is truthy as well; a falsey
    [cancelText] leaves no Cancel button; the body is always there; and
    the footer is missing exactly when [okText] and [cancelText] are both
    strictly [false]. *)
Theorem default_template_regions (o : Options) (html : list Html) :
  default_template o = Some html ->
  find ["modal-header"] html = truthy (title o)
  /\ (truthy (title o) = true -> title o <> PNull /\ title o <> PUndefined)
  /\ find ["close"] html = truthy (title o) && truthy (allowCancel o)
  /\ (truthy (cancelText o) = false -> find ["cancel"] html = false)
  /\ find ["modal-body"] html = true
  /\ find ["modal-footer"] html
     = negb (is_false (okText o) && is_false (cancelText o)).
Proof.
  unfold default_template. destruct (content o) as [c|]; [|discriminate].
  intros H; injection H as <-.
  unfold header, footer, find.
  assert (T : truthy (title o) = true ->
              title o <> PNull /\ title o <> PUndefined).
  { intros T. split; intros E; rewrite E in T; discriminate. }
  split; [|split; [exact T|split; [|split; [|split]]]];
    try (intros ->);
    destruct (truthy (title o)); destruct (is_false (okText o));
    destruct (is_false (cancelText o)); destruct (truthy (allowCancel o));
    try destruct (truthy (cancelText o)); reflexivity.
Qed.

Lemma default_template_regions_witness :
  exists html,
    default_template (extend_defaults confirm) = Some html
    /\ find ["modal-header"] html = true
    /\ find ["close"] html = true
    /\ find ["modal-footer"] html = true.
Proof.
  eexists. split; [reflexivity|].
  destruct (default_template_regions (extend_defaults confirm) _ eq_refl)
    as (H1 & _ & H3 & _ & _ & H6).
  split; [exact H1|]. split; [exact H3 | exact H6].
Defined.

Lemma render_without_content (m : Modal) (w : World) :
  content (options m) = None ->
  exists s',
    render (m, w)
    = Thrown match template (options m) with
             | DefaultTemplate => ReferenceError
             | CustomTemplate _ => TypeError
             end s'
    /\ isRendered (fst s') = isRendered m
    /\ count (snd s') = count w
    /\ in_document (el (fst s')) = in_document (el m).
Proof.
  intros H. unfold render, run_template, default_template. rewrite H.
  destruct (template (options m)) as [|out].
  - now exists (m, w).
  - cbn [options with_el with_options].
    destruct (truthy (width (options m)));
      cbn [options with_el with_options set_width animate];
      destruct (animate (options m)) as [p|h];
      try destruct (is_true p);
      unfold insert_content; cbn [options with_el with_options set_width content];
      rewrite H; eexists; repeat split.
Qed.

(** C10. [render] reads [content.$el] whatever [content] is, so a Modal
    constructed without a [content] option cannot be rendered: [render]
    throws, and so does the first [open], which leaves the instance
    unrendered, out of the document and uncounted.  (With the default
    template the throw already comes from the template, which names
    [content]; with any other template it is the read of [content.$el].) *)
Theorem content_is_required
    (id : nat) (given : Supplied) (cb : option UserAct) (w : World) :
  given_content given = None ->
  let s := (initialize id given, w) in
  insert_content s = Thrown TypeError s
  /\ exists e s',
       render s = Thrown e s'
       /\ open cb s = Thrown e s'
       /\ e = match template (options (fst s)) with
              | DefaultTemplate => ReferenceError
              | CustomTemplate _ => TypeError
              end
       /\ isRendered (fst s') = false
       /\ in_document (el (fst s')) = false
       /\ count (snd s') = count w.
Proof.
  intros H s.
  assert (Hc : content (options (initialize id given)) = None) by exact H.
  split.
  - subst s. unfold insert_content. cbv beta iota. now rewrite Hc.
  - destruct (render_without_content (initialize id given) w Hc)
      as (s' & Hr & H1 & H2 & H3).
    exists (match template (options (initialize id given)) with
            | DefaultTemplate => ReferenceError
            | CustomTemplate _ => TypeError
            end), s'.
    subst s. repeat split; try assumption.
    unfold open. cbn [fst isRendered initialize]. now rewrite Hr.
Qed.

Lemma content_is_required_witness :
  given_content nothing_given = None
  /\ render (initialize 0 nothing_given, start later_widget)
     = Thrown ReferenceError (initialize 0 nothing_given, start later_widget)
  /\ returned (open None (initialize 0 nothing_given, start later_widget))
     = false.
Proof.
  destruct (content_is_required 0 nothing_given None (start later_widget)
              eq_refl) as (_ & e & s' & H1 & H2 & H3 & _).
  split; [reflexivity|]. split; [reflexivity|].
  rewrite H2. reflexivity.
Defined.

(** C4, as stated, fails: on the specification's own scenario (modal
    opened, then closed, then the widget signals 'hidden') the trace is
    [WidgetShow; WidgetHide; SignalHidden; Removed; Emit Hidden]: the
    element is removed before "hidden" is emitted, not after. *)
Lemma hidden_does_not_precede_removal :
  ~ hidden_between 0
      (log (snd (signal_hidden (close (opened later_widget confirm))))).
Proof.
  intros [_ H]. vm_compute in H. discriminate H.
Qed.

(** C4, amended.  When a showing modal is closed without veto (with a
    widget that signals after the command, and an [animate] function, if
    any, that calls its continuation), the widget's 'hidden' signal runs
    the handler [close] registered, which removes the element first, then
    forwards "hidden" to the content and then emits "hidden": the emission
    follows the hide completion and follows the removal. *)
Theorem hidden_follows_removal (m : Modal) (w : World) :
  _preventClose m = false ->
  timing (widget w) = Deferred ->
  isShown (dialog m) = true ->
  one_hidden (el m) = 0%nat ->
  held m = 0%nat ->
  replies (options m) = true ->
  let id := mid m in
  let s := signal_hidden (hook_resume (close (m, w))) in
  let added := (hide_request m
                ++ [SignalHidden id; Removed id]
                ++ forwarded Hidden m
                ++ [Emit id Hidden]
                ++ notes id (on_hidden (listeners m)))%list in
  log (snd s) = (log w ++ added)%list
  /\ in_document (el (fst s)) = false
  /\ before (SignalHidden id) (Emit id Hidden) added = true
  /\ before (Removed id) (Emit id Hidden) added = true
  /\ before (Emit id Hidden) (Removed id) added = false.
Proof.
  intros Hp Ht Hs Ho Hh Hr id s added.
  destruct (close_deferred m w Hp Ht Hs Hh Hr)
    as (C1 & C2 & C3 & C4 & C5 & C6 & C7 & C8 & C9 & C10 & C11 & C12).
  subst s. destruct (hook_resume (close (m, w))) as [m1 w1].
  cbn [fst snd] in *.
  unfold signal_hidden. rewrite C2. cbn [hidden_due].
  match goal with |- context [finish_hide (?a, ?b)] =>
    destruct (finish_hide_once a b) as (F1 & F2 & F3 & F4 & F5) end.
  { cbn [el with_dialog]. rewrite C3. cbn. now rewrite Ho. }
  cbv zeta in F1. cbn [fst snd] in *.
  split; [|split; [exact F2|]].
  - rewrite F1. cbn [mid with_dialog listeners]. rewrite C5, C7, C12.
    unfold forwarded. cbn [options with_dialog mid]. rewrite C5, C6.
    subst added id. unfold forwarded. now rewrite <- app_assoc.
  - assert (Hin : In (Emit id Hidden)
                     (forwarded Hidden m ++ [Emit id Hidden]
                      ++ notes id (on_hidden (listeners m)))).
    { apply in_or_app. right. now left. }
    assert (Hreq : forall e, In e (hide_request m) ->
                             e = HookCall id PhaseClose \/ e = WidgetHide id).
    { unfold hide_request. intros e. destruct (animate (options m)); simpl;
        intuition. }
    assert (Hfw : forall e, In e (forwarded Hidden m) -> e = Forward id Hidden).
    { unfold forwarded. intros e. destruct (can_trigger (options m)); simpl;
        intuition. }
    subst added. repeat split.
    + rewrite before_skips.
      * apply before_found. right. exact Hin.
      * intros H. apply Hreq in H. destruct H; discriminate.
    + rewrite before_skips.
      * change (before (Removed id) (Emit id Hidden)
                  ([SignalHidden id] ++ Removed id :: forwarded Hidden m
                   ++ [Emit id Hidden] ++ notes id (on_hidden (listeners m)))
                = true).
        rewrite before_skips; [now apply before_found|].
        intros [H|[]]; discriminate.
      * intros H. apply Hreq in H. destruct H; discriminate.
    + rewrite before_skips.
      * change (before (Emit id Hidden) (Removed id)
                  ([SignalHidden id; Removed id] ++ forwarded Hidden m
                   ++ [Emit id Hidden] ++ notes id (on_hidden (listeners m)))
                = false).
        rewrite before_skips.
        -- rewrite before_skips.
           ++ apply before_without_later. intros [H|H]; [discriminate|].
              apply notes_are_notes in H. destruct H as [t H]. discriminate.
           ++ intros H. apply Hfw in H. discriminate.
        -- intros [H|[H|[]]]; discriminate.
      * intros H. apply Hreq in H. destruct H; discriminate.
Qed.

Lemma hidden_follows_removal_witness :
  log (snd (signal_hidden (hook_resume (close (opened later_widget confirm)))))
  = [WidgetShow 0 (PBool true) (PBool true); WidgetHide 0; SignalHidden 0;
     Removed 0; Emit 0 Hidden]
  /\ in_document
       (el (fst (signal_hidden
                   (hook_resume (close (opened later_widget confirm))))))
     = false.
Proof.
  destruct (hidden_follows_removal (fst (opened later_widget confirm))
                                   (snd (opened later_widget confirm)))
    as (H1 & H2 & _); try reflexivity.
  split; [exact H1 | exact H2].
Defined.

(** C1.  The code around the failing input.  [open()] followed at once by
    [close()] (on a new instance, so with no veto pending) always brings
    [Modal.count] back: an [open()] that returns has incremented it by
    one, the [close()] after it decrements it by one, and an [open()] that
    throws has not touched it, whatever the widget and the [animate]
    option are.  The element is another matter.  [close] calls
    [$el.modal('hide')] first and registers its 'hidden' handler after
    that.  With a widget that signals 'hidden' inside the command (as the
    dialog widget does when it hides without a transition), the signal
    finds no handler: once everything has settled the element is still in
    the document, the handler still waits, and no 'hidden' is owed any
    more.  Only when the signal comes after [close()] has returned is the
    element removed. *)
Theorem hidden_handler_is_bound_too_late
    (id : nat) (g : Supplied) (l : Listeners) (cb : option UserAct)
    (w : World) :
  let s0 := (with_listeners l (initialize id g), w) in
  let s := settle (state_of (open_then_close cb s0)) in
  count (snd s) = count w
  /\ (forall s1, open cb s0 = Done s1 ->
                 count (snd s1) = count w + 1
                 /\ count (snd (close s1)) = count w)
  /\ (returned (open cb s0) = true ->
      timing (widget w) = Immediate ->
      hides_at_once (extend_defaults g) = true ->
      in_document (el (fst s)) = true
      /\ one_hidden (el (fst s)) = 1%nat
      /\ hidden_due (dialog (fst s)) = false)
  /\ (timing (widget w) = Deferred ->
      replies (extend_defaults g) = true ->
      in_document (el (fst s)) = false).
Proof.
  intros s0 s.
  destruct (render_keeps s0)
    as ([R1 R2 R3 R4 R5 R6 R7] & [K1 K2 K3 K4 K5 K6] & Rp & Rs).
  subst s. unfold open_then_close, open.
  change (isRendered (fst s0)) with false. cbv iota.
  subst s0.
  destruct (render (with_listeners l (initialize id g), w))
    as [[m1 w1]|e [m1 w1]]; cbn [state_of fst snd] in *.
  - (* rendered: the widget shows, close asks it to hide *)
    assert (Hs1 : isShown (dialog m1) = false) by now rewrite K1.
    assert (Ho1 : one_shown (el m1) = 0%nat) by now rewrite Rs.
    pose proof (show_keeps_flag cb m1 w1 Hs1 Ho1) as P.
    destruct (show_fresh cb m1 w1 Hs1)
      as (A1 & A2 & A3 & A4 & A5 & A6 & A7 & A8 & A9 & A10 & _).
    destruct (show cb (m1, w1)) as [m2 w2]. cbn [fst snd and_then state_of] in *.
    assert (Hp2 : _preventClose m2 = false) by now rewrite P, Rp.
    assert (Hh2 : held m2 = 0%nat) by now rewrite A10, K5.
    assert (Hn2 : one_hidden (el m2) = 0%nat) by now rewrite A9, K4.
    assert (Hc : count (snd (close (m2, w2))) = count w)
      by (rewrite close_count by exact Hp2; rewrite A3, R4; lia).
    split; [now rewrite (steady_count _ _ (Steady_settle _))|].
    split.
    { intros s1 E. injection E as <-. cbn [snd]. split; [|exact Hc].
      now rewrite A3, R4. }
    split.
    + (* the signal comes inside the command *)
      intros _ Ht Hi.
      assert (Ht2 : timing (widget w2) = Immediate) by now rewrite A4, R6.
      assert (Hi2 : hides_at_once (options m2) = true).
      { unfold hides_at_once.
        rewrite (same_animate _ _ A2), (same_animate _ _ R2). exact Hi. }
      destruct (close_prompt m2 w2 Hp2 Ht2 A6 Hn2 Hi2) as (C1 & C2 & C3 & C4).
      rewrite settle_idle.
      * cbn [fst el dialog with_held]. rewrite C1, C2, C3, A5.
        repeat split; reflexivity.
      * now rewrite C4.
      * rewrite C3. cbn [shown_due]. rewrite A8, R6, Ht. reflexivity.
      * now rewrite C3.
    + (* the signal comes after the command *)
      intros Ht Hr.
      assert (Ht2 : timing (widget w2) = Deferred) by now rewrite A4, R6.
      assert (Hr2 : replies (options m2) = true).
      { unfold replies. rewrite (same_animate _ _ A2), (same_animate _ _ R2).
        exact Hr. }
      destruct (close_deferred m2 w2 Hp2 Ht2 A6 Hh2 Hr2)
        as (C1 & C2 & C3 & _).
      unfold settle.
      destruct (signal_shown_keeps (hook_resume (close (m2, w2))))
        as (_ & D1 & D2 & D3 & D4 & _).
      destruct (signal_shown (hook_resume (close (m2, w2)))) as [m3 w3].
      destruct (hook_resume (close (m2, w2))) as [m2' w2'].
      cbn [fst snd] in *.
      unfold signal_hidden. rewrite D2, C2. cbn [hidden_due].
      match goal with |- context [finish_hide (?a, ?b)] =>
        destruct (finish_hide_removes a b) as [F1 F2] end.
      { cbn [el with_dialog]. rewrite D4, C3. discriminate. }
      exact F1.
  - (* render threw: nothing was shown, nothing was counted *)
    cbn [and_then state_of returned].
    split; [now rewrite (steady_count _ _ (Steady_settle _))|].
    split; [intros s1 E; discriminate E|].
    split; [intros E; discriminate E|].
    intros _ _. rewrite settle_idle.
    + cbn [fst el with_held]. now rewrite K2.
    + cbn [fst]. now rewrite K5.
    + cbn [fst]. now rewrite K1.
    + cbn [fst]. now rewrite K1.
Qed.

Lemma hidden_handler_is_bound_too_late_witness :
  returned (open None (with_listeners no_listeners (initialize 0 confirm),
                       start prompt_widget)) = true
  /\ timing (widget (start prompt_widget)) = Immediate
  /\ hides_at_once (extend_defaults confirm) = true
  /\ in_document
       (el (fst (settle (state_of
                           (open_then_close None
                              (with_listeners no_listeners
                                 (initialize 0 confirm),
                               start prompt_widget))))))
     = true
  /\ count (snd (settle (state_of
                           (open_then_close None
                              (with_listeners no_listeners
                                 (initialize 0 confirm),
                               start prompt_widget)))))
     = count (start prompt_widget)
  /\ log (snd (settle (state_of
                         (open_then_close None
                            (with_listeners no_listeners
                               (initialize 0 confirm),
                             start prompt_widget)))))
     = [WidgetShow 0 (PBool true) (PBool true); SignalShown 0; WidgetHide 0;
        SignalHidden 0].
Proof.
  destruct (hidden_handler_is_bound_too_late 0 confirm no_listeners None
              (start prompt_widget)) as (H1 & _ & H3 & _).
  destruct (H3 eq_refl eq_refl eq_refl) as (H4 & _).
  split; [reflexivity|]. split; [reflexivity|]. split; [reflexivity|].
  split; [exact H4|]. split; [exact H1 | reflexivity].
Defined.

(** C5.  The code at the failing input: a modal with a trigger-capable
    content view is opened with [allowCancel] true and Escape is pressed.
    The Modal emits "cancel" (and closes through its wiring), but what the
    key handler forwards to the content view is "shown", not "cancel"; the
    backdrop-click handler next to it forwards "cancel". *)
Theorem escape_forwards_shown :
  log (snd (press 27 (opened later_widget (give_content a_view confirm))))
  = (log (snd (opened later_widget (give_content a_view confirm)))
     ++ [Emit 0 Cancel; WidgetHide 0; Forward 0 Shown])%list
  /\ ~ In (Forward 0 Cancel)
         (log (snd (press 27 (opened later_widget
                                (give_content a_view confirm)))))
  /\ log (snd (click_backdrop 0 (opened later_widget
                                   (give_content a_view confirm))))
     = (log (snd (opened later_widget (give_content a_view confirm)))
        ++ [Forward 0 Cancel; Emit 0 Cancel; WidgetHide 0])%list.
Proof.
  split; [vm_compute; reflexivity|]. split; [|vm_compute; reflexivity].
  vm_compute. intros H.
  repeat (destruct H as [H|H]; [discriminate H|]). exact H.
Qed.

(** C6.  A modal with [allowCancel: false] is opened.  The widget is given
    [keyboard: false]; [open] attaches no key handler to the document and
    no click handler to any backdrop, so an Escape key (any key) and a
    click on any backdrop change nothing at all: no "cancel" is emitted
    and the element stays in the document. *)
Theorem no_cancel_without_allowCancel
    (cb : option UserAct) (m : Modal) (w : World) (s1 : State) :
  allowCancel (options m) = PBool false ->
  isShown (dialog m) = false ->
  ~ In (mid m) (keyup w) ->
  Forall (fun b => ~ In (mid m) (bd_click b)) (backdrops w) ->
  open cb (m, w) = Done s1 ->
  In (WidgetShow (mid m) (PBool false) (backdrop_option (options m)))
     (log (snd s1))
  /\ keyup (snd s1) = keyup w
  /\ Forall (fun b => ~ In (mid m) (bd_click b)) (backdrops (snd s1))
  /\ (forall which, press which s1 = s1)
  /\ (forall i, click_backdrop i s1 = s1)
  /\ in_document (el (fst s1)) = true.
Proof.
  intros Ha Hs Hk Hb Ho. unfold open in Ho. cbn [fst] in Ho.
  assert (R : exists m1 w1,
             (if isRendered m then @Done State (m, w) else render (m, w))
             = Done (m1, w1)
             /\ Steady (m, w) (m1, w1) /\ Kept (m, w) (m1, w1)).
  { destruct (isRendered m).
    - exists m, w. split; [reflexivity|]. split; [apply Steady_refl|apply Kept_refl].
    - destruct (render_keeps (m, w)) as (S & K & _).
      destruct (render (m, w)) as [[m1 w1]|e s']; [|discriminate].
      exists m1, w1. split; [reflexivity|]. split; assumption. }
  destruct R as (m1 & w1 & E & [S1 S2 S3 S4 S5 S6 [l S7]] & [K1 K2 K3 K4 K5 K6]).
  rewrite E in Ho. injection Ho as <-. cbn [fst snd] in *.
  assert (Ha1 : allowCancel (options m1) = PBool false)
    by (rewrite (same_allowCancel _ _ S2); exact Ha).
  assert (Hbo : backdrop_option (options m1) = backdrop_option (options m)).
  { unfold backdrop_option.
    now rewrite (same_allowCancel _ _ S2), (same_backdrop _ _ S2). }
  assert (Hs1 : isShown (dialog m1) = false) by now rewrite K1.
  destruct (show_fresh cb m1 w1 Hs1)
    as (A1 & A2 & A3 & A4 & A5 & A6 & A7 & A8 & A9 & A10 & A11 & A12 & A13
        & l' & A14).
  pose proof (show_clicks cb m1 w1) as C. rewrite Ha1 in C.
  specialize (C eq_refl Hs1).
  rewrite Ha1 in A11, A14. cbn [truthy] in A11. rewrite app_nil_r in A11.
  assert (F : Forall (fun b => ~ In (mid m) (bd_click b))
                     (backdrops (snd (show cb (m1, w1))))).
  { apply (proj1 (Forall_map bd_click (fun c => ~ In (mid m) c) _)).
    rewrite C. apply Forall_app. split.
    - apply Forall_map. now rewrite K6.
    - destruct (truthy (backdrop_option (options m1)));
        repeat constructor. intros []. }
  destruct (show cb (m1, w1)) as [m2 w2]. cbn [fst snd] in *.
  split.
  { rewrite A14, S7, S1, Hbo. apply in_or_app. right. now left. }
  split; [now rewrite A11, S5|].
  split; [exact F|].
  split.
  { intros which. apply press_without_handler.
    rewrite A1, S1, A11, S5. exact Hk. }
  split; [|exact A5].
  intros i. apply click_backdrop_without_handler.
  rewrite A1, S1. exact F.
Qed.

Lemma no_cancel_without_allowCancel_witness :
  allowCancel (options (initialize 0 (give_allowCancel (PBool false) confirm)))
  = PBool false
  /\ log (snd (press 27 (opened later_widget
                           (give_allowCancel (PBool false) confirm))))
     = [WidgetShow 0 (PBool false) (PStr "static")]
  /\ in_document
       (el (fst (press 27 (opened later_widget
                             (give_allowCancel (PBool false) confirm)))))
     = true.
Proof.
  destruct (no_cancel_without_allowCancel None
              (initialize 0 (give_allowCancel (PBool false) confirm))
              (start later_widget)
              (opened later_widget (give_allowCancel (PBool false) confirm))
              eq_refl eq_refl (fun H => H) (Forall_nil _) eq_refl)
    as (_ & _ & _ & P & _ & D).
  split; [reflexivity|]. rewrite P. split; [reflexivity | exact D].
Defined.

(** C7.  A click on the OK button emits "ok", forwards it to a
    trigger-capable content view and then calls [close()] unless
    [okCloses] is falsey; with [okCloses: false] nothing more happens, and
    otherwise (no listener having vetoed) the hide is asked for and
    [Modal.count] goes down by one.  A click on the close icon or on the
    Cancel button emits "cancel" and forwards it, and its handler calls
    nothing else: on an instance without the wiring it adds only these
    entries to the trace and the count stays.  The close comes from the
    listener [open] registers on "cancel", which runs [close()] after the
    caller's listeners. *)
Theorem clicks_emit_and_close
    (m : Modal) (w : World) (acts : list UserAct) (t : Target) :
  on_cancel (listeners m) = (map UserCancel acts ++ [WireClose])%list ->
  t = DotClose \/ t = DotCancel ->
  let id := mid m in
  let rung := forward Ok (trigger Ok (m, w)) in
  let bare := with_on_cancel (map UserCancel acts) m in
  (* the OK button *)
  log (snd rung)
  = (log w ++ [Emit id Ok] ++ notes id (on_ok (listeners m))
     ++ forwarded Ok m)%list
  /\ count (snd rung) = count w
  /\ events DotOk (m, w)
     = (if truthy (okCloses (options m)) then close rung else rung)
  /\ (okCloses (options m) = PBool false -> events DotOk (m, w) = rung)
  /\ (truthy (okCloses (options m)) = true ->
      vetoed (on_ok (listeners m)) (_preventClose m) = false ->
      count (snd (events DotOk (m, w))) = count w - 1
      /\ exists l,
           log (snd (events DotOk (m, w)))
           = (log (snd rung)
              ++ match animate (options m) with
                 | AnimHook _ => HookCall id PhaseClose
                 | AnimPrim _ => WidgetHide id
                 end :: l)%list)
  (* the close icon and the Cancel button *)
  /\ events t (bare, w)
     = (with_prevent (vetoed acts (_preventClose m)) bare,
        say_all (Emit id Cancel :: notes id acts ++ forwarded Cancel m) w)
  /\ events t (m, w)
     = forward Cancel
         (close (with_prevent (vetoed acts (_preventClose m)) m,
                 say_all (Emit id Cancel :: notes id acts) w))
  /\ forall cb s, on_cancel (listeners (fst (show cb s)))
                  = (on_cancel (listeners (fst s)) ++ [WireClose])%list.
Proof.
  intros Hc Ht id rung bare.
  assert (Erung : rung
                  = (with_prevent (vetoed (on_ok (listeners m)) (_preventClose m)) m,
                     say_all (Emit id Ok :: notes id (on_ok (listeners m))
                              ++ forwarded Ok m) w)).
  { subst rung. unfold trigger. rewrite trigger_plain_eq, forward_eq.
    rewrite say_all_say_all. reflexivity. }
  assert (Eok : events DotOk (m, w)
                = (if truthy (okCloses (options m)) then close rung else rung)).
  { unfold events. fold rung. rewrite Erung. reflexivity. }
  split; [now rewrite Erung|]. split; [now rewrite Erung|].
  split; [exact Eok|].
  split; [intros H; now rewrite Eok, H|].
  split.
  { intros Hk Hv. rewrite Eok, Hk, Erung, Hv. split.
    - now rewrite close_count.
    - rewrite close_eq. cbn [_preventClose with_prevent snd log set_count].
      exact (ask_hide_log (with_prevent false m, _)). }
  split.
  { assert (E : events t (bare, w) = forward Cancel (trigger Cancel (bare, w)))
      by (destruct Ht; subst t; reflexivity).
    rewrite E, (trigger_cancel_unwired acts) by reflexivity.
    rewrite forward_eq, say_all_say_all. reflexivity. }
  split; [|exact show_wires].
  assert (E : events t (m, w) = forward Cancel (trigger Cancel (m, w)))
    by (destruct Ht; subst t; reflexivity).
  now rewrite E, (trigger_cancel_wired acts).
Qed.

Lemma clicks_emit_and_close_witness :
  on_cancel (listeners (fst (opened later_widget confirm)))
  = (map UserCancel [] ++ [WireClose])%list
  /\ log (snd (events DotOk (opened later_widget confirm)))
     = [WidgetShow 0 (PBool true) (PBool true); Emit 0 Ok; WidgetHide 0]
  /\ count (snd (events DotOk (opened later_widget confirm))) = 0
  /\ log (snd (events DotCancel (opened later_widget confirm)))
     = [WidgetShow 0 (PBool true) (PBool true); Emit 0 Cancel; WidgetHide 0].
Proof.
  destruct (clicks_emit_and_close (fst (opened later_widget confirm))
              (snd (opened later_widget confirm)) [] DotCancel
              eq_refl (or_intror eq_refl))
    as (_ & _ & E1 & _ & _ & _ & E2 & _).
  split; [reflexivity|].
  change (fst (opened later_widget confirm), snd (opened later_widget confirm))
    with (opened later_widget confirm) in E1, E2.
  rewrite E1, E2. repeat split; reflexivity.
Defined.

(** C9.  The [escape] option gets the default [true] at construction, and
    that is all that happens to it: [render], [open] and [close] do the
    same whatever value sits under the key (they commute with replacing
    it), and the [keyboard] flag [open] hands to the widget is
    [allowCancel], whatever [escape] is. *)
Theorem escape_is_never_read (v : prim) (cb : option UserAct) (s : State) :
  escape (extend_defaults nothing_given) = PBool true
  /\ render (escaping v s) = outcome_map (escaping v) (render s)
  /\ open cb (escaping v s) = outcome_map (escaping v) (open cb s)
  /\ close (escaping v s) = escaping v (close s)
  /\ exists l,
       log (snd (show cb (escaping v s)))
       = (log (snd s)
          ++ WidgetShow (mid (fst s)) (allowCancel (options (fst s)))
                        (backdrop_option (options (fst s))) :: l)%list.
Proof.
  split; [reflexivity|].
  split; [apply render_escaping|].
  split; [apply open_escaping|].
  split; [apply close_escaping|].
  destruct s as [m w]. exact (show_log cb _ w).
Qed.

(** C3.  The code at the failing input: three modals with the same options
    are opened one after the other, with a stylesheet that puts backdrops
    at z-index 1040.  [Modal.count] reaches 3, but [css('z-index')] is a
    text and [+] appends the count to it: element and backdrop of modal
    [k] get "1040" followed by [k] (10400, 10401, 10402, and 104010 for an
    eleventh), not 1040 plus a multiple of [k]. *)
Theorem sequential_opens_concatenate :
  exists ms w,
    open_each (numbered 0 [confirm; confirm; confirm]) (start later_widget)
    = Some (ms, w)
    /\ count w = 3
    /\ map (fun m => css_zindex (el m)) ms
       = [Some "10400"; Some "10401"; Some "10402"]
    /\ map bd_zindex (backdrops w) = ["10400"; "10401"; "10402"]
    /\ zindexes ms = [Some 10400; Some 10401; Some 10402]
    /\ css_value (add (PStr "1040") 9) = Some "10409"
    /\ css_value (add (PStr "1040") 10) = Some "104010".
Proof.
  eexists. eexists. split; [vm_compute; reflexivity|].
  repeat split; vm_compute; reflexivity.
Qed.

(** * Further properties *)

(** ** Supporting lemmas *)

Lemma eq_index_beyond (n : nat) : eq_index (Z.of_nat n) n = None.
Proof.
  unfold eq_index.
  destruct (Z.ltb_spec (Z.of_nat n) 0) as [H|H]; [lia|].
  destruct (Z.ltb_spec (Z.of_nat n) (Z.of_nat n)) as [H2|H2]; [lia|].
  now rewrite andb_false_r.
Qed.

Lemma update_nth_length {A} (i : nat) (f : A -> A) (l : list A) :
  List.length (update_nth i f l) = List.length l.
Proof.
  revert i; induction l as [|x r IH]; intros i; [reflexivity|].
  destruct i; simpl; [reflexivity | now rewrite IH].
Qed.

Lemma on_selected_length sel f w :
  List.length (backdrops (on_selected sel f w)) = List.length (backdrops w).
Proof.
  unfold on_selected. destruct sel; [|reflexivity].
  cbn. apply update_nth_length.
Qed.

Lemma backdrop_option_truthy (o : Options) :
  truthy (backdrop_option o) = truthy (backdrop o) || is_undefined (backdrop o).
Proof.
  unfold backdrop_option.
  destruct (truthy (backdrop o)) eqn:T; cbn [orb].
  - now destruct (truthy (allowCancel o)).
  - destruct (is_undefined (backdrop o)); [|exact T].
    now destruct (truthy (allowCancel o)).
Qed.

Lemma vetoed_by (acts : list UserAct) (flag : bool) :
  In ActPreventClose acts -> vetoed acts flag = true.
Proof.
  intros H. unfold vetoed. apply orb_true_iff. left. apply existsb_exists.
  exists ActPreventClose. now split.
Qed.

Lemma keyup_handler_other_key (which : Z) (s : State) :
  which <> 27 -> keyup_handler which s = s.
Proof.
  intros H. unfold keyup_handler.
  destruct (Z.eqb_spec which 27) as [E|_]; [contradiction|].
  now destruct (can_trigger (options (fst s))).
Qed.

Lemma iter_fixed {A} (f : A -> A) (n : nat) (x : A) :
  (forall y, f y = y) -> Nat.iter n f x = x.
Proof.
  intros H. induction n as [|n IH]; [reflexivity|].
  now rewrite Nat.iter_succ, IH.
Qed.

Lemma shown_handler_eq (m : Modal) (w : World) :
  shown_handler (m, w)
  = (with_prevent (vetoed (on_shown (listeners m)) (_preventClose m)) m,
     say_all (focus_request m ++ forwarded Shown m
              ++ Emit (mid m) Shown :: notes (mid m) (on_shown (listeners m)))
             w).
Proof.
  unfold shown_handler, focus_request.
  destruct (truthy (focusOk (options m)));
    rewrite forward_eq, trigger_plain_eq; cbn [app];
    rewrite ?say_is_say_all, !say_all_say_all; reflexivity.
Qed.

Lemma hidden_handler_eq (m : Modal) (w : World) :
  hidden_handler (m, w)
  = (with_prevent (vetoed (on_hidden (listeners m)) (_preventClose m))
       (with_el (fun e => set_one_shown 0 (set_one_hidden 0
                            (set_in_document false e))) m),
     say_all (hidden_round m) w).
Proof.
  unfold hidden_handler, remove, hidden_round. cbv beta iota zeta.
  rewrite forward_eq, trigger_plain_eq.
  rewrite say_is_say_all, !say_all_say_all. reflexivity.
Qed.

Lemma hidden_handlers_log (n : nat) (m : Modal) (w : World) :
  let s := Nat.iter n hidden_handler (m, w) in
  log (snd s) = (log w ++ List.concat (repeat (hidden_round m) n))%list
  /\ mid (fst s) = mid m
  /\ options (fst s) = options m
  /\ listeners (fst s) = listeners m
  /\ count (snd s) = count w
  /\ (n <> 0%nat -> in_document (el (fst s)) = false).
Proof.
  induction n as [|n IH]; cbv zeta.
  - cbn. rewrite app_nil_r. repeat split. congruence.
  - rewrite Nat.iter_succ. cbv zeta in IH.
    destruct (Nat.iter n hidden_handler (m, w)) as [m1 w1].
    cbn [fst snd] in IH. destruct IH as (L & I & O & Li & C & _).
    rewrite hidden_handler_eq. cbn [fst snd log say_all mid options listeners
      with_prevent with_el count el in_document set_in_document set_one_shown
      set_one_hidden].
    assert (R : hidden_round m1 = hidden_round m).
    { unfold hidden_round, forwarded. now rewrite I, O, Li. }
    rewrite R, L, <- app_assoc.
    replace (List.concat (repeat (hidden_round m) (S n)))
      with (List.concat (repeat (hidden_round m) n) ++ hidden_round m)%list.
    2:{ clear. induction n as [|n IHn]; cbn; [now rewrite app_nil_r|].
        cbn in IHn. now rewrite <- app_assoc, IHn. }
    repeat split; assumption.
Qed.

(** [close()] called [k] times in a row, with a widget that signals later
    and no [animate] function. *)
Lemma closing_repeatedly (k : nat) (p : prim) (m : Modal) (w : World) :
  _preventClose m = false ->
  timing (widget w) = Deferred ->
  animate (options m) = AnimPrim p ->
  let s := Nat.iter k close (m, w) in
  count (snd s) = count w - Z.of_nat k
  /\ one_hidden (el (fst s)) = (one_hidden (el m) + k)%nat
  /\ log (snd s) = (log w ++ repeat (WidgetHide (mid m)) k)%list
  /\ _preventClose (fst s) = false
  /\ timing (widget (snd s)) = Deferred
  /\ mid (fst s) = mid m
  /\ options (fst s) = options m
  /\ listeners (fst s) = listeners m
  /\ in_document (el (fst s)) = in_document (el m)
  /\ dialog (fst s)
     = match k with
       | O => dialog m
       | S _ => if isShown (dialog m)
                then {| isShown := false; shown_due := shown_due (dialog m);
                        hidden_due := true |}
                else dialog m
       end.
Proof.
  intros Hp Ht Ha. induction k as [|k IH]; cbv zeta.
  - cbn. rewrite app_nil_r, Z.sub_0_r, Nat.add_0_r. repeat split; assumption.
  - rewrite Nat.iter_succ. cbv zeta in IH.
    destruct (Nat.iter k close (m, w)) as [m1 w1]. cbn [fst snd] in IH.
    destruct IH as (C & H1 & L & P & T & I & O & Li & D & Dg).
    unfold close. rewrite P, O, Ha.
    unfold widget_hide. cbn [widget say]. rewrite T.
    assert (R : repeat (WidgetHide (mid m)) (S k)
                = (repeat (WidgetHide (mid m)) k ++ [WidgetHide (mid m)])%list)
      by (rewrite <- repeat_cons; reflexivity).
    rewrite R, Dg.
    destruct k as [|k]; destruct (isShown (dialog m)) eqn:Hs;
      cbn [isShown]; rewrite ?Hs;
      cbn [fst snd count set_count say log el with_el with_dialog one_hidden
           set_one_hidden _preventClose widget mid options listeners dialog
           in_document isShown shown_due];
      rewrite ?C, ?H1, ?L, ?I, <- ?app_assoc;
      repeat split; try assumption; try lia.
Qed.

Lemma wired_closes (k : nat) (s : State) :
  fold_left run_cancel (repeat WireClose k) s = Nat.iter k close s.
Proof.
  revert s. induction k as [|k IH]; intros s; [reflexivity|].
  cbn [repeat fold_left run_cancel]. rewrite IH.
  now rewrite Nat.iter_succ_r.
Qed.

Lemma close_log_grows (s : State) :
  exists l, log (snd (close s)) = (log (snd s) ++ l)%list.
Proof.
  destruct s as [m w]. rewrite close_eq.
  destruct (_preventClose m).
  - exists []. cbn. now rewrite app_nil_r.
  - exact (steady_log _ _ (Steady_ask_hide (m, w))).
Qed.

Lemma fill_absent (sel : list string) (new : list Html) :
  forall h, carries sel h = false -> fill sel new h = h.
Proof.
  fix IH 1. intros [s|tag cls kids|]; simpl; intros H; try reflexivity.
  apply orb_false_iff in H as [H1 H2]. rewrite H1. f_equal.
  induction kids as [|k ks IHk]; simpl in *; [reflexivity|].
  apply orb_false_iff in H2 as [Hk Hks].
  rewrite (IH k Hk), (IHk Hks). reflexivity.
Qed.

Lemma fill_all_absent (sel : list string) (new : list Html) (hs : list Html) :
  find sel hs = false -> map (fill sel new) hs = hs.
Proof.
  unfold find. induction hs as [|h hs IH]; simpl; [reflexivity|].
  intros H. apply orb_false_iff in H as [H1 H2].
  now rewrite fill_absent, IH.
Qed.

Lemma header_has_no_body (o : Options) :
  find ["modal-body"] (header o) = false.
Proof.
  unfold header. destruct (truthy (title o)); [|reflexivity].
  destruct (truthy (allowCancel o)); reflexivity.
Qed.

Lemma footer_has_no_body (o : Options) :
  find ["modal-body"] (footer o) = false.
Proof.
  unfold footer.
  destruct (negb (is_false (okText o)) || negb (is_false (cancelText o)));
    [|reflexivity].
  destruct (truthy (allowCancel o)); [|reflexivity].
  destruct (truthy (cancelText o)); reflexivity.
Qed.

Lemma shown_handlers_el (n : nat) (m : Modal) (w : World) :
  el (fst (Nat.iter n shown_handler (m, w))) = el m.
Proof.
  induction n as [|n IH]; [reflexivity|].
  rewrite Nat.iter_succ.
  destruct (Nat.iter n shown_handler (m, w)) as [m1 w1].
  rewrite shown_handler_eq. exact IH.
Qed.

(** [open] after rendering leaves the markup alone. *)
Lemma show_markup (cb : option UserAct) (m : Modal) (w : World) :
  markup (el (fst (show cb (m, w)))) = markup (el m).
Proof.
  unfold show, widget_show. cbn [fst].
  destruct (isShown (dialog m)).
  - match goal with |- context [css_value ?v] => destruct (css_value v) end;
      destruct cb; reflexivity.
  - match goal with |- context [timing ?x] => destruct (timing x) end.
    + unfold finish_show, fire_shown.
      match goal with |- context [Nat.iter ?n shown_handler (?a, ?b)] =>
        pose proof (shown_handlers_el n a b) as E;
        destruct (Nat.iter n shown_handler (a, b)) as [m1 w1] end.
      cbn [fst snd] in *.
      match goal with |- context [css_value ?v] => destruct (css_value v) end;
        destruct cb; cbn; rewrite E; reflexivity.
    + match goal with |- context [css_value ?v] => destruct (css_value v) end;
        destruct cb; reflexivity.
Qed.

Lemma close_each_count (ms : list Modal) (w : World) :
  Forall (fun m => _preventClose m = false) ms ->
  count (snd (close_each ms w)) = count w - Z.of_nat (List.length ms).
Proof.
  intros F. revert w. induction F as [|m rest Hm F IH]; intros w.
  - cbn. lia.
  - cbn [close_each]. pose proof (close_count m w Hm) as C.
    destruct (close (m, w)) as [m' w']. cbn [snd] in C.
    specialize (IH w'). destruct (close_each rest w') as [rest' w''].
    cbn [snd] in *. rewrite IH, C. cbn [List.length]. lia.
Qed.

(** The rendering step of [open], for any modal. *)
Lemma open_renders (m : Modal) (w : World) (s1 : State) :
  (if isRendered m then @Done State (m, w) else render (m, w)) = Done s1 ->
  Steady (m, w) s1 /\ Kept (m, w) s1
  /\ _preventClose (fst s1) = _preventClose m.
Proof.
  destruct (isRendered m).
  - intros E; injection E as <-.
    split; [apply Steady_refl|]. split; [apply Kept_refl | reflexivity].
  - destruct (render_keeps (m, w)) as (S & K & P & _).
    destruct (render (m, w)) as [s|e s']; [|discriminate].
    intros E; injection E as <-.
    split; [exact S|]. split; [exact K | exact P].
Qed.

Lemma open_ready_flag (cb : option UserAct) (m : Modal) (w : World) :
  ready m ->
  timing (widget w) = Deferred ->
  exists s,
    open cb (m, w) = Done s
    /\ _preventClose (fst s) = _preventClose m
    /\ count (snd s) = count w + 1
    /\ widget (snd s) = widget w
    /\ (count w = Z.of_nat (List.length (backdrops w)) ->
        List.length (backdrops (snd s)) = S (List.length (backdrops w))).
Proof.
  intros (Hs & Hc & Hb) Ht.
  assert (R : exists s1,
             (if isRendered m then @Done State (m, w) else render (m, w))
             = Done s1).
  { destruct (isRendered m); [eexists; reflexivity|].
    pose proof (render_returns (m, w)) as R. cbn [fst] in R.
    rewrite Hc, (template_with_content _ Hc) in R.
    destruct (render (m, w)) as [s1|e s1]; [eexists; reflexivity|discriminate]. }
  destruct R as [[m2 w2] E2].
  destruct (open_renders m w _ E2)
    as ([S1 S2 S3 S4 S5 S6 S7] & [K1 K2 K3 K4 K5 K6] & P).
  cbn [fst snd] in *.
  assert (Hs1 : isShown (dialog m2) = false) by now rewrite K1.
  assert (Hb1 : truthy (backdrop_option (options m2)) = true).
  { unfold backdrop_option in *.
    now rewrite (same_allowCancel _ _ S2), (same_backdrop _ _ S2). }
  destruct (show_fresh cb m2 w2 Hs1)
    as (_ & _ & A3 & A4 & _ & _ & _ & _ & _ & _ & _ & _ & A13 & _).
  exists (show cb (m2, w2)).
  split; [unfold open; cbn [fst]; now rewrite E2|].
  split; [rewrite A13 by (now rewrite S6); exact P|].
  split; [now rewrite A3, S4|]. split; [now rewrite A4, S6|].
  intros Hcw.
  assert (Hc1 : count w2 = Z.of_nat (List.length (backdrops w2)))
    by now rewrite S4, K6.
  destruct (show_stacks cb m2 w2 Hs1 Hb1 Hc1) as (_ & b & Z2 & _).
  rewrite Z2, length_app, K6. cbn [List.length]. lia.
Qed.

(** A [render] that returns: the flag it sets, the style it writes, what it
    tells the collaborators and the markup it leaves. *)
Lemma render_result (m : Modal) (w : World) (s' : State) :
  render (m, w) = Done s' ->
  let o := options m in
  isRendered (fst s') = true
  /\ css_width (el (fst s'))
     = (if truthy (width o)
        then match to_number (width o) with
             | PNaN => css_width (el m)
             | _ => Some (to_number (width o))
             end
        else css_width (el m))
  /\ width (options (fst s'))
     = (if truthy (width o) then to_number (width o) else width o)
  /\ classes (el (fst s'))
     = (classes (el m)
        ++ match animate o with
           | AnimPrim p => if is_true p then ["fade"] else []
           | AnimHook _ => []
           end)%list
  /\ log (snd s') = (log w ++ render_effects m)%list
  /\ exists html,
       run_template o = Some html
       /\ markup (el (fst s'))
          = if mounts o then map (fill ["modal-body"] [Mount]) html else html.
Proof.
  unfold render, render_effects, mounts.
  destruct (run_template (options m)) as [html|]; [|discriminate].
  cbn [options with_el with_options].
  destruct (truthy (width (options m)));
    cbn [options with_el with_options set_width animate];
    destruct (animate (options m)) as [p|h];
    try destruct (is_true p);
    unfold insert_content; cbn [options with_el with_options set_width content];
    destruct (content (options m)) as [[[]|[[] ?]]|];
    intros E; try discriminate E; injection E as <-; cbn;
    rewrite ?app_nil_r, <- ?app_assoc;
    repeat split; try reflexivity; eexists; split; reflexivity.
Qed.

(** ** The default template *)

(** X1.  In the default markup the OK button is there exactly when the
    footer is, the Cancel button exactly when the footer is there and
    [allowCancel] and [cancelText] are both truthy, and the close icon
    exactly when [title] and [allowCancel] are truthy.  An [okText] of
    [false] alone does not remove the OK button: with a [cancelText] other
    than [false] the button stays and is labelled "false". *)
Theorem default_template_buttons (o : Options) (html : list Html) :
  default_template o = Some html ->
  find ["ok"] html = find ["modal-footer"] html
  /\ find ["cancel"] html
     = find ["modal-footer"] html && truthy (allowCancel o)
       && truthy (cancelText o)
  /\ find ["close"] html = truthy (title o) && truthy (allowCancel o)
  /\ (is_false (okText o) = true -> is_false (cancelText o) = false ->
      find ["ok"] html = true /\ interpolate (okText o) = "false").
Proof.
  unfold default_template. destruct (content o) as [c|]; [|discriminate].
  intros H; injection H as <-.
  unfold header, footer, find.
  split; [|split; [|split]].
  4:{ intros H1 H2. rewrite H1, H2. split.
      - destruct (truthy (title o)); destruct (truthy (allowCancel o));
          destruct (truthy (cancelText o)); reflexivity.
      - destruct (okText o) as [| |[]| | |]; try discriminate. reflexivity. }
  all: destruct (truthy (title o)); destruct (is_false (okText o));
    destruct (is_false (cancelText o)); destruct (truthy (allowCancel o));
    destruct (truthy (cancelText o)); reflexivity.
Qed.

Lemma default_template_buttons_witness :
  exists html,
    default_template (extend_defaults (give_okText (PBool false) confirm))
    = Some html
    /\ find ["ok"] html = true
    /\ find ["cancel"] html = true
    /\ interpolate (okText (extend_defaults
                              (give_okText (PBool false) confirm)))
       = "false".
Proof.
  eexists. split; [reflexivity|].
  destruct (default_template_buttons
              (extend_defaults (give_okText (PBool false) confirm)) _ eq_refl)
    as (_ & H2 & _ & H4).
  destruct (H4 eq_refl eq_refl) as [H5 H6].
  split; [exact H5|]. split; [exact H2 | exact H6].
Defined.

(** ** render *)



(** X3.  With the default template, a [render] that returns leaves the
    header, one [.modal-body] and the footer: the body holds the content
    view's element when the content has one, and otherwise the content as
    the template printed it. *)
Theorem default_render_body (m : Modal) (w : World) (s' : State) (c : CVal) :
  template (options m) = DefaultTemplate ->
  content (options m) = Some c ->
  render (m, w) = Done s' ->
  markup (el (fst s'))
  = (header (options m)
     ++ [El "div" ["modal-body"]
           [if mounts (options m) then Mount
            else Text (interpolate_content c)]]
     ++ footer (options m))%list.
Proof.
  intros Ht Hc Hr.
  destruct (render_result m w s' Hr) as (_ & _ & _ & _ & _ & html & Hh & Hm).
  unfold run_template, default_template in Hh. rewrite Ht, Hc in Hh.
  injection Hh as <-. rewrite Hm.
  destruct (mounts (options m)); [|reflexivity].
  rewrite map_app. cbn [map app].
  rewrite (fill_all_absent _ _ _ (header_has_no_body _)).
  rewrite (fill_all_absent _ _ _ (footer_has_no_body _)).
  reflexivity.
Qed.

Lemma default_render_body_witness :
  render (initialize 0 (give_content a_view confirm), start later_widget)
  = Done (rendered later_widget (give_content a_view confirm))
  /\ find ["modal-body"]
       (markup (el (fst (rendered later_widget
                           (give_content a_view confirm)))))
     = true
  /\ markup (el (fst (rendered later_widget (give_content a_view confirm))))
     = (header (extend_defaults (give_content a_view confirm))
        ++ [El "div" ["modal-body"] [Mount]]
        ++ footer (extend_defaults (give_content a_view confirm)))%list.
Proof.
  pose proof (default_render_body
                (initialize 0 (give_content a_view confirm))
                (start later_widget)
                (rendered later_widget (give_content a_view confirm))
                a_view eq_refl eq_refl eq_refl) as H.
  split; [reflexivity|]. split; [reflexivity | exact H].
Defined.

(** X4.  With a template whose markup has no [.modal-body], a content
    view is still rendered ([content.render()] is called), but its
    element is put nowhere: the markup stays the template's. *)
Theorem view_without_body_is_not_mounted
    (m : Modal) (w : World) (out : list Html) (v : View) :
  template (options m) = CustomTemplate out ->
  find ["modal-body"] out = false ->
  content (options m) = Some (CView v) ->
  view_el v = true ->
  exists s',
    render (m, w) = Done s'
    /\ markup (el (fst s')) = out
    /\ In (ContentRender (mid m)) (log (snd s')).
Proof.
  intros Ht Hf Hc Hv.
  pose proof (render_returns (m, w)) as R. cbn [fst] in R.
  unfold has_content, run_template in R. rewrite Ht, Hc in R.
  destruct (render (m, w)) as [s'|e s'] eqn:E; [|discriminate].
  exists s'. split; [reflexivity|].
  destruct (render_result m w s' E) as (_ & _ & _ & _ & L & html & Hh & Hm).
  unfold run_template in Hh. rewrite Ht in Hh. injection Hh as <-.
  unfold mounts in Hm. rewrite Hc, Hv in Hm. rewrite Hm.
  split; [now apply fill_all_absent|].
  rewrite L. apply in_or_app. right. unfold render_effects.
  rewrite Hc, Hv. apply in_or_app. right. now left.
Qed.

Lemma view_without_body_is_not_mounted_witness :
  find ["modal-body"] [El "div" ["box"] [Text "hello"]] = false
  /\ exists s',
       render (initialize 0 (give_template bare_template
                               (give_content a_view confirm)),
               start later_widget)
       = Done s'
       /\ markup (el (fst s')) = [El "div" ["box"] [Text "hello"]].
Proof.
  destruct (view_without_body_is_not_mounted
              (initialize 0 (give_template bare_template
                               (give_content a_view confirm)))
              (start later_widget) [El "div" ["box"] [Text "hello"]]
              {| view_el := true; view_trigger := true |}
              eq_refl eq_refl eq_refl eq_refl) as (s' & H1 & H2 & _).
  split; [reflexivity|]. exists s'. split; [exact H1 | exact H2].
Defined.

(** X5.  A modal with the default template and a falsey [allowCancel] has,
    once opened, neither a close icon nor a Cancel button (whatever
    [cancelText] is); the OK button is there whenever the footer is.  When
    its markup is plain (no text that could open elements of its own, no
    mounted content view that could bring some), a click has no [.close]
    and no [.cancel] element to land on: these two entries of the events
    table cannot fire. *)
Theorem no_controls_to_cancel
    (cb : option UserAct) (m : Modal) (w : World) (s1 : State) :
  isRendered m = false ->
  template (options m) = DefaultTemplate ->
  truthy (allowCancel (options m)) = false ->
  open cb (m, w) = Done s1 ->
  find ["close"] (markup (el (fst s1))) = false
  /\ find ["cancel"] (markup (el (fst s1))) = false
  /\ find ["ok"] (markup (el (fst s1)))
     = find ["modal-footer"] (markup (el (fst s1)))
  /\ (forallb plain (markup (el (fst s1))) = true ->
      click DotClose s1 = Some s1 /\ click DotCancel s1 = Some s1).
Proof.
  intros Hr Ht Ha Ho. unfold open in Ho. cbn [fst] in Ho. rewrite Hr in Ho.
  destruct (render (m, w)) as [[m1 w1]|e s'] eqn:E; [|discriminate].
  injection Ho as <-. rewrite show_markup.
  assert (Hc : exists c, content (options m) = Some c).
  { pose proof (render_returns (m, w)) as R. rewrite E in R. cbn in R.
    unfold has_content in R. destruct (content (options m)) as [c|];
      [now exists c | discriminate]. }
  destruct Hc as [c Hc].
  assert (M : markup (el m1)
              = (header (options m)
                 ++ [El "div" ["modal-body"]
                       [if mounts (options m) then Mount
                        else Text (interpolate_content c)]]
                 ++ footer (options m))%list).
  { destruct (render_result m w _ E) as (_ & _ & _ & _ & _ & html & Hh & Hm).
    unfold run_template, default_template in Hh. rewrite Ht, Hc in Hh.
    injection Hh as <-. cbn [fst] in Hm. rewrite Hm.
    destruct (mounts (options m)); [|reflexivity].
    rewrite map_app. cbn [map app].
    rewrite (fill_all_absent _ _ _ (header_has_no_body _)).
    rewrite (fill_all_absent _ _ _ (footer_has_no_body _)).
    reflexivity. }
  assert (F : find ["close"] (markup (el m1)) = false
              /\ find ["cancel"] (markup (el m1)) = false
              /\ find ["ok"] (markup (el m1))
                 = find ["modal-footer"] (markup (el m1))).
  { rewrite M. unfold header, footer, find. rewrite Ha.
    destruct (truthy (title (options m)));
      destruct (negb (is_false (okText (options m)))
                || negb (is_false (cancelText (options m))));
      destruct (mounts (options m)); repeat split; reflexivity. }
  destruct F as (F1 & F2 & F3).
  split; [exact F1|]. split; [exact F2|]. split; [exact F3|].
  intros Hp. unfold click. cbn [selector].
  rewrite show_markup, F1, F2, Hp. split; reflexivity.
Qed.

Lemma no_controls_to_cancel_witness :
  truthy (allowCancel (options (initialize 0 (give_allowCancel (PBool false)
                                                confirm))))
  = false
  /\ forallb plain
       (markup (el (fst (opened later_widget
                           (give_allowCancel (PBool false) confirm)))))
     = true
  /\ click DotCancel (opened later_widget
                        (give_allowCancel (PBool false) confirm))
     = Some (opened later_widget (give_allowCancel (PBool false) confirm))
  /\ find ["ok"]
       (markup (el (fst (opened later_widget
                           (give_allowCancel (PBool false) confirm)))))
     = true.
Proof.
  destruct (no_controls_to_cancel None
              (initialize 0 (give_allowCancel (PBool false) confirm))
              (start later_widget)
              (opened later_widget (give_allowCancel (PBool false) confirm))
              eq_refl eq_refl eq_refl eq_refl) as (_ & _ & _ & H).
  destruct (H eq_refl) as (_ & H2).
  split; [reflexivity|]. split; [reflexivity|].
  split; [exact H2 | reflexivity].
Defined.

(** ** open *)

(** X6.  [open] makes the widget insert a backdrop exactly when the
    [backdrop] option is truthy or [undefined].  A truthy value the caller
    gives is not passed on: the widget gets [true] when [allowCancel] is
    truthy and ["static"] when it is not; only a falsey value other than
    [undefined] (such as [false]) reaches the widget as it is. *)
Theorem backdrop_comes_unless_disabled
    (cb : option UserAct) (m : Modal) (w : World) :
  isShown (dialog m) = false ->
  let o := options m in
  let s := show cb (m, w) in
  List.length (backdrops (snd s))
  = (List.length (backdrops w)
     + if truthy (backdrop o) || is_undefined (backdrop o) then 1 else 0)%nat
  /\ (truthy (backdrop o) = true ->
      backdrop_option o
      = if truthy (allowCancel o) then PBool true else PStr "static")
  /\ (truthy (backdrop o) || is_undefined (backdrop o) = false ->
      backdrop_option o = backdrop o).
Proof.
  intros Hs o s. split.
  - subst s. unfold show. cbn [fst].
    destruct (widget_show_fresh (allowCancel (options m))
                (backdrop_option (options m)) m w Hs)
      as (_ & _ & _ & _ & _ & _ & _ & _ & W8 & _).
    destruct (widget_show (allowCancel (options m))
                (backdrop_option (options m)) (m, w)) as [m1 w1].
    cbn [fst snd] in *.
    destruct (truthy (allowCancel (options m)));
      cbn [snd set_count backdrops set_keyup];
      rewrite ?on_selected_length, W8, length_app, backdrop_option_truthy;
      subst o;
      destruct (truthy (backdrop (options m))
                || is_undefined (backdrop (options m)));
      reflexivity.
  - unfold backdrop_option. split; intros H; now rewrite H.
Qed.

Lemma backdrop_comes_unless_disabled_witness :
  isShown (dialog (initialize 0 (give_backdrop (PStr "static") confirm)))
  = false
  /\ backdrop_option (extend_defaults (give_backdrop (PStr "static") confirm))
     = PBool true
  /\ List.length
       (backdrops (snd (show None
                          (initialize 0 (give_backdrop (PStr "static") confirm),
                           start later_widget))))
     = 1%nat.
Proof.
  destruct (backdrop_comes_unless_disabled None
              (initialize 0 (give_backdrop (PStr "static") confirm))
              (start later_widget) eq_refl) as (H1 & H2 & _).
  split; [reflexivity|]. split; [exact (H2 eq_refl) | exact H1].
Defined.

(** X7.  When the widget inserts no backdrop (the option is falsey) and
    the document holds as many backdrops as [Modal.count] says, [open]
    selects no backdrop: it writes no z-index on the element, restyles no
    backdrop and attaches no click handler; the key handler and the count
    are as for any other modal. *)
Theorem no_backdrop_no_stacking (cb : option UserAct) (m : Modal) (w : World) :
  isShown (dialog m) = false ->
  truthy (backdrop_option (options m)) = false ->
  count w = Z.of_nat (List.length (backdrops w)) ->
  let s := show cb (m, w) in
  css_zindex (el (fst s)) = css_zindex (el m)
  /\ backdrops (snd s) = backdrops w
  /\ keyup (snd s)
     = (keyup w ++ if truthy (allowCancel (options m)) then [mid m] else [])%list
  /\ count (snd s) = count w + 1.
Proof.
  intros Hs Hb Hc s. subst s. unfold show. cbn [fst].
  destruct (widget_show_fresh (allowCancel (options m))
              (backdrop_option (options m)) m w Hs)
    as ([S1 S2 S3 S4 S5 S6 S7] & _ & _ & _ & _ & _ & W6 & _ & W8 & _).
  rewrite Hb, app_nil_r in W8.
  destruct (widget_show (allowCancel (options m)) (backdrop_option (options m))
              (m, w)) as [m1 w1].
  cbn [fst snd] in *.
  rewrite W8, S4, Hc, eq_index_beyond.
  cbn [css_get selected add css_value on_selected].
  destruct cb; destruct (truthy (allowCancel (options m))); cbn;
    rewrite ?W6, ?W8, ?S5, ?S1, ?S4, ?Hc, ?app_nil_r; repeat split; reflexivity.
Qed.

Lemma no_backdrop_no_stacking_witness :
  truthy (backdrop_option (extend_defaults
                             (give_backdrop (PBool false) confirm))) = false
  /\ css_zindex (el (fst (show None
                            (initialize 0 (give_backdrop (PBool false) confirm),
                             start later_widget))))
     = None
  /\ backdrops (snd (show None
                       (initialize 0 (give_backdrop (PBool false) confirm),
                        start later_widget)))
     = [].
Proof.
  destruct (no_backdrop_no_stacking None
              (initialize 0 (give_backdrop (PBool false) confirm))
              (start later_widget) eq_refl eq_refl eq_refl) as (H1 & H2 & _).
  split; [reflexivity|]. split; [exact H1 | exact H2].
Defined.

(** X8.  With a widget that signals after the command, the 'shown' signal
    that follows an [open] runs the handler [open] registered, once: it
    focuses the OK button if [focusOk] is truthy, forwards "shown" to a
    trigger-capable content view, then emits "shown" and runs its
    listeners.  The handler is gone after that: a second 'shown' changes
    nothing. *)
Theorem shown_is_emitted_once (cb : option UserAct) (m : Modal) (w : World) :
  timing (widget w) = Deferred ->
  isShown (dialog m) = false ->
  one_shown (el m) = 0%nat ->
  let s1 := show cb (m, w) in
  let s2 := signal_shown s1 in
  log (snd s2)
  = (log (snd s1) ++ SignalShown (mid m) :: focus_request m
     ++ forwarded Shown m
     ++ Emit (mid m) Shown :: notes (mid m) (on_shown (listeners m)))%list
  /\ signal_shown s2 = s2.
Proof.
  intros Ht Hs Ho s1 s2. subst s2 s1.
  unfold show, widget_show. cbn [fst]. rewrite Hs.
  assert (Hw : forall x,
             widget (if truthy (backdrop_option (options m))
                     then set_backdrops x
                            (say (WidgetShow (mid m) (allowCancel (options m))
                                    (backdrop_option (options m))) w)
                     else say (WidgetShow (mid m) (allowCancel (options m))
                                 (backdrop_option (options m))) w)
             = widget w)
    by (intros; now destruct (truthy (backdrop_option (options m)))).
  rewrite Hw, Ht.
  destruct (truthy (backdrop_option (options m)));
    cbn [fst snd count say set_backdrops backdrops];
    match goal with |- context [css_value ?v] => destruct (css_value v) end;
    destruct cb; destruct (truthy (allowCancel (options m)));
    unfold signal_shown;
    cbn [dialog with_el with_dialog wire_close on with_listeners shown_due
         fst snd];
    unfold finish_show, fire_shown;
    cbn [el with_el with_dialog wire_close on with_listeners one_shown
         set_one_shown set_css_zindex set_in_document];
    rewrite Ho;
    change (Nat.iter 1 shown_handler ?x) with (shown_handler x);
    rewrite shown_handler_eq; cbn;
    unfold focus_request, forwarded; cbn;
    rewrite ?on_selected_log; cbn; rewrite <- ?app_assoc; cbn;
    split; reflexivity.
Qed.

Lemma shown_is_emitted_once_witness :
  log (snd (signal_shown (show None (rendered later_widget
                                       (give_content a_view confirm)))))
  = [ContentRender 0; WidgetShow 0 (PBool true) (PBool true); SignalShown 0;
     FocusOk 0; Forward 0 Shown; Emit 0 Shown]
  /\ signal_shown (signal_shown (show None (rendered later_widget
                                              (give_content a_view confirm))))
     = signal_shown (show None (rendered later_widget
                                  (give_content a_view confirm))).
Proof.
  destruct (shown_is_emitted_once None
              (fst (rendered later_widget (give_content a_view confirm)))
              (snd (rendered later_widget (give_content a_view confirm)))
              eq_refl eq_refl eq_refl) as (H1 & H2).
  split; [exact H1 | exact H2].
Defined.

(** X9.  With a widget that signals inside the command, the 'shown' of a
    first [open] comes before [open] has registered its handler: nothing
    is focused, forwarded or emitted, the handler stays waiting, and no
    further 'shown' is owed. *)
Theorem prompt_shown_is_missed (cb : option UserAct) (m : Modal) (w : World) :
  timing (widget w) = Immediate ->
  isShown (dialog m) = false ->
  one_shown (el m) = 0%nat ->
  let s := show cb (m, w) in
  log (snd s)
  = (log w ++ [WidgetShow (mid m) (allowCancel (options m))
                  (backdrop_option (options m));
               SignalShown (mid m)])%list
  /\ one_shown (el (fst s)) = 1%nat
  /\ shown_due (dialog (fst s)) = false
  /\ signal_shown s = s.
Proof.
  intros Ht Hs Ho s. subst s.
  unfold show, widget_show. cbn [fst]. rewrite Hs.
  assert (Hw : forall x,
             widget (if truthy (backdrop_option (options m))
                     then set_backdrops x
                            (say (WidgetShow (mid m) (allowCancel (options m))
                                    (backdrop_option (options m))) w)
                     else say (WidgetShow (mid m) (allowCancel (options m))
                                 (backdrop_option (options m))) w)
             = widget w)
    by (intros; now destruct (truthy (backdrop_option (options m)))).
  rewrite Hw, Ht.
  unfold finish_show, fire_shown.
  cbn [el with_dialog with_el set_in_document one_shown].
  rewrite Ho. change (Nat.iter 0 shown_handler ?x) with x.
  destruct (truthy (backdrop_option (options m)));
    cbn [fst snd count say set_backdrops backdrops];
    match goal with |- context [css_value ?v] => destruct (css_value v) end;
    destruct cb; destruct (truthy (allowCancel (options m))); cbn;
    rewrite ?on_selected_log; cbn; rewrite <- ?app_assoc;
    repeat split; reflexivity.
Qed.

Lemma prompt_shown_is_missed_witness :
  timing (widget (snd (rendered prompt_widget confirm))) = Immediate
  /\ log (snd (show None (rendered prompt_widget confirm)))
     = [WidgetShow 0 (PBool true) (PBool true); SignalShown 0]
  /\ one_shown (el (fst (show None (rendered prompt_widget confirm)))) = 1%nat.
Proof.
  destruct (prompt_shown_is_missed None
              (fst (rendered prompt_widget confirm))
              (snd (rendered prompt_widget confirm))
              eq_refl eq_refl eq_refl) as (H1 & H2 & _).
  split; [reflexivity|]. split; [exact H1 | exact H2].
Defined.

(** X10.  [open] on a modal that is rendered and already showing renders
    nothing and shows nothing (the widget is only called), yet it counts
    the modal again, registers a second 'shown' handler and wires a second
    [close] to "cancel". *)
Theorem open_again_counts_again (cb : option UserAct) (m : Modal) (w : World) :
  isRendered m = true ->
  isShown (dialog m) = true ->
  count w = Z.of_nat (List.length (backdrops w)) ->
  exists s,
    open cb (m, w) = Done s
    /\ count (snd s) = count w + 1
    /\ log (snd s)
       = (log w ++ [WidgetShow (mid m) (allowCancel (options m))
                       (backdrop_option (options m))])%list
    /\ backdrops (snd s) = backdrops w
    /\ markup (el (fst s)) = markup (el m)
    /\ dialog (fst s) = dialog m
    /\ on_cancel (listeners (fst s))
       = (on_cancel (listeners m) ++ [WireClose])%list
    /\ one_shown (el (fst s)) = S (one_shown (el m)).
Proof.
  intros Hr Hs Hc.
  assert (Hsel : eq_index (count w) (List.length (backdrops w)) = None).
  { rewrite Hc. apply eq_index_beyond. }
  eexists. unfold open. cbn [fst]. rewrite Hr.
  split; [reflexivity|].
  unfold show, widget_show. cbn [fst]. rewrite Hs.
  cbn [count say backdrops]. rewrite Hsel.
  cbn [css_get selected add css_value on_selected].
  destruct cb; destruct (truthy (allowCancel (options m))); cbn;
    repeat split; reflexivity.
Qed.

Lemma open_again_counts_again_witness :
  isShown (dialog (fst (opened later_widget confirm))) = true
  /\ exists s,
       open None (opened later_widget confirm) = Done s
       /\ count (snd s) = 2
       /\ on_cancel (listeners (fst s)) = [WireClose; WireClose].
Proof.
  destruct (open_again_counts_again None
              (fst (opened later_widget confirm))
              (snd (opened later_widget confirm))
              eq_refl eq_refl eq_refl)
    as (s & H1 & H2 & _ & _ & _ & _ & H7 & _).
  split; [reflexivity|]. exists s.
  split; [exact H1|]. split; [exact H2 | exact H7].
Defined.

(** X11.  Opening any number of ready modals one after the other (with a
    widget that signals later, in a document with as many backdrops as
    [Modal.count] says) raises [Modal.count] by their number and keeps it
    equal to the number of backdrops; closing them all, in any state of
    the widget's signals, brings the count back to where it started. *)
Theorem all_opened_all_closed (ms : list Modal) :
  Forall ready ms ->
  Forall (fun m => _preventClose m = false) ms ->
  forall w,
    timing (widget w) = Deferred ->
    count w = Z.of_nat (List.length (backdrops w)) ->
    exists ms' w',
      open_each ms w = Some (ms', w')
      /\ count w' = count w + Z.of_nat (List.length ms)
      /\ count w' = Z.of_nat (List.length (backdrops w'))
      /\ count (snd (close_each ms' w')) = count w.
Proof.
  intros R F.
  assert (G : forall w,
             timing (widget w) = Deferred ->
             count w = Z.of_nat (List.length (backdrops w)) ->
             exists ms' w',
               open_each ms w = Some (ms', w')
               /\ count w' = count w + Z.of_nat (List.length ms)
               /\ count w' = Z.of_nat (List.length (backdrops w'))
               /\ List.length ms' = List.length ms
               /\ Forall (fun m => _preventClose m = false) ms').
  { induction R as [|m rest Hm Hrest IH]; intros w Ht Hc.
    - exists [], w. cbn. repeat split; try lia. constructor.
    - inversion F as [|? ? Fm Frest]; subst.
      destruct (open_ready_flag None m w Hm Ht) as ([m1 w1] & E & P & C & W & L).
      cbn [fst snd] in *. specialize (L Hc).
      assert (Ht1 : timing (widget w1) = Deferred) by now rewrite W.
      assert (Hc1 : count w1 = Z.of_nat (List.length (backdrops w1)))
        by (rewrite C, L, Hc; lia).
      destruct (IH Frest w1 Ht1 Hc1) as (ms' & w' & I1 & I2 & I3 & I4 & I5).
      exists (m1 :: ms'), w'. cbn [open_each]. rewrite E, I1.
      split; [reflexivity|]. split; [rewrite I2, C; cbn [List.length]; lia|].
      split; [exact I3|]. split; [cbn; now rewrite I4|].
      constructor; [now rewrite P | exact I5]. }
  intros w Ht Hc. destruct (G w Ht Hc) as (ms' & w' & I1 & I2 & I3 & I4 & I5).
  exists ms', w'. split; [exact I1|]. split; [exact I2|]. split; [exact I3|].
  rewrite (close_each_count ms' w' I5), I2, I4. lia.
Qed.

Lemma all_opened_all_closed_witness :
  exists ms' w',
    open_each (numbered 0 [confirm; give_content a_view confirm])
              (start later_widget)
    = Some (ms', w')
    /\ count w' = 2
    /\ count (snd (close_each ms' w')) = 0.
Proof.
  assert (R : Forall ready (numbered 0 [confirm; give_content a_view confirm]))
    by (repeat constructor).
  assert (F : Forall (fun m => _preventClose m = false)
                     (numbered 0 [confirm; give_content a_view confirm]))
    by (repeat constructor).
  destruct (all_opened_all_closed _ R F (start later_widget) eq_refl eq_refl)
    as (ms' & w' & H1 & H2 & _ & H4).
  exists ms', w'. split; [exact H1|]. split; [exact H2 | exact H4].
Defined.

(** ** The key handler *)

(** X12.  The key handler [open] attaches to the document is one-shot for
    any key: a key other than Escape runs it without any effect and takes
    it away, so an Escape pressed after that is not seen by the Modal. *)
Theorem first_key_spends_the_handler (which : Z) (m : Modal) (w : World) :
  which <> 27 ->
  let s' := press which (m, w) in
  s' = (m, set_keyup (List.remove Nat.eq_dec (mid m) (keyup w)) w)
  /\ log (snd s') = log w
  /\ ~ In (mid m) (keyup (snd s'))
  /\ press 27 s' = s'.
Proof.
  intros H s'.
  assert (E : s' = (m, set_keyup (List.remove Nat.eq_dec (mid m) (keyup w)) w)).
  { subst s'. unfold press. apply iter_fixed. intros y.
    now apply keyup_handler_other_key. }
  rewrite E. split; [reflexivity|]. split; [reflexivity|].
  assert (N : ~ In (mid m) (List.remove Nat.eq_dec (mid m) (keyup w)))
    by apply remove_In.
  split; [exact N|]. now apply press_without_handler.
Qed.

Lemma first_key_spends_the_handler_witness :
  65 <> 27
  /\ In 0%nat (keyup (snd (opened later_widget confirm)))
  /\ log (snd (press 65 (fst (opened later_widget confirm),
                         snd (opened later_widget confirm))))
     = log (snd (opened later_widget confirm))
  /\ press 27 (press 65 (fst (opened later_widget confirm),
                         snd (opened later_widget confirm)))
     = press 65 (fst (opened later_widget confirm),
                 snd (opened later_widget confirm)).
Proof.
  assert (H : 65 <> 27) by discriminate.
  destruct (first_key_spends_the_handler 65
              (fst (opened later_widget confirm))
              (snd (opened later_widget confirm)) H) as (_ & L & _ & P).
  split; [exact H|]. split; [left; reflexivity|].
  split; [exact L | exact P].
Defined.

(** X13.  When [allowCancel] is truthy and Escape is the first key after
    [open] (widget signalling later, listeners on "cancel" that do not
    veto), the Modal emits "cancel", its wiring closes it, and
    [Modal.count] is back at its value before [open]; the handler is
    gone. *)
Theorem escape_first_cancels
    (cb : option UserAct) (acts : list UserAct) (m : Modal) (w : World)
    (s1 : State) :
  timing (widget w) = Deferred ->
  isShown (dialog m) = false ->
  truthy (allowCancel (options m)) = true ->
  on_cancel (listeners m) = map UserCancel acts ->
  vetoed acts (_preventClose m) = false ->
  ~ In (mid m) (keyup w) ->
  open cb (m, w) = Done s1 ->
  count (snd s1) = count w + 1
  /\ count (snd (press 27 s1)) = count w
  /\ In (Emit (mid m) Cancel) (log (snd (press 27 s1)))
  /\ keyup (snd (press 27 s1)) = keyup w.
Proof.
  intros Ht Hs Ha Hc Hv Hk Ho. unfold open in Ho. cbn [fst] in Ho.
  destruct (if isRendered m then @Done State (m, w) else render (m, w))
    as [[m1 w1]|e s'] eqn:E; [|discriminate].
  destruct (open_renders m w _ E)
    as ([S1 S2 S3 S4 S5 S6 S7] & [K1 K2 K3 K4 K5 K6] & P).
  injection Ho as <-. cbn [fst snd] in *.
  assert (Hs1 : isShown (dialog m1) = false) by now rewrite K1.
  destruct (show_fresh cb m1 w1 Hs1)
    as (A1 & A2 & A3 & A4 & _ & _ & _ & _ & _ & _ & A11 & A12 & A13 & _).
  rewrite (same_allowCancel _ _ S2), Ha, S1, S5 in A11.
  rewrite S3, Hc in A12.
  specialize (A13 ltac:(now rewrite S6)).
  destruct (show cb (m1, w1)) as [m2 w2]. cbn [fst snd] in *.
  split; [now rewrite A3, S4|].
  unfold press. rewrite A11, A1, S1.
  rewrite count_occ_app, (proj1 (count_occ_not_In Nat.eq_dec _ _) Hk).
  rewrite remove_app, (notin_remove Nat.eq_dec _ _ Hk).
  cbn [count_occ List.remove Nat.add].
  destruct (Nat.eq_dec (mid m) (mid m)) as [_|N]; [|congruence].
  rewrite app_nil_r.
  change (Nat.iter 1 (keyup_handler 27) ?x) with (keyup_handler 27 x).
  set (s2 := (m2, set_keyup (keyup w) w2)).
  assert (T : trigger Cancel s2
              = close (with_prevent false m2,
                       say_all (Emit (mid m2) Cancel :: notes (mid m2) acts)
                               (set_keyup (keyup w) w2))).
  { subst s2. rewrite (trigger_cancel_wired acts) by exact A12.
    now rewrite A13, P, Hv. }
  assert (C : count (snd (trigger Cancel s2)) = count w).
  { rewrite T, close_count by reflexivity. cbn. rewrite A3, S4. lia. }
  assert (L : In (Emit (mid m) Cancel) (log (snd (trigger Cancel s2)))).
  { rewrite T. destruct (close_log_grows
       (with_prevent false m2,
        say_all (Emit (mid m2) Cancel :: notes (mid m2) acts)
                (set_keyup (keyup w) w2))) as [l Hl].
    rewrite Hl. cbn [snd log say_all]. rewrite A1, S1.
    apply in_or_app. left. apply in_or_app. right. now left. }
  assert (K : keyup (snd (trigger Cancel s2)) = keyup w).
  { rewrite T, close_eq. cbn [_preventClose with_prevent snd keyup set_count].
    now rewrite (steady_keyup _ _ (Steady_ask_hide _)). }
  unfold keyup_handler. cbn [Z.eqb Pos.eqb].
  destruct (can_trigger (options (fst (trigger Cancel s2))));
    cbn [fst snd count say log keyup].
  - split; [exact C|]. split; [|exact K].
    apply in_or_app. now left.
  - split; [exact C|]. split; [exact L | exact K].
Qed.

Lemma escape_first_cancels_witness :
  truthy (allowCancel (options (initialize 0 confirm))) = true
  /\ count (snd (opened later_widget confirm)) = 1
  /\ count (snd (press 27 (opened later_widget confirm))) = 0
  /\ keyup (snd (press 27 (opened later_widget confirm))) = [].
Proof.
  destruct (escape_first_cancels None [] (initialize 0 confirm)
              (start later_widget) (opened later_widget confirm)
              eq_refl eq_refl eq_refl eq_refl eq_refl (fun H => H) eq_refl)
    as (H1 & H2 & _ & H4).
  split; [reflexivity|]. split; [exact H1|]. split; [exact H2 | exact H4].
Defined.

(** ** close *)

(** X14.  With an [animate] function that does not call its continuation
    during the call, a [close()] that is not vetoed returns with the hook
    called and nothing asked of the widget: the modal is still showing and
    in the document, yet [Modal.count] is already decremented and the
    'hidden' handler registered. *)
Theorem hook_defers_hide (h : Hook) (m : Modal) (w : World) :
  _preventClose m = false ->
  animate (options m) = AnimHook h ->
  on_close h <> ReplyNow ->
  let s := close (m, w) in
  log (snd s) = (log w ++ [HookCall (mid m) PhaseClose])%list
  /\ count (snd s) = count w - 1
  /\ dialog (fst s) = dialog m
  /\ in_document (el (fst s)) = in_document (el m)
  /\ one_hidden (el (fst s)) = S (one_hidden (el m))
  /\ held (fst s) = match on_close h with
                    | ReplyLater => S (held m)
                    | _ => held m
                    end.
Proof.
  intros Hp Ha Hn s. subst s. unfold close. rewrite Hp, Ha.
  unfold hook_close. cbv zeta.
  destruct (on_close h); [congruence| |]; cbn; repeat split.
Qed.

Lemma hook_defers_hide_witness :
  animate (options (fst (opened later_widget (give_animate deaf_hook confirm))))
  = deaf_hook
  /\ count (snd (close (fst (opened later_widget
                               (give_animate deaf_hook confirm)),
                        snd (opened later_widget
                               (give_animate deaf_hook confirm)))))
     = count (snd (opened later_widget (give_animate deaf_hook confirm))) - 1
  /\ dialog (fst (close (fst (opened later_widget
                                (give_animate deaf_hook confirm)),
                         snd (opened later_widget
                                (give_animate deaf_hook confirm)))))
     = dialog (fst (opened later_widget (give_animate deaf_hook confirm))).
Proof.
  assert (N : ReplyNever <> ReplyNow) by discriminate.
  destruct (hook_defers_hide {| on_close := ReplyNever |}
              (fst (opened later_widget (give_animate deaf_hook confirm)))
              (snd (opened later_widget (give_animate deaf_hook confirm)))
              eq_refl eq_refl N) as (_ & H2 & H3 & _).
  split; [reflexivity|]. split; [exact H2 | exact H3].
Defined.

(** X15.  With a widget that signals inside the command, the 'hidden' of a
    [close()] comes before [close] has registered its handler: the
    element is not removed and "hidden" is not emitted, the handler stays
    waiting, and no further 'hidden' is owed. *)
Theorem prompt_hidden_is_missed (p : prim) (m : Modal) (w : World) :
  _preventClose m = false ->
  timing (widget w) = Immediate ->
  isShown (dialog m) = true ->
  one_hidden (el m) = 0%nat ->
  animate (options m) = AnimPrim p ->
  let s := close (m, w) in
  log (snd s) = (log w ++ [WidgetHide (mid m); SignalHidden (mid m)])%list
  /\ in_document (el (fst s)) = in_document (el m)
  /\ one_hidden (el (fst s)) = 1%nat
  /\ count (snd s) = count w - 1
  /\ signal_hidden s = s.
Proof.
  intros Hp Ht Hs Ho Ha s. subst s.
  unfold close. rewrite Hp, Ha.
  unfold widget_hide. rewrite Hs. cbn [widget say]. rewrite Ht.
  unfold finish_hide, fire_hidden. cbn [el with_dialog]. rewrite Ho.
  change (Nat.iter 0 hidden_handler ?x) with x.
  cbn. rewrite <- app_assoc. repeat split.
Qed.

Lemma prompt_hidden_is_missed_witness :
  timing (widget (snd (opened prompt_widget confirm))) = Immediate
  /\ in_document (el (fst (close (fst (opened prompt_widget confirm),
                                  snd (opened prompt_widget confirm)))))
     = in_document (el (fst (opened prompt_widget confirm)))
  /\ signal_hidden (close (fst (opened prompt_widget confirm),
                           snd (opened prompt_widget confirm)))
     = close (fst (opened prompt_widget confirm),
              snd (opened prompt_widget confirm)).
Proof.
  destruct (prompt_hidden_is_missed (PBool false)
              (fst (opened prompt_widget confirm))
              (snd (opened prompt_widget confirm))
              eq_refl eq_refl eq_refl eq_refl eq_refl)
    as (_ & H2 & _ & _ & H5).
  split; [reflexivity|]. split; [exact H2 | exact H5].
Defined.

(** X16.  Each [close()] that is not vetoed registers one more 'hidden'
    handler and decrements [Modal.count], whether or not the modal is
    still showing.  After [k+1] calls on a showing modal (widget
    signalling later, no [animate] function) the count is down by [k+1],
    the widget was told to hide [k+1] times, and the one 'hidden' signal
    runs the handler [k+1] times: the element is removed and "hidden"
    emitted that many times. *)
Theorem hidden_once_per_close (k : nat) (p : prim) (m : Modal) (w : World) :
  _preventClose m = false ->
  timing (widget w) = Deferred ->
  animate (options m) = AnimPrim p ->
  isShown (dialog m) = true ->
  one_hidden (el m) = 0%nat ->
  let s := Nat.iter (S k) close (m, w) in
  count (snd s) = count w - Z.of_nat (S k)
  /\ log (snd s) = (log w ++ repeat (WidgetHide (mid m)) (S k))%list
  /\ log (snd (signal_hidden s))
     = (log (snd s) ++ SignalHidden (mid m)
        :: List.concat (repeat (hidden_round m) (S k)))%list
  /\ in_document (el (fst (signal_hidden s))) = false.
Proof.
  intros Hp Ht Ha Hs Ho.
  destruct (closing_repeatedly (S k) p m w Hp Ht Ha)
    as (C & H1 & L & P & T & I & O & Li & D & Dg).
  cbv zeta in *. rewrite Hs in Dg.
  destruct (Nat.iter (S k) close (m, w)) as [m1 w1]. cbn [fst snd] in *.
  split; [exact C|]. split; [exact L|].
  unfold signal_hidden. rewrite Dg. cbn [hidden_due isShown shown_due].
  unfold finish_hide, fire_hidden. cbn [el with_dialog]. rewrite H1, Ho.
  cbn [Nat.add].
  match goal with |- context [Nat.iter (S k) hidden_handler (?a, ?b)] =>
    destruct (hidden_handlers_log (S k) a b) as (A1 & A2 & A3 & A4 & A5 & A6)
  end.
  cbv zeta in *.
  destruct (Nat.iter (S k) hidden_handler _) as [m2 w2]. cbn [fst snd] in *.
  cbv beta iota zeta. cbn [fst snd log drop_backdrops set_backdrops].
  split.
  - rewrite A1. cbn [log say mid with_dialog with_el].
    unfold hidden_round, forwarded.
    cbn [mid options listeners with_dialog with_el].
    rewrite I, O, Li, <- app_assoc. reflexivity.
  - apply A6. discriminate.
Qed.

Lemma hidden_once_per_close_witness :
  isShown (dialog (fst (opened later_widget confirm))) = true
  /\ count (snd (Nat.iter 2 close (fst (opened later_widget confirm),
                                    snd (opened later_widget confirm))))
     = count (snd (opened later_widget confirm)) - Z.of_nat 2
  /\ in_document
       (el (fst (signal_hidden
                   (Nat.iter 2 close (fst (opened later_widget confirm),
                                      snd (opened later_widget confirm))))))
     = false.
Proof.
  destruct (hidden_once_per_close 1 (PBool false)
              (fst (opened later_widget confirm))
              (snd (opened later_widget confirm))
              eq_refl eq_refl eq_refl eq_refl eq_refl) as (H1 & _ & _ & H4).
  split; [reflexivity|]. split; [exact H1 | exact H4].
Defined.

(** ** Listeners and the veto *)

(** X17.  Every [open] adds a listener on "cancel" that calls [close()],
    and none is ever taken away: with [k] of them after the caller's
    listeners (none of which vetoes), one "cancel" runs [close()] [k]
    times, tells the widget to hide [k] times and lowers [Modal.count] by
    [k] (widget signalling later, no [animate] function). *)
Theorem cancel_closes_once_per_open
    (k : nat) (acts : list UserAct) (p : prim) (m : Modal) (w : World) :
  on_cancel (listeners m)
  = (map UserCancel acts ++ repeat WireClose k)%list ->
  vetoed acts (_preventClose m) = false ->
  timing (widget w) = Deferred ->
  animate (options m) = AnimPrim p ->
  count (snd (trigger Cancel (m, w))) = count w - Z.of_nat k
  /\ log (snd (trigger Cancel (m, w)))
     = (log w ++ Emit (mid m) Cancel :: notes (mid m) acts
        ++ repeat (WidgetHide (mid m)) k)%list.
Proof.
  intros Hc Hv Ht Ha. unfold trigger. rewrite Hc, fold_left_app.
  rewrite run_cancels_users, run_users, Hv, wired_closes.
  rewrite say_is_say_all, say_all_say_all.
  match goal with |- context [Nat.iter k close (?a, ?b)] =>
    destruct (closing_repeatedly k p a b eq_refl Ht Ha)
      as (C & _ & L & _) end.
  cbv zeta in *. rewrite C, L. cbn. rewrite <- app_assoc. split; reflexivity.
Qed.

Lemma cancel_closes_once_per_open_witness :
  on_cancel (listeners (fst (state_of (open None
                                         (opened later_widget confirm)))))
  = (map UserCancel [] ++ repeat WireClose 2)%list
  /\ count (snd (trigger Cancel
                   (fst (state_of (open None (opened later_widget confirm))),
                    snd (state_of (open None (opened later_widget confirm))))))
     = count (snd (state_of (open None (opened later_widget confirm))))
       - Z.of_nat 2.
Proof.
  destruct (cancel_closes_once_per_open 2 [] (PBool false)
              (fst (state_of (open None (opened later_widget confirm))))
              (snd (state_of (open None (opened later_widget confirm))))
              eq_refl eq_refl eq_refl eq_refl) as (H1 & _).
  split; [reflexivity | exact H1].
Defined.

(** X18.  Listeners on "cancel" run in the order they were registered, and
    the closing one is registered by [open].  A listener added after
    [open] that calls [preventClose()] therefore comes too late: the
    modal is closed all the same ([Modal.count] goes down), and the veto
    stays set until the next [close()], which it stops. *)
Theorem late_cancel_listener_cannot_veto
    (before_open after_open : list UserAct) (m : Modal) (w : World) :
  on_cancel (listeners m)
  = (map UserCancel before_open ++ [WireClose]
     ++ map UserCancel after_open)%list ->
  vetoed before_open (_preventClose m) = false ->
  In ActPreventClose after_open ->
  let s := trigger Cancel (m, w) in
  count (snd s) = count w - 1
  /\ _preventClose (fst s) = true
  /\ close s = (with_prevent false (fst s), snd s).
Proof.
  intros Hc Hv Hin s.
  assert (E : s = fold_left run_user after_open
                    (close (with_prevent false m,
                            say_all (Emit (mid m) Cancel
                                     :: notes (mid m) before_open) w))).
  { subst s. unfold trigger. rewrite Hc, !fold_left_app.
    rewrite !run_cancels_users, run_users, Hv.
    now rewrite say_is_say_all, say_all_say_all. }
  set (c := close _) in E. destruct c as [m1 w1] eqn:Ec.
  rewrite run_users in E.
  assert (Hcount : count w1 = count w - 1).
  { change w1 with (snd (m1, w1)). rewrite <- Ec. subst c.
    now rewrite close_count. }
  rewrite E. cbn [fst snd count say_all _preventClose with_prevent].
  split; [exact Hcount|].
  rewrite (vetoed_by _ _ Hin). split; [reflexivity|].
  unfold close. cbn [_preventClose with_prevent]. reflexivity.
Qed.

Lemma late_cancel_listener_cannot_veto_witness :
  on_cancel (listeners (on Cancel ActPreventClose
                          (fst (opened later_widget confirm))))
  = (map UserCancel [] ++ [WireClose] ++ map UserCancel [ActPreventClose])%list
  /\ count (snd (trigger Cancel
                   (on Cancel ActPreventClose
                       (fst (opened later_widget confirm)),
                    snd (opened later_widget confirm))))
     = count (snd (opened later_widget confirm)) - 1
  /\ _preventClose
       (fst (trigger Cancel
               (on Cancel ActPreventClose (fst (opened later_widget confirm)),
                snd (opened later_widget confirm))))
     = true.
Proof.
  destruct (late_cancel_listener_cannot_veto [] [ActPreventClose]
              (on Cancel ActPreventClose (fst (opened later_widget confirm)))
              (snd (opened later_widget confirm))
              eq_refl eq_refl (or_introl eq_refl)) as (H1 & H2 & _).
  split; [reflexivity|]. split; [exact H1 | exact H2].
Defined.

(** X19.  When [okCloses] is truthy and a listener on "ok" (such as the
    callback given to [open]) calls [preventClose()], a click on OK emits
    and forwards "ok" and nothing else happens: the [close()] that follows
    only clears the flag, so the element, the widget and [Modal.count] are
    as before. *)
Theorem ok_listener_keeps_modal_open (m : Modal) (w : World) :
  truthy (okCloses (options m)) = true ->
  In ActPreventClose (on_ok (listeners m)) ->
  let s := events DotOk (m, w) in
  count (snd s) = count w
  /\ el (fst s) = el m
  /\ dialog (fst s) = dialog m
  /\ _preventClose (fst s) = false
  /\ log (snd s)
     = (log w ++ Emit (mid m) Ok :: notes (mid m) (on_ok (listeners m))
        ++ forwarded Ok m)%list.
Proof.
  intros Hk Hin s. subst s. rewrite (ok_listener_vetoes m w Hk Hin).
  repeat split.
Qed.

Lemma ok_listener_keeps_modal_open_witness :
  In ActPreventClose
     (on_ok (listeners (fst (opened_with ActPreventClose later_widget confirm))))
  /\ count (snd (events DotOk
                   (fst (opened_with ActPreventClose later_widget confirm),
                    snd (opened_with ActPreventClose later_widget confirm))))
     = count (snd (opened_with ActPreventClose later_widget confirm))
  /\ dialog (fst (events DotOk
                    (fst (opened_with ActPreventClose later_widget confirm),
                     snd (opened_with ActPreventClose later_widget confirm))))
     = dialog (fst (opened_with ActPreventClose later_widget confirm)).
Proof.
  destruct (ok_listener_keeps_modal_open
              (fst (opened_with ActPreventClose later_widget confirm))
              (snd (opened_with ActPreventClose later_widget confirm))
              eq_refl (or_introl eq_refl)) as (H1 & _ & H3 & _).
  split; [left; reflexivity|]. split; [exact H1 | exact H3].
Defined.

(** X20.  When [okCloses] is falsey, a [preventClose()] called by a
    listener on "ok" is not used up by the click: the flag stays set and
    stops the next [close()], whenever and from wherever it comes. *)
Theorem unspent_veto_stops_next_close (m : Modal) (w : World) :
  truthy (okCloses (options m)) = false ->
  In ActPreventClose (on_ok (listeners m)) ->
  let s := events DotOk (m, w) in
  _preventClose (fst s) = true
  /\ count (snd s) = count w
  /\ close s = (with_prevent false (fst s), snd s)
  /\ count (snd (close s)) = count w.
Proof.
  intros Hk Hin s.
  assert (E : s = (with_prevent true m,
                   say_all (Emit (mid m) Ok :: notes (mid m) (on_ok (listeners m))
                            ++ forwarded Ok m) w)).
  { subst s. unfold events, trigger.
    rewrite trigger_plain_eq, forward_eq, say_all_say_all.
    cbn [fst options with_prevent user_listeners]. rewrite Hk.
    now rewrite (vetoed_by _ _ Hin). }
  rewrite E. repeat split.
Qed.

Lemma unspent_veto_stops_next_close_witness :
  truthy (okCloses (options (fst (opened_with ActPreventClose later_widget
                                    (give_okCloses (PBool false) confirm)))))
  = false
  /\ _preventClose
       (fst (events DotOk
               (fst (opened_with ActPreventClose later_widget
                       (give_okCloses (PBool false) confirm)),
                snd (opened_with ActPreventClose later_widget
                       (give_okCloses (PBool false) confirm)))))
     = true
  /\ count (snd (close (events DotOk
                          (fst (opened_with ActPreventClose later_widget
                                  (give_okCloses (PBool false) confirm)),
                           snd (opened_with ActPreventClose later_widget
                                  (give_okCloses (PBool false) confirm))))))
     = count (snd (opened_with ActPreventClose later_widget
                     (give_okCloses (PBool false) confirm))).
Proof.
  destruct (unspent_veto_stops_next_close
              (fst (opened_with ActPreventClose later_widget
                      (give_okCloses (PBool false) confirm)))
              (snd (opened_with ActPreventClose later_widget
                      (give_okCloses (PBool false) confirm)))
              eq_refl (or_introl eq_refl)) as (H1 & _ & _ & H4).
  split; [reflexivity|]. split; [exact H1 | exact H4].
Defined.
